(** * Chatapp hosting bot (src/index.js): quota ledger, referrals, admin
    conversation state, broadcast and the upload/delete flow.

    The handlers of index.js are embedded as computations in a small
    state-and-exception monad over an explicit [World]: the Firestore
    collections, the storage bucket, the module-level Sets, Maps and mode
    flags, and the list of messages sent so far.

    Modelling conventions.
    - JavaScript numbers that the bot manipulates (Telegram ids, counters,
      slot limits) are modelled as [Z].  This is exact for the integers a
      number holds exactly ([JS.safeInteger]); a statement that depends on
      the value of a number read from a text carries that range as a
      hypothesis.
    - Strings are sequences of bytes, a text being held in UTF-8.
    - [ctx.from.id] is a JavaScript number (the code compares it with
      [Number(adminId)] and converts it with [String(userId)]), free text is
      a JavaScript string; values stored in a JS [Set] keep their type, so
      the banned set is a set of [jsval].
    - Firestore and the bucket are in-memory maps.  Reads, [set] and
      [exists] succeed; [update] on an absent document throws (Firestore
      answers NOT_FOUND); the bucket calls [save], [delete] and [getFiles],
      the file download and the Telegram deliveries of a broadcast succeed
      or throw as the event says.
    - Events are handled one at a time; an event names the handler that
      runs, the middleware chain that routes updates to handlers is not
      part of the model.  In the bot a text is taken by [bot.on('text')] and
      a document by [bot.on('document')], so that only the other messages
      get to the broadcast listener ([reaches_listener]).
    - Message templates are abstracted to the constructors of [Msg]; of
      building them, the [repeat] calls of the usage bars and the joining
      of their results are modelled, which throw for a negative count and
      for a result longer than the longest string of the engine. *)

From Stdlib Require Import ZArith Lia Ascii String List Sorted.
From stdpp Require Import base option gmap strings list fin_maps pretty.

Local Open Scope string_scope.
Local Open Scope Z_scope.

(** ** JavaScript string primitives used by the handlers *)

Module JS.

(** Strings are sequences of bytes, a text being held in UTF-8.  The white
    space removed by [String.prototype.trim] and skipped by [parseInt] is
    WhiteSpace and LineTerminator of the language: TAB, LF, VT, FF, CR,
    SPACE, which are one byte each, and U+00A0, U+1680, U+2000 to U+200A,
    U+2028, U+2029, U+202F, U+205F, U+3000 and U+FEFF, which are two or
    three bytes. *)
Definition isWhiteSpace (c : ascii) : bool :=
  let n := nat_of_ascii c in
  ((n =? 9) || (n =? 10) || (n =? 11) || (n =? 12) || (n =? 13) || (n =? 32))%nat.

(** U+00A0 is C2 A0. *)
Definition isWhiteSpace2 (c1 c2 : ascii) : bool :=
  ((nat_of_ascii c1 =? 194) && (nat_of_ascii c2 =? 160))%nat.

(** U+1680 is E1 9A 80; U+2000 to U+200A are E2 80 80 to E2 80 8A; U+2028,
    U+2029 and U+202F are E2 80 A8, E2 80 A9 and E2 80 AF; U+205F is
    E2 81 9F; U+3000 is E3 80 80; U+FEFF is EF BB BF. *)
Definition isWhiteSpace3 (c1 c2 c3 : ascii) : bool :=
  let n1 := nat_of_ascii c1 in
  let n2 := nat_of_ascii c2 in
  let n3 := nat_of_ascii c3 in
  ((n1 =? 225) && (n2 =? 154) && (n3 =? 128)
   || (n1 =? 226) && (n2 =? 128)
      && ((128 <=? n3) && (n3 <=? 138) || (n3 =? 168) || (n3 =? 169) || (n3 =? 175))
   || (n1 =? 226) && (n2 =? 129) && (n3 =? 159)
   || (n1 =? 227) && (n2 =? 128) && (n3 =? 128)
   || (n1 =? 239) && (n2 =? 187) && (n3 =? 191))%nat.

Fixpoint trimStart (s : string) : string :=
  match s with
  | String c1 r1 =>
      if isWhiteSpace c1 then trimStart r1 else
      match r1 with
      | String c2 r2 =>
          if isWhiteSpace2 c1 c2 then trimStart r2 else
          match r2 with
          | String c3 r3 => if isWhiteSpace3 c1 c2 c3 then trimStart r3 else s
          | EmptyString => s
          end
      | EmptyString => s
      end
  | EmptyString => EmptyString
  end.

(** Whether the string is white space only. *)
Definition isBlank (s : string) : bool :=
  match trimStart s with EmptyString => true | _ => false end.

(** The string up to its last byte that is not part of trailing white
    space: a byte is dropped exactly when white space only follows from it
    on (no white space character starts with a continuation byte). *)
Fixpoint trimEnd (s : string) : string :=
  match s with
  | String c r => if isBlank s then EmptyString else String c (trimEnd r)
  | EmptyString => EmptyString
  end.

(** [s.trim()] *)
Definition trim (s : string) : string := trimEnd (trimStart s).

(** [s.split(sep)] for a one-character separator: always at least one
    piece, empty pieces are kept. *)
Fixpoint split_go (sep : ascii) (cur : string) (s : string) : list string :=
  match s with
  | EmptyString => [String.rev cur]
  | String c s' =>
      if Ascii.eqb c sep then String.rev cur :: split_go sep EmptyString s'
      else split_go sep (String c cur) s'
  end.

Definition split (sep : ascii) (s : string) : list string :=
  split_go sep EmptyString s.

(** [s.endsWith(suffix)] *)
Definition endsWith (s suffix : string) : bool :=
  String.prefix (String.rev suffix) (String.rev s).

(** [s.startsWith(p)], used for [getFiles({prefix})]. *)
Definition startsWith (s p : string) : bool := String.prefix p s.

Definition digitVal (radix : Z) (c : ascii) : option Z :=
  let n := Z.of_nat (nat_of_ascii c) in
  let d :=
    if (48 <=? n) && (n <=? 57) then Some (n - 48)
    else if (97 <=? n) && (n <=? 122) then Some (n - 87)
    else if (65 <=? n) && (n <=? 90) then Some (n - 55)
    else None in
  match d with
  | Some v => if v <? radix then Some v else None
  | None => None
  end.

(** Longest prefix of digits of the radix; [None] when there is no digit. *)
Fixpoint parseDigits (radix : Z) (s : string) (acc : option Z) : option Z :=
  match s with
  | String c s' =>
      match digitVal radix c with
      | Some d => parseDigits radix s' (Some (radix * default 0 acc + d))
      | None => acc
      end
  | EmptyString => acc
  end.

(** [parseInt(s)] without a radix argument; [None] is NaN.  The result is
    the integer the digits denote, which is the number [parseInt] returns
    when it is a [safeInteger] (defined below). *)
Definition parseInt (s : string) : option Z :=
  let s1 := trimStart s in
  let '(neg, s2) :=
    match s1 with
    | String "-" r => (true, r)
    | String "+" r => (false, r)
    | _ => (false, s1)
    end in
  let '(radix, s3) :=
    match s2 with
    | String "0" (String "x" r) => (16, r)
    | String "0" (String "X" r) => (16, r)
    | _ => (10, s2)
    end in
  match parseDigits radix s3 None with
  | Some n => Some (if neg : bool then - n else n)
  | None => None
  end.

(** The integers a JavaScript number holds exactly.  On them [parseInt] and
    the additions of the handlers are the ones of [Z]; beyond them a number
    is rounded, which [Z] does not show. *)
Definition maxSafeInteger : Z := 9007199254740991.

Definition safeInteger (n : Z) : Prop := - maxSafeInteger <= n <= maxSafeInteger.

(** The longest string of the engine, in UTF-16 code units (V8 on a 64-bit
    platform: 2^29 - 24). *)
Definition maxStringLength : Z := 536870888.

(** [s.repeat(count)] for an [s] of [unit] code units throws a RangeError
    when [count] is negative and when the result would be longer than the
    longest string. *)
Definition repeatThrows (unit count : Z) : bool :=
  (count <? 0) || (maxStringLength <? unit * count).

(** Joining strings of [a] and [b] code units throws a RangeError when the
    result would be longer than the longest string. *)
Definition concatThrows (a b : Z) : bool := maxStringLength <? a + b.

(** A string is truthy iff it is not empty. *)
Definition truthy (s : string) : bool :=
  match s with EmptyString => false | _ => true end.

End JS.

(** ** Values that reach the module-level [Set]s *)

Inductive jsval : Type :=
| JNum (n : Z)
| JStr (s : string).

Global Instance jsval_eq_dec : EqDecision jsval.
Proof. solve_decision. Defined.

Global Instance jsval_countable : Countable jsval.
Proof.
  refine (inj_countable'
    (λ v, match v with JNum n => inl n | JStr s => inr s end)
    (λ x, match x with inl n => JNum n | inr s => JStr s end) _).
  intros []; reflexivity.
Defined.

(** [String(v)]: decimal rendering of a number, identity on a string. *)
Definition JString (v : jsval) : string :=
  match v with
  | JNum n => pretty n
  | JStr s => s
  end.

(** ** Data model *)

(** The [stats] sub-record of a user document. *)
Record Stats : Type := mkStats {
  fileCount : Z;
  referrals : list string;
  baseLimit : Z;
  referralReward : option Z
}.

(** A document of the [users] collection. *)
Record UserDoc : Type := mkUserDoc {
  chatId : Z;
  name : string;
  joinedAt : string;
  stats : option Stats
}.

(** A document of the [dailyStats] collection. *)
Record DailyDoc : Type := mkDailyDoc {
  daily_users : list Z;
  daily_count : Z
}.

(** An object of the storage bucket. *)
Record StoredFile : Type := mkStoredFile {
  content : string;
  contentType : string
}.

(** Outgoing chat messages, one constructor per template. *)
Inductive Msg : Type :=
| MsgBanned
| MsgNotAuthorized
| MsgLimitReached (used total : Z)
| MsgBadExtension
| MsgProcessing
| MsgUploadSuccess (link : string) (used total : Z)
| MsgUploadError
| MsgNoFiles
| MsgFileList (names : list string)
| MsgFetchError
| MsgNoFilesToDelete
| MsgSelectFile (names : list string)
| MsgFileNotFound (fileName : string)
| MsgDeleted (fileName : string)
| MsgDeleteError (fileName : string)
| MsgStats (used total nrefs : Z)
| MsgReferredWelcome
| MsgReferralSuccess (total : Z)
| MsgAdminMenu
| MsgUserMenu
| MsgAskAddSlots
| MsgAskBanTarget
| MsgAskUnbanTarget
| MsgAskDefaultSlots
| MsgAskReferralReward
| MsgInvalidFormat
| MsgUserNotFound
| MsgSlotsAdded (target : string) (slots total : Z)
| MsgAddSlotsError
| MsgUserBanned (target : string)
| MsgUserUnbanned (target : string)
| MsgInvalidNumber
| MsgDefaultUpdated (limit : Z)
| MsgDefaultError
| MsgRewardUpdated (reward : Z)
| MsgRewardError
| MsgAskBroadcast
| MsgNoUsers
| MsgBroadcastResult (sentCount failedCount : Z)
| MsgBroadcastError
| MsgBroadcastText (body : string)
| MsgBroadcastPhoto (photoId caption : string)
| MsgBroadcastVideo (videoId caption : string).

(** What leaves the process. *)
Inductive Effect : Type :=
| Reply (to : Z) (m : Msg)                (* ctx.reply *)
| ReplyAnimation (to : Z)                 (* ctx.replyWithAnimation *)
| SendMessage (chat : jsval) (m : Msg)    (* bot.telegram.sendMessage/Photo/Video *)
| SendAnimation (chat : jsval)            (* bot.telegram.sendAnimation *)
| ConsoleError.                           (* console.error *)

(** What a [catch] clause receives. *)
Inductive JsError : Type :=
| ErrNotFound      (* Firestore update of an absent document *)
| ErrStorage       (* the bucket refused the call *)
| ErrTransport     (* Telegram or the download failed *)
| ErrRange         (* String.prototype.repeat: negative count or too long a result *)
| ErrType.         (* property read on undefined *)

(** The process state and its two stores. *)
Record World : Type := mkWorld {
  db_users : gmap string UserDoc;         (* db.collection('users') *)
  db_dailyStats : gmap string DailyDoc;   (* db.collection('dailyStats') *)
  storageBucket : gmap string StoredFile;
  bannedUsers : gset jsval;
  users : gset jsval;
  adminStates : gmap Z string;
  broadcastStates : gmap Z bool;
  banUserMode : bool;
  unbanUserMode : bool;
  defaultSlotsMode : bool;
  referralRewardMode : bool;
  outbox : list Effect
}.

Definition set_db_users (f : gmap string UserDoc → gmap string UserDoc) (w : World) : World :=
  mkWorld (f (db_users w)) (db_dailyStats w) (storageBucket w) (bannedUsers w) (users w)
          (adminStates w) (broadcastStates w) (banUserMode w) (unbanUserMode w)
          (defaultSlotsMode w) (referralRewardMode w) (outbox w).

Definition set_db_dailyStats (f : gmap string DailyDoc → gmap string DailyDoc) (w : World) : World :=
  mkWorld (db_users w) (f (db_dailyStats w)) (storageBucket w) (bannedUsers w) (users w)
          (adminStates w) (broadcastStates w) (banUserMode w) (unbanUserMode w)
          (defaultSlotsMode w) (referralRewardMode w) (outbox w).

Definition set_storageBucket (f : gmap string StoredFile → gmap string StoredFile) (w : World) : World :=
  mkWorld (db_users w) (db_dailyStats w) (f (storageBucket w)) (bannedUsers w) (users w)
          (adminStates w) (broadcastStates w) (banUserMode w) (unbanUserMode w)
          (defaultSlotsMode w) (referralRewardMode w) (outbox w).

Definition set_bannedUsers (f : gset jsval → gset jsval) (w : World) : World :=
  mkWorld (db_users w) (db_dailyStats w) (storageBucket w) (f (bannedUsers w)) (users w)
          (adminStates w) (broadcastStates w) (banUserMode w) (unbanUserMode w)
          (defaultSlotsMode w) (referralRewardMode w) (outbox w).

Definition set_users (f : gset jsval → gset jsval) (w : World) : World :=
  mkWorld (db_users w) (db_dailyStats w) (storageBucket w) (bannedUsers w) (f (users w))
          (adminStates w) (broadcastStates w) (banUserMode w) (unbanUserMode w)
          (defaultSlotsMode w) (referralRewardMode w) (outbox w).

Definition set_adminStates (f : gmap Z string → gmap Z string) (w : World) : World :=
  mkWorld (db_users w) (db_dailyStats w) (storageBucket w) (bannedUsers w) (users w)
          (f (adminStates w)) (broadcastStates w) (banUserMode w) (unbanUserMode w)
          (defaultSlotsMode w) (referralRewardMode w) (outbox w).

Definition set_broadcastStates (f : gmap Z bool → gmap Z bool) (w : World) : World :=
  mkWorld (db_users w) (db_dailyStats w) (storageBucket w) (bannedUsers w) (users w)
          (adminStates w) (f (broadcastStates w)) (banUserMode w) (unbanUserMode w)
          (defaultSlotsMode w) (referralRewardMode w) (outbox w).

(** The four legacy flags are always assigned together or one at a time. *)
Definition set_modes (ban unban dflt reward : bool) (w : World) : World :=
  mkWorld (db_users w) (db_dailyStats w) (storageBucket w) (bannedUsers w) (users w)
          (adminStates w) (broadcastStates w) ban unban dflt reward (outbox w).

Definition push_effect (e : Effect) (w : World) : World :=
  mkWorld (db_users w) (db_dailyStats w) (storageBucket w) (bannedUsers w) (users w)
          (adminStates w) (broadcastStates w) (banUserMode w) (unbanUserMode w)
          (defaultSlotsMode w) (referralRewardMode w) (outbox w ++ [e]).

(** The world of a freshly started process with empty stores. *)
Definition world0 : World :=
  mkWorld ∅ ∅ ∅ ∅ ∅ ∅ ∅ false false false false [].

(** ** The handler monad: state passing with exceptions *)

Inductive Res (A : Type) : Type :=
| Ok (a : A)
| Thrown (e : JsError).
Arguments Ok {A} a.
Arguments Thrown {A} e.

Definition M (A : Type) : Type := World → Res A * World.

Global Instance M_ret : MRet M := λ A a w, (Ok a, w).

Global Instance M_bind : MBind M := λ A B k m w,
  match m w with
  | (Ok a, w') => k a w'
  | (Thrown e, w') => (Thrown e, w')
  end.

Definition throw {A} (e : JsError) : M A := λ w, (Thrown e, w).

(** [try { body } catch (error) { handler }]: the state reached when the
    exception was raised is kept. *)
Definition try_catch {A} (body : M A) (handler : JsError → M A) : M A := λ w,
  match body w with
  | (Ok a, w') => (Ok a, w')
  | (Thrown e, w') => handler e w'
  end.

Definition get_world : M World := λ w, (Ok w, w).
Definition modify (f : World → World) : M unit := λ w, (Ok tt, f w).

(** Run a handler to completion and keep the state it reached. *)
Definition exec {A} (m : M A) (w : World) : World := snd (m w).

Definition emit (e : Effect) : M unit := modify (push_effect e).
Definition reply (to : Z) (m : Msg) : M unit := emit (Reply to m).

(** ** The two stores *)

(** [db.collection('users').doc(key).get()] *)
Definition db_get (key : string) : M (option UserDoc) := λ w,
  (Ok (db_users w !! key), w).

(** [userRef.set(data)]: creates or replaces the document. *)
Definition db_set (key : string) (data : UserDoc) : M unit :=
  modify (set_db_users <[key := data]>).

(** [userRef.update({ stats })]: replaces the [stats] field of an existing
    document and throws when there is no document. *)
Definition db_update_stats (key : string) (st : Stats) : M unit := λ w,
  match db_users w !! key with
  | Some d =>
      (Ok tt, set_db_users <[key := mkUserDoc (chatId d) (name d) (joinedAt d) (Some st)]> w)
  | None => (Thrown ErrNotFound, w)
  end.

(** [db.collection('users').get()]: the documents with their keys. *)
Definition db_scan : M (list (string * UserDoc)) := λ w,
  (Ok (map_to_list (db_users w)), w).

(** [fileRef.save(bytes, options)] *)
Definition bucket_save (path : string) (f : StoredFile) (ok : bool) : M unit := λ w,
  if ok then (Ok tt, set_storageBucket <[path := f]> w) else (Thrown ErrStorage, w).

(** [fileRef.exists()] *)
Definition bucket_exists (path : string) : M bool := λ w,
  (Ok (bool_decide (is_Some (storageBucket w !! path))), w).

(** [fileRef.delete()] *)
Definition bucket_delete (path : string) (ok : bool) : M unit := λ w,
  if ok then (Ok tt, set_storageBucket (delete path) w) else (Thrown ErrStorage, w).

(** [storageBucket.getFiles({ prefix })]: the names under the prefix. *)
Definition bucket_getFiles (prefix : string) (ok : bool) : M (list string) := λ w,
  if ok
  then (Ok (List.filter (λ n, JS.startsWith n prefix) (map fst (map_to_list (storageBucket w)))), w)
  else (Thrown ErrStorage, w).

(** ** Quota ledger (index.js lines 28-49) *)

Definition defaultStats : Stats := mkStats 0 [] 2 None.

(** [getUserStats(userId)] *)
Definition getUserStats (userId : jsval) : M Stats :=
  doc ← db_get (JString userId);
  match doc with
  | None => mret defaultStats
  | Some d => mret (default defaultStats (stats d))
  end.

(** [canUploadFile(userId)] *)
Definition canUploadFile (userId : jsval) : M bool :=
  stats ← getUserStats userId;
  let totalAllowedFiles := baseLimit stats + Z.of_nat (length (referrals stats)) in
  mret (fileCount stats <? totalAllowedFiles).

(** [updateFileCount(userId, increment)] *)
Definition updateFileCount (userId : jsval) (increment : bool) : M unit :=
  stats ← getUserStats userId;
  let stats' :=
    mkStats (if increment then fileCount stats + 1 else fileCount stats - 1)
            (referrals stats) (baseLimit stats) (referralReward stats) in
  db_update_stats (JString userId) stats'.

(** [isBanned(userId)]: [Set.prototype.has] compares without conversion. *)
Definition isBanned (userId : jsval) : M bool := λ w,
  (Ok (bool_decide (userId ∈ bannedUsers w)), w).

(** The stats a reader sees for a key: what [getUserStats] returns. *)
Definition statsOf (w : World) (key : string) : Stats :=
  match db_users w !! key with
  | None => defaultStats
  | Some d => default defaultStats (stats d)
  end.

(** The spec's invariant on one stats record. *)
Definition quota_ok (s : Stats) : Prop :=
  fileCount s <= baseLimit s + Z.of_nat (length (referrals s)).

(** ** Events and their payloads *)

(** [ctx.message.document] *)
Record Document : Type := mkDocument {
  file_name : string;
  file_id : string;
  mime_type : string
}.

(** Outcome of the I/O of one upload: the bytes downloaded from Telegram
    ([None]: [getFileLink] or [fetch] throws) and whether [save] succeeds. *)
Record UploadIO : Type := mkUploadIO {
  download : option string;
  saveOk : bool
}.

(** [ctx.message] as the broadcast listener reads it. *)
Record Message : Type := mkMessage {
  text : option string;
  photo : option (list string);       (* the file_id of each size *)
  video : option string;              (* the file_id *)
  caption : option string
}.

Definition uploadPath (userId : Z) (fileName : string) : string :=
  "uploads/" +:+ pretty userId +:+ "/" +:+ fileName.

Definition userPrefix (userId : Z) : string :=
  "uploads/" +:+ pretty userId +:+ "/".

(** ** Daily usage (lines 252-275) *)

Definition trackDailyUsage (today : string) (userId : Z) : M unit :=
  try_catch
    (modify (set_db_dailyStats (λ m,
       match m !! today with
       | None => <[today := mkDailyDoc [userId] 1]> m
       | Some data =>
           if bool_decide (userId ∈ daily_users data) then m
           else <[today := mkDailyDoc (daily_users data ++ [userId]) (daily_count data + 1)]> m
       end)))
    (λ _, emit ConsoleError).

(** ** User-facing handlers *)

(** [bot.action('mystats')] (lines 175-189) *)
Definition on_mystats (from : Z) : M unit :=
  stats ← getUserStats (JNum from);
  let totalSlots := baseLimit stats + Z.of_nat (length (referrals stats)) in
  reply from (MsgStats (fileCount stats) totalSlots (Z.of_nat (length (referrals stats)))).

(** [bot.on('document')] (lines 771-838) *)
Definition on_document (from : Z) (file : Document) (io : UploadIO) : M unit :=
  banned ← isBanned (JNum from);
  if banned : bool then reply from MsgBanned else
  canUpload ← canUploadFile (JNum from);
  if negb canUpload then
    stats ← getUserStats (JNum from);
    let totalSlots := baseLimit stats + Z.of_nat (length (referrals stats)) in
    reply from (MsgLimitReached (fileCount stats) totalSlots)
  else
  if negb (JS.endsWith (file_name file) ".html") && negb (JS.endsWith (file_name file) ".zip")
  then reply from MsgBadExtension
  else
  reply from MsgProcessing;;
  try_catch
    (let fileRef := uploadPath from (file_name file) in
     fileStream ← match download io with
                  | Some bytes => mret bytes
                  | None => throw ErrTransport
                  end;
     let contentType :=
       if JS.endsWith (file_name file) ".html" then "text/html; charset=utf-8"
       else mime_type file in
     bucket_save fileRef (mkStoredFile fileStream contentType) (saveOk io);;
     updateFileCount (JNum from) true;;
     stats ← getUserStats (JNum from);
     let totalSlots := baseLimit stats + Z.of_nat (length (referrals stats)) in
     (* '▰'.repeat(stats.fileCount) + '▱'.repeat(totalSlots - stats.fileCount) *)
     (if JS.repeatThrows 1 (fileCount stats)
         || JS.repeatThrows 1 (totalSlots - fileCount stats)
         || JS.concatThrows (fileCount stats) (totalSlots - fileCount stats)
      then throw ErrRange else mret tt);;
     reply from (MsgUploadSuccess fileRef (fileCount stats) totalSlots);;
     emit (ReplyAnimation from))
    (λ _, reply from MsgUploadError;; emit ConsoleError).

(** [bot.action('myfiles')] (lines 841-862) *)
Definition on_myfiles (from : Z) (listOk : bool) : M unit :=
  banned ← isBanned (JNum from);
  if banned : bool then reply from MsgBanned else
  try_catch
    (files ← bucket_getFiles (userPrefix from) listOk;
     if bool_decide (length files = 0%nat) then reply from MsgNoFiles
     else reply from (MsgFileList files))
    (λ _, reply from MsgFetchError;; emit ConsoleError).

(** [bot.action('delete')] (lines 867-890): one button per stored file. *)
Definition on_delete (from : Z) (listOk : bool) : M unit :=
  banned ← isBanned (JNum from);
  if banned : bool then reply from MsgBanned else
  try_catch
    (files ← bucket_getFiles (userPrefix from) listOk;
     if bool_decide (length files = 0%nat) then reply from MsgNoFilesToDelete
     else
       let fileButtons := map (λ n, List.last (JS.split "/" n) "") files in
       reply from (MsgSelectFile fileButtons))
    (λ _, reply from MsgFetchError;; emit ConsoleError).

(** [bot.action(/^del_(.+)$/)] (lines 893-912) *)
Definition on_del (from : Z) (fileName : string) (deleteOk : bool) : M unit :=
  try_catch
    (let fileRef := uploadPath from fileName in
     exists_ ← bucket_exists fileRef;
     if negb exists_ then reply from (MsgFileNotFound fileName)
     else
       bucket_delete fileRef deleteOk;;
       updateFileCount (JNum from) false;;
       reply from (MsgDeleted fileName))
    (λ _, reply from (MsgDeleteError fileName);; emit ConsoleError).

(** Monadic [for (const x of xs)] loop. *)
Fixpoint forM_ {A} (xs : list A) (body : A → M unit) : M unit :=
  match xs with
  | [] => mret tt
  | x :: rest => body x;; forM_ rest body
  end.

Section Bot.

(** [Number(process.env.ADMIN_ID)]; [None] when it is not an integer. *)
Variable adminNumber : option Z.

(** [isAdmin(userId)]: strict equality with the configured number. *)
Definition isAdmin (userId : Z) : bool :=
  bool_decide (Some userId = adminNumber).

(** [bot.start] (lines 298-379) *)
Definition on_start (from : Z) (first_name startPayload today now : string) : M unit :=
  trackDailyUsage today from;;
  let userId := from in
  let userName := if JS.truthy first_name then first_name else "Unknown" in
  banned ← isBanned (JNum userId);
  if banned : bool then reply from MsgBanned else
  modify (set_users (λ s, {[JNum userId]} ∪ s));;
  userDoc ← db_get (pretty userId);
  match userDoc with
  | Some _ => mret tt
  | None =>
      let initialData := mkUserDoc userId userName now (Some (mkStats 0 [] 2 None)) in
      (if JS.truthy startPayload && negb (String.eqb startPayload (pretty userId)) then
         referrerDoc ← db_get startPayload;
         match referrerDoc with
         | None => mret tt
         | Some _ =>
             referrerStats ← getUserStats (JStr startPayload);
             if negb (bool_decide (pretty userId ∈ referrals referrerStats)) then
               let referrerStats' :=
                 mkStats (fileCount referrerStats)
                         (referrals referrerStats ++ [pretty userId])
                         (baseLimit referrerStats) (referralReward referrerStats) in
               db_update_stats startPayload referrerStats';;
               reply from MsgReferredWelcome;;
               emit (SendMessage (JStr startPayload)
                       (MsgReferralSuccess
                          (baseLimit referrerStats'
                           + Z.of_nat (length (referrals referrerStats')))));;
               emit (SendAnimation (JStr startPayload))
             else mret tt
         end
       else mret tt);;
      db_set (pretty userId) initialData
  end;;
  if isAdmin userId then reply from MsgAdminMenu else reply from MsgUserMenu.

(** ** Admin conversation state (lines 92-107, 525-702) *)

(** [bot.action('add_slots')] *)
Definition on_add_slots (from : Z) : M unit :=
  if negb (isAdmin from) then reply from MsgNotAuthorized else
  modify (set_adminStates <[from := "add_slots"]>);;
  reply from MsgAskAddSlots.

(** [bot.action('ban_user')] *)
Definition on_ban_user (from : Z) : M unit :=
  if negb (isAdmin from) then reply from MsgNotAuthorized else
  modify (set_adminStates <[from := "ban_user"]>);;
  modify (set_modes true false false false);;
  reply from MsgAskBanTarget.

(** [bot.action('unban_user')] *)
Definition on_unban_user (from : Z) : M unit :=
  if negb (isAdmin from) then reply from MsgNotAuthorized else
  modify (set_adminStates <[from := "unban_user"]>);;
  modify (set_modes false true false false);;
  reply from MsgAskUnbanTarget.

(** [bot.action('edit_default_slots')] *)
Definition on_edit_default_slots (from : Z) : M unit :=
  if negb (isAdmin from) then reply from MsgNotAuthorized else
  modify (set_adminStates <[from := "edit_default_slots"]>);;
  modify (set_modes false false true false);;
  reply from MsgAskDefaultSlots.

(** [bot.action('edit_referral_reward')] *)
Definition on_edit_referral_reward (from : Z) : M unit :=
  if negb (isAdmin from) then reply from MsgNotAuthorized else
  modify (set_adminStates <[from := "edit_referral_reward"]>);;
  modify (set_modes false false false true);;
  reply from MsgAskReferralReward.

(** The [add_slots] branch of the text handler (lines 577-607). *)
Definition text_add_slots (userId : Z) (text : string) : M unit :=
  modify (set_adminStates (delete userId));;
  let parts := JS.split " " (JS.trim text) in
  let targetUserId := parts !! 0%nat in
  let slotsToAdd := parts !! 1%nat in
  let slots := slotsToAdd ≫= JS.parseInt in
  match targetUserId, slots with
  | Some target, Some slots =>
      if negb (JS.truthy target) then reply userId MsgInvalidFormat else
      try_catch
        (userDoc ← db_get target;
         match userDoc with
         | None => reply userId MsgUserNotFound
         | Some userData =>
             let currentStats := default defaultStats (stats userData) in
             let currentStats' :=
               mkStats (fileCount currentStats) (referrals currentStats)
                       (baseLimit currentStats + slots) (referralReward currentStats) in
             db_update_stats target currentStats';;
             reply userId
               (MsgSlotsAdded target slots
                  (baseLimit currentStats' + Z.of_nat (length (referrals currentStats'))))
         end)
        (λ _, emit ConsoleError;; reply userId MsgAddSlotsError)
  | _, _ => reply userId MsgInvalidFormat
  end.

(** The [defaultSlotsMode] branch (lines 624-645). *)
Definition text_default_slots (userId : Z) (text : string) : M unit :=
  modify (λ w, set_modes (banUserMode w) (unbanUserMode w) false (referralRewardMode w) w);;
  match JS.parseInt text with
  | None => reply userId MsgInvalidNumber
  | Some newLimit =>
      if newLimit <? 1 then reply userId MsgInvalidNumber else
      try_catch
        (usersSnapshot ← db_scan;
         forM_ usersSnapshot (λ doc,
           let userData := doc.2 in
           let stats0 := default defaultStats (stats userData) in
           db_update_stats doc.1
             (mkStats (fileCount stats0) (referrals stats0) newLimit (referralReward stats0)));;
         reply userId (MsgDefaultUpdated newLimit))
        (λ _, emit ConsoleError;; reply userId MsgDefaultError)
  end.

(** The [referralRewardMode] branch (lines 647-668). *)
Definition text_referral_reward (userId : Z) (text : string) : M unit :=
  modify (λ w, set_modes (banUserMode w) (unbanUserMode w) (defaultSlotsMode w) false w);;
  match JS.parseInt text with
  | None => reply userId MsgInvalidNumber
  | Some rewardSlots =>
      if rewardSlots <? 1 then reply userId MsgInvalidNumber else
      try_catch
        (usersSnapshot ← db_scan;
         forM_ usersSnapshot (λ doc,
           let userData := doc.2 in
           let stats0 := default defaultStats (stats userData) in
           db_update_stats doc.1
             (mkStats (fileCount stats0) (referrals stats0) (baseLimit stats0) (Some rewardSlots)));;
         reply userId (MsgRewardUpdated rewardSlots))
        (λ _, emit ConsoleError;; reply userId MsgRewardError)
  end.

(** [bot.on('text')] (lines 568-670) *)
Definition on_text (from : Z) (message_text : string) : M unit :=
  let userId := from in
  let text := JS.trim message_text in
  if negb (isAdmin userId) then mret tt else
  w ← get_world;
  if bool_decide (adminStates w !! userId = Some "add_slots") then text_add_slots userId text
  else if banUserMode w then
    modify (λ w, set_modes false (unbanUserMode w) (defaultSlotsMode w) (referralRewardMode w) w);;
    modify (set_bannedUsers (λ s, {[JStr text]} ∪ s));;
    reply userId (MsgUserBanned text)
  else if unbanUserMode w then
    modify (λ w, set_modes (banUserMode w) false (defaultSlotsMode w) (referralRewardMode w) w);;
    modify (set_bannedUsers (λ s, s ∖ {[JStr text]}));;
    reply userId (MsgUserUnbanned text)
  else if defaultSlotsMode w then text_default_slots userId text
  else if referralRewardMode w then text_referral_reward userId text
  else mret tt.

(** ** Broadcast (lines 460-524) *)

(** [bot.action('broadcast')]: arms the listener. *)
Definition on_broadcast (from : Z) : M unit :=
  if negb (isAdmin from) then reply from MsgNotAuthorized else
  modify (set_broadcastStates <[from := true]>);;
  reply from MsgAskBroadcast.

(** One Telegram delivery: it succeeds or throws as [deliver] says for this
    attempt (its position in the run) and chat. *)
Definition telegram_send (deliver : nat → Z → bool) (i : nat) (chat : Z) (m : Msg) : M unit := λ w,
  if deliver i chat then (Ok tt, push_effect (SendMessage (JNum chat) m) w)
  else (Thrown ErrTransport, w).

(** The body of the [try] inside the loop; returns the new [sentCount]. *)
Definition broadcast_send (message : Message) (deliver : nat → Z → bool)
    (i : nat) (chat : Z) (sentCount : Z) : M Z :=
  let caption_ := if JS.truthy (default "" (caption message))
                  then default "" (caption message) else "" in
  if JS.truthy (default "" (text message)) then
    telegram_send deliver i chat (MsgBroadcastText (default "" (text message)));;
    mret (sentCount + 1)
  else
    match photo message with
    | Some sizes =>
        (* message.photo[message.photo.length - 1].file_id *)
        match List.last (map Some sizes) None with
        | None => throw ErrType
        | Some photoId =>
            telegram_send deliver i chat (MsgBroadcastPhoto photoId caption_);;
            mret (sentCount + 1)
        end
    | None =>
        match video message with
        | Some videoId =>
            telegram_send deliver i chat (MsgBroadcastVideo videoId caption_);;
            mret (sentCount + 1)
        | None => mret sentCount
        end
    end.

(** The [for] loop over the snapshot with its two counters. *)
Fixpoint broadcast_loop (message : Message) (deliver : nat → Z → bool)
    (docs : list (string * UserDoc)) (i : nat) (sentCount failedCount : Z) : M (Z * Z) :=
  match docs with
  | [] => mret (sentCount, failedCount)
  | doc :: rest =>
      let user := doc.2 in
      counts ← try_catch
        (sent' ← broadcast_send message deliver i (chatId user) sentCount;
         mret (sent', failedCount))
        (λ _, emit ConsoleError;; mret (sentCount, failedCount + 1));
      broadcast_loop message deliver rest (S i) counts.1 counts.2
  end.

(** The listener registered by the broadcast action (lines 474-523). *)
Definition on_broadcast_message (from : Z) (message : Message)
    (deliver : nat → Z → bool) : M unit :=
  w ← get_world;
  if negb (isAdmin from) || negb (default false (broadcastStates w !! from)) then mret tt else
  try_catch
    (modify (set_broadcastStates (delete from));;
     usersSnapshot ← db_scan;
     if bool_decide (usersSnapshot = []) then reply from MsgNoUsers else
     counts ← broadcast_loop message deliver usersSnapshot 0 0 0;
     reply from (MsgBroadcastResult counts.1 counts.2))
    (λ _, emit ConsoleError;; reply from MsgBroadcastError).

(** ** Events *)

Inductive AdminAction : Type :=
| ActAddSlots | ActBanUser | ActUnbanUser | ActEditDefaultSlots | ActEditReferralReward
| ActBroadcast.

Inductive Event : Type :=
| EvStart (from : Z) (first_name startPayload today now : string)
| EvMyStats (from : Z)
| EvDocument (from : Z) (file : Document) (io : UploadIO)
| EvMyFiles (from : Z) (listOk : bool)
| EvDelete (from : Z) (listOk : bool)
| EvDel (from : Z) (fileName : string) (deleteOk : bool)
| EvAction (from : Z) (a : AdminAction)
| EvText (from : Z) (message_text : string)
| EvBroadcastMessage (from : Z) (message : Message) (deliver : nat → Z → bool).
    (* a message handed to the broadcast listener *)

Definition on_action (from : Z) (a : AdminAction) : M unit :=
  match a with
  | ActAddSlots => on_add_slots from
  | ActBanUser => on_ban_user from
  | ActUnbanUser => on_unban_user from
  | ActEditDefaultSlots => on_edit_default_slots from
  | ActEditReferralReward => on_edit_referral_reward from
  | ActBroadcast => on_broadcast from
  end.

(** One inbound event handled to completion. *)
Definition step (w : World) (ev : Event) : World :=
  match ev with
  | EvStart from first_name startPayload today now =>
      exec (on_start from first_name startPayload today now) w
  | EvMyStats from => exec (on_mystats from) w
  | EvDocument from file io => exec (on_document from file io) w
  | EvMyFiles from listOk => exec (on_myfiles from listOk) w
  | EvDelete from listOk => exec (on_delete from listOk) w
  | EvDel from fileName deleteOk => exec (on_del from fileName deleteOk) w
  | EvAction from a => exec (on_action from a) w
  | EvText from message_text => exec (on_text from message_text) w
  | EvBroadcastMessage from message deliver =>
      exec (on_broadcast_message from message deliver) w
  end.

(** Events handled one after the other. *)
Definition run (w : World) (evs : list Event) : World := fold_left step evs w.

End Bot.

(** ** The read-only side of the console

    The handlers of this part pass their message to [ctx.reply] and change
    nothing else; the message is the value the computation returns. *)

(** One line of the referral leaderboard. *)
Record Referrer : Type := mkReferrer {
  ref_name : string;
  ref_chatId : Z;
  ref_referrals : Z
}.

(** One line of the user list of [total_users]. *)
Inductive UserLine : Type :=
| LineHeader (size : Z)                          (* Total Users: size *)
| LineUser (count : Z) (name : string) (chatId : Z).

Inductive ConsoleReply : Type :=
| CrNotAuthorized
| CrNoUsersFound
| CrReferralStats (totalReferrals : Z) (top : list Referrer)
| CrNoUsersToday
| CrDailyStats (today : string) (count : Z)
| CrNoUploadedFiles
| CrAllFiles (names : list string)
| CrNoRegisteredUsers
| CrUserChunks (chunks : list (list UserLine))
| CrReferDashboard (usedSlots totalSlots remainingSlots referralCount remainingReferrals
                    rewardPerReferral currentReward : Z).

(** [bot.action('refer')] (lines 223-250).  The four [repeat] counts are
    checked as the runtime checks them; the animation follows the reply. *)
Definition on_refer (from : Z) : M ConsoleReply :=
  let userId := from in
  stats ← getUserStats (JNum userId);
  let totalSlots := baseLimit stats + Z.of_nat (length (referrals stats)) in
  let usedSlots := Z.max 0 (Z.min (fileCount stats) totalSlots) in
  let remainingSlots := Z.max 0 (totalSlots - usedSlots) in
  let referralCount := Z.min (Z.of_nat (length (referrals stats))) 5 in
  let remainingReferrals := Z.max 0 (5 - referralCount) in
  (* stats.referralReward || 1 *)
  let reward := match referralReward stats with
                | Some r => if r =? 0 then 1 else r
                | None => 1
                end in
  (* the two one-unit bars, joined in the message, and the two-unit dots *)
  (if JS.repeatThrows 1 usedSlots || JS.repeatThrows 1 remainingSlots
      || JS.concatThrows usedSlots remainingSlots
      || JS.repeatThrows 2 referralCount || JS.repeatThrows 2 remainingReferrals
   then throw ErrRange else mret tt);;
  emit (ReplyAnimation from);;
  mret (CrReferDashboard usedSlots totalSlots remainingSlots referralCount remainingReferrals
          reward (Z.of_nat (length (referrals stats)) * reward)).

(** [a.sort((a, b) => b.referrals - a.referrals)]: stable, larger counts
    first.  [x] precedes every element of [l] in the array. *)
Fixpoint insert_referrer (x : Referrer) (l : list Referrer) : list Referrer :=
  match l with
  | [] => [x]
  | y :: l' =>
      if ref_referrals x <? ref_referrals y then y :: insert_referrer x l'
      else x :: y :: l'
  end.

Definition sort_referrers (l : list Referrer) : list Referrer :=
  foldr insert_referrer [] l.

(** The body of [usersSnapshot.forEach] in [referral_stats]. *)
Definition referral_scan_step (acc : Z * list Referrer) (doc : string * UserDoc)
    : Z * list Referrer :=
  let user := doc.2 in
  let referralCount :=
    Z.of_nat (length (match stats user with Some s => referrals s | None => [] end)) in
  let totalReferrals := acc.1 + referralCount in
  if 0 <? referralCount
  then (totalReferrals,
        (acc.2 ++ [mkReferrer (if JS.truthy (name user) then name user else "Unknown")
                              (chatId user) referralCount])%list)
  else (totalReferrals, acc.2).

Definition referral_scan (docs : list (string * UserDoc)) : Z * list Referrer :=
  fold_left referral_scan_step docs (0, []).

(** The loop of [total_users]: the chunks replied, in order. *)
Fixpoint total_users_loop (docs : list (string * UserDoc)) (count : Z)
    (userList : list UserLine) : list (list UserLine) :=
  match docs with
  | [] => if bool_decide (userList = []) then [] else [userList]
  | doc :: rest =>
      let user := doc.2 in
      let count := count + 1 in
      let userList :=
        (userList ++ [LineUser count (if JS.truthy (name user) then name user else "Unknown")
                                (chatId user)])%list in
      if count mod 50 =? 0 then userList :: total_users_loop rest count []
      else total_users_loop rest count userList
  end.

Section Console.

Variable adminNumber : option Z.

(** [bot.action('referral_stats')] (lines 110-152) *)
Definition on_referral_stats (from : Z) : M ConsoleReply :=
  if negb (isAdmin adminNumber from) then mret CrNotAuthorized else
  usersSnapshot ← db_scan;
  if bool_decide (usersSnapshot = []) then mret CrNoUsersFound else
  let scanned := referral_scan usersSnapshot in
  let totalReferrals := scanned.1 in
  let topReferrers := sort_referrers scanned.2 in
  mret (CrReferralStats totalReferrals (take 10 topReferrers)).

(** [bot.action('daily_stats')] (lines 278-295) *)
Definition on_daily_stats (from : Z) (today : string) : M ConsoleReply :=
  if negb (isAdmin adminNumber from) then mret CrNotAuthorized else
  w ← get_world;
  match db_dailyStats w !! today with
  | None => mret CrNoUsersToday
  | Some data => mret (CrDailyStats today (daily_count data))
  end.

(** [bot.action('view_files')] (lines 382-400); the listing is not inside
    a [try]. *)
Definition on_view_files (from : Z) (listOk : bool) : M ConsoleReply :=
  if negb (isAdmin adminNumber from) then mret CrNotAuthorized else
  files ← bucket_getFiles "uploads/" listOk;
  if bool_decide (length files = 0%nat) then mret CrNoUploadedFiles
  else mret (CrAllFiles files).

(** [bot.action('total_users')] (lines 428-458) *)
Definition on_total_users (from : Z) : M ConsoleReply :=
  if negb (isAdmin adminNumber from) then mret CrNotAuthorized else
  usersSnapshot ← db_scan;
  if bool_decide (usersSnapshot = []) then mret CrNoRegisteredUsers else
  mret (CrUserChunks
          (total_users_loop usersSnapshot 0
             [LineHeader (Z.of_nat (length usersSnapshot))])).

End Console.

(** ** Vocabulary of the properties *)

(** The operations of the gated path: an upload or a file deletion. *)
Definition is_quota_op (ev : Event) : Prop :=
  match ev with
  | EvDocument _ _ _ | EvDel _ _ _ => True
  | _ => False
  end.

(** The spec's conversation states. *)
Inductive ConversationState : Type :=
| CSNone
| AwaitingAddSlotsArgs
| AwaitingBanTarget
| AwaitingUnbanTarget
| AwaitingDefaultSlotsValue
| AwaitingReferralRewardValue.

(** The state an admin is in: the branch [bot.on('text')] would take for the
    next free text of that admin, read off its chain of tests. *)
Definition conversationState (w : World) (admin : Z) : ConversationState :=
  if bool_decide (adminStates w !! admin = Some "add_slots") then AwaitingAddSlotsArgs
  else if banUserMode w then AwaitingBanTarget
  else if unbanUserMode w then AwaitingUnbanTarget
  else if defaultSlotsMode w then AwaitingDefaultSlotsValue
  else if referralRewardMode w then AwaitingReferralRewardValue
  else CSNone.

(** The menu action that arms a state. *)
Definition menuAction (s : ConversationState) : option AdminAction :=
  match s with
  | CSNone => None
  | AwaitingAddSlotsArgs => Some ActAddSlots
  | AwaitingBanTarget => Some ActBanUser
  | AwaitingUnbanTarget => Some ActUnbanUser
  | AwaitingDefaultSlotsValue => Some ActEditDefaultSlots
  | AwaitingReferralRewardValue => Some ActEditReferralReward
  end.

(** The legacy flag that shadows a state (none for add-slots). *)
Definition modeFlag (s : ConversationState) (w : World) : bool :=
  match s with
  | AwaitingBanTarget => banUserMode w
  | AwaitingUnbanTarget => unbanUserMode w
  | AwaitingDefaultSlotsValue => defaultSlotsMode w
  | AwaitingReferralRewardValue => referralRewardMode w
  | _ => false
  end.

(** The control state of the conversation engine. *)
Definition control (w : World) : gmap Z string * (bool * bool * bool * bool) :=
  (adminStates w, (banUserMode w, unbanUserMode w, defaultSlotsMode w, referralRewardMode w)).

(** What happens to one recipient of a broadcast. *)
Inductive Outcome : Type := Delivered | Failed | Skipped.

Global Instance Outcome_eq_dec : EqDecision Outcome.
Proof. solve_decision. Defined.

(** The modality the listener picks for a message. *)
Inductive Modality : Type := ModText | ModPhoto | ModVideo | ModOther.

Definition modality (message : Message) : Modality :=
  if JS.truthy (default "" (text message)) then ModText
  else match photo message with
       | Some _ => ModPhoto
       | None => match video message with
                 | Some _ => ModVideo
                 | None => ModOther
                 end
       end.

(** The claim's classification of the [i]-th recipient: skipped when the
    modality is none of text, photo, video; failed when the delivery throws
    (Telegram refuses it, or the photo has no size to read the id from);
    delivered otherwise. *)
Definition recipient_outcome (message : Message) (deliver : nat → Z → bool)
    (i : nat) (chat : Z) : Outcome :=
  match modality message with
  | ModOther => Skipped
  | ModPhoto =>
      if bool_decide (photo message = Some []) then Failed
      else if deliver i chat then Delivered else Failed
  | _ => if deliver i chat then Delivered else Failed
  end.

Fixpoint outcomes (message : Message) (deliver : nat → Z → bool)
    (docs : list (string * UserDoc)) (i : nat) : list Outcome :=
  match docs with
  | [] => []
  | doc :: rest =>
      recipient_outcome message deliver i (chatId doc.2) :: outcomes message deliver rest (S i)
  end.

Definition tally (o : Outcome) (os : list Outcome) : Z :=
  Z.of_nat (length (List.filter (λ x, bool_decide (x = o)) os)).

(** An upload that gets as far as the call to [save]. *)
Definition reaches_save (w : World) (from : Z) (file : Document) (io : UploadIO) : Prop :=
  (JNum from ∉ bannedUsers w) ∧
  (fileCount (statsOf w (pretty from))
    < baseLimit (statsOf w (pretty from)) + Z.of_nat (length (referrals (statsOf w (pretty from))))) ∧
  (JS.endsWith (file_name file) ".html" = true ∨ JS.endsWith (file_name file) ".zip" = true) ∧
  is_Some (download io).

(** A deletion that gets as far as the call to [delete]. *)
Definition reaches_delete (w : World) (from : Z) (fileName : string) : Prop :=
  is_Some (storageBucket w !! uploadPath from fileName).

(** The stats written back by [updateFileCount]. *)
Definition bumped (inc : bool) (d : UserDoc) (s : Stats) : UserDoc :=
  mkUserDoc (chatId d) (name d) (joinedAt d)
    (Some (mkStats (if inc then fileCount s + 1 else fileCount s - 1)
                   (referrals s) (baseLimit s) (referralReward s))).

(** C2 as the claim words it, for one upload that reaches [save]: the
    counter goes up by one exactly when [save] succeeds. *)
Definition increment_iff_saved (w : World) (from : Z) (file : Document) (io : UploadIO) : Prop :=
  reaches_save w from file io →
  let w' := exec (on_document from file io) w in
  fileCount (statsOf w' (pretty from)) = fileCount (statsOf w (pretty from)) + 1
  ↔ saveOk io = true.

(** The same for one deletion that reaches [delete]. *)
Definition decrement_iff_deleted (w : World) (from : Z) (fileName : string) (deleteOk : bool) : Prop :=
  reaches_delete w from fileName →
  let w' := exec (on_del from fileName deleteOk) w in
  fileCount (statsOf w' (pretty from)) = fileCount (statsOf w (pretty from)) - 1
  ↔ deleteOk = true.

(** [m] leaves the part [proj] of the world alone, whether it returns or
    throws. *)
Definition keeps {B : Type} (proj : World → B) {A : Type} (m : M A) : Prop :=
  ∀ w, proj (snd (m w)) = proj w.

(** C4 as the claim words it: after the free text, the admin's entry of the
    state map is gone and the state's mode flag is off. *)
Definition cleared_as_claimed (s : ConversationState) (admin : Z) (w : World) : Prop :=
  adminStates w !! admin = None ∧ modeFlag s w = false.

(** The stats of a user with the reward multiplier overwritten. *)
Definition override_reward (r : option Z) (key : string) (w : World) : World :=
  set_db_users
    (alter (λ d, mkUserDoc (chatId d) (name d) (joinedAt d)
                   ((λ s, mkStats (fileCount s) (referrals s) (baseLimit s) r) <$> stats d))
           key) w.

(** Worlds used by the examples. *)
Definition html_file : Document := mkDocument "a.html" "file-1" "text/html".
Definition pdf_file : Document := mkDocument "report.pdf" "file-2" "application/pdf".
Definition io_ok : UploadIO := mkUploadIO (Some "<html></html>") true.
Definition io_save_fails : UploadIO := mkUploadIO (Some "<html></html>") false.

(** User 7 has sent /start on an empty system. *)
Definition world_registered : World :=
  run None world0 [EvStart 7 "Ann" "" "2024-01-01" "2024-01-01T00:00:00Z"].

(** User 7 has sent /start and uploaded one file. *)
Definition world_one_file : World :=
  run None world_registered [EvDocument 7 html_file io_ok].

(** A file name the upload accepts. *)
Definition accepted_name (n : string) : Prop :=
  JS.endsWith n ".html" = true ∨ JS.endsWith n ".zip" = true.

(** Uploads by one user whose download and [save] all succeed. *)
Definition uploads_by (from : Z) (ups : list (Document * string)) : list Event :=
  map (λ up, EvDocument from up.1 (mkUploadIO (Some up.2) true)) ups.

(** User 7 in debt: two files uploaded before /start, then /start, then
    both files deleted. *)
Definition world_in_debt : World :=
  run None world0
    [EvDocument 7 html_file io_ok;
     EvDocument 7 (mkDocument "b.zip" "file-3" "application/zip") io_ok;
     EvStart 7 "Ann" "" "2024-01-01" "2024-01-01T00:00:00Z";
     EvDel 7 "a.html" true;
     EvDel 7 "b.zip" true].

(** A document whose [stats] field was rewritten from what a reader saw in
    it: [stats = userData.stats || defaults; stats.field = value;
    update({ stats })]. *)
Definition rewrite_stats (g : Stats → Stats) (d : UserDoc) : UserDoc :=
  mkUserDoc (chatId d) (name d) (joinedAt d) (Some (g (default defaultStats (stats d)))).

Definition with_baseLimit (n : Z) (s : Stats) : Stats :=
  mkStats (fileCount s) (referrals s) n (referralReward s).

Definition with_referralReward (n : Z) (s : Stats) : Stats :=
  mkStats (fileCount s) (referrals s) (baseLimit s) (Some n).

(** The two words the add-slots branch takes from the text:
    [[targetUserId, slotsToAdd] = text.trim().split(' ')], the second read
    with [parseInt]; [None] when the branch answers "invalid format". *)
Definition parse_add_slots (txt : string) : option (string * Z) :=
  let parts := JS.split " " (JS.trim txt) in
  match parts !! 0%nat, (parts !! 1%nat) ≫= JS.parseInt with
  | Some target, Some slots => if JS.truthy target then Some (target, slots) else None
  | _, _ => None
  end.

(** The slots a user may fill: [baseLimit + referrals.length]. *)
Definition allowance (s : Stats) : Z :=
  baseLimit s + Z.of_nat (length (referrals s)).

(** World of the admin examples: admin 1, user 7 registered with one file. *)
Definition world_admin_armed (a : AdminAction) : World :=
  run (Some 1) world_one_file [EvAction 1 a].

(** No referee id occurs twice in the referrals sequences: neither twice in
    one sequence nor in two users' sequences. *)
Definition referees_unique (w : World) : Prop :=
  ∀ k1 k2 (i1 i2 : nat) r,
    referrals (statsOf w k1) !! i1 = Some r →
    referrals (statsOf w k2) !! i2 = Some r →
    k1 = k2 ∧ i1 = i2.

(** Every referee has a document of its own. *)
Definition referees_registered (w : World) : Prop :=
  ∀ k r, r ∈ referrals (statsOf w k) → is_Some (db_users w !! r).

(** Nobody is in their own referrals sequence. *)
Definition no_self_referral (w : World) : Prop :=
  ∀ k, k ∉ referrals (statsOf w k).

Definition referral_graph_ok (w : World) : Prop :=
  referees_unique w ∧ referees_registered w ∧ no_self_referral w.

(** [w'] has the referrals sequences of [w] and at least its documents. *)
Definition same_referrals (w w' : World) : Prop :=
  (∀ k, referrals (statsOf w' k) = referrals (statsOf w k)) ∧
  (∀ k, is_Some (db_users w !! k) → is_Some (db_users w' !! k)).

(** A day's usage record is consistent: each user once, and the count is
    the number of users. *)
Definition daily_ok (d : DailyDoc) : Prop :=
  NoDup (daily_users d) ∧ daily_count d = Z.of_nat (length (daily_users d)).

(** What [trackDailyUsage] does to the [dailyStats] collection. *)
Definition track (today : string) (userId : Z) (m : gmap string DailyDoc)
    : gmap string DailyDoc :=
  match m !! today with
  | None => <[today := mkDailyDoc [userId] 1]> m
  | Some data =>
      if bool_decide (userId ∈ daily_users data) then m
      else <[today := mkDailyDoc (daily_users data ++ [userId]) (daily_count data + 1)]> m
  end.

(** The senders of the /start events of one day, in order. *)
Fixpoint starters (day : string) (evs : list Event) : list Z :=
  match evs with
  | [] => []
  | EvStart from _ _ today _ :: rest =>
      if String.eqb today day then from :: starters day rest else starters day rest
  | _ :: rest => starters day rest
  end.

(** The number of referrals a document shows. *)
Definition referral_count (d : UserDoc) : Z :=
  Z.of_nat (length (match stats d with Some s => referrals s | None => [] end)).

(** The leaderboard lines of the documents with at least one referral, in
    snapshot order. *)
Definition referrers_of (docs : list (string * UserDoc)) : list Referrer :=
  omap (λ doc : string * UserDoc,
          if 0 <? referral_count doc.2
          then Some (mkReferrer (if JS.truthy (name doc.2) then name doc.2 else "Unknown")
                                (chatId doc.2) (referral_count doc.2))
          else None) docs.

Definition total_referrals (docs : list (string * UserDoc)) : Z :=
  foldr (λ doc acc, referral_count doc.2 + acc) 0 docs.

(** [a] is listed before [b]: it has at least as many referrals. *)
Definition at_least_as_many (a b : Referrer) : Prop :=
  ref_referrals b <= ref_referrals a.

(** The numbered lines of the user list, from number [count + 1] on. *)
Fixpoint user_lines (docs : list (string * UserDoc)) (count : Z) : list UserLine :=
  match docs with
  | [] => []
  | doc :: rest =>
      LineUser (count + 1) (if JS.truthy (name doc.2) then name doc.2 else "Unknown")
               (chatId doc.2)
      :: user_lines rest (count + 1)
  end.

(** How many users a message of the user list names. *)
Definition users_named (chunk : list UserLine) : Z :=
  Z.of_nat (length (List.filter (λ l, match l with LineUser _ _ _ => true | _ => false end)
                                chunk)).

(** A string without the path separator. *)
Fixpoint slash_free (s : string) : Prop :=
  match s with
  | EmptyString => True
  | String c s' => c ≠ "/"%char ∧ slash_free s'
  end.

(** The names [getFiles] returns for a user's prefix. *)
Definition files_of (from : Z) (w : World) : list string :=
  List.filter (λ n, JS.startsWith n (userPrefix from)) (map fst (map_to_list (storageBucket w))).

(** A message that gets to the broadcast listener.  The listener is added
    after [bot.on('text')] and [bot.on('document')], which take every text
    and every document and pass nothing on; a [Message] stands for an
    update that is not a document, so it gets there when it has no text. *)
Definition reaches_listener (message : Message) : Prop := text message = None.

(** * Properties *)

(** ** Running the ledger functions *)

Ltac wred :=
  cbn [negb andb orb fst snd db_users db_dailyStats storageBucket bannedUsers users adminStates
       broadcastStates banUserMode unbanUserMode defaultSlotsMode referralRewardMode outbox
       set_db_users set_db_dailyStats set_storageBucket set_bannedUsers set_users
       set_adminStates set_broadcastStates set_modes push_effect JString] in *.

Lemma getUserStats_run userId w :
  getUserStats userId w = (Ok (statsOf w (JString userId)), w).
Proof.
  unfold getUserStats, statsOf, mbind, M_bind, db_get, mret, M_ret.
  destruct (db_users w !! JString userId); reflexivity.
Qed.

Lemma canUploadFile_run userId w :
  canUploadFile userId w =
  (Ok (fileCount (statsOf w (JString userId)) <?
       baseLimit (statsOf w (JString userId))
       + Z.of_nat (length (referrals (statsOf w (JString userId))))), w).
Proof.
  unfold canUploadFile, mbind, M_bind. rewrite getUserStats_run. reflexivity.
Qed.

Lemma updateFileCount_run userId inc w :
  updateFileCount userId inc w =
  match db_users w !! JString userId with
  | Some d =>
      let s := statsOf w (JString userId) in
      (Ok tt, set_db_users <[JString userId :=
         mkUserDoc (chatId d) (name d) (joinedAt d)
           (Some (mkStats (if inc then fileCount s + 1 else fileCount s - 1)
                          (referrals s) (baseLimit s) (referralReward s)))]> w)
  | None => (Thrown ErrNotFound, w)
  end.
Proof.
  unfold updateFileCount, mbind, M_bind. rewrite getUserStats_run.
  unfold db_update_stats. reflexivity.
Qed.

Ltac mrun :=
  repeat first
    [ rewrite getUserStats_run
    | rewrite canUploadFile_run
    | rewrite updateFileCount_run
    | progress (unfold mbind, M_bind, mret, M_ret, try_catch, throw, reply, emit, modify,
                get_world, exec, db_get, db_set, db_update_stats, bucket_save, bucket_exists,
                bucket_delete, isBanned)
    | progress wred ].

Lemma statsOf_insert key d w k :
  statsOf (set_db_users <[key := d]> w) k =
  if decide (key = k) then default defaultStats (stats d) else statsOf w k.
Proof.
  unfold statsOf. wred. rewrite lookup_insert. destruct (decide (key = k)); reflexivity.
Qed.

(** C1: [canUploadFile] answers true exactly when the user's [fileCount] is
    strictly below [baseLimit + referrals.length]; it returns normally and
    leaves the world as it found it; and the answer does not depend on the
    stored [referralReward]: overwriting the multiplier with any value
    changes nothing. *)
Theorem canUploadFile_spec (userId : jsval) (w : World) :
  let s := statsOf w (JString userId) in
  ∃ b : bool,
    canUploadFile userId w = (Ok b, w) ∧
    (b = true ↔ fileCount s < baseLimit s + Z.of_nat (length (referrals s))) ∧
    ∀ r : option Z,
      fst (canUploadFile userId (override_reward r (JString userId) w)) = Ok b.
Proof.
  intros s. eexists. split; [apply canUploadFile_run|]. split.
  - subst s. apply Z.ltb_lt.
  - intros r. rewrite canUploadFile_run. cbn [fst]. f_equal.
    unfold statsOf, override_reward. wred. rewrite lookup_alter_eq.
    destruct (db_users w !! JString userId) as [d|]; cbn; [|reflexivity].
    destruct (stats d); reflexivity.
Qed.

(** ** The upload and delete flows *)

Lemma reaches_save_tests w from file io :
  reaches_save w from file io →
  bool_decide (JNum from ∈ bannedUsers w) = false ∧
  (fileCount (statsOf w (pretty from)) <?
     baseLimit (statsOf w (pretty from))
     + Z.of_nat (length (referrals (statsOf w (pretty from))))) = true ∧
  negb (JS.endsWith (file_name file) ".html") && negb (JS.endsWith (file_name file) ".zip") = false ∧
  ∃ bytes, download io = Some bytes.
Proof.
  intros (Hb & Hq & Hext & [bytes Hdl]). repeat split.
  - apply bool_decide_eq_false. exact Hb.
  - apply Z.ltb_lt. exact Hq.
  - destruct Hext as [-> | ->]; [reflexivity | apply andb_false_r].
  - exists bytes. exact Hdl.
Qed.

(** Every upload either leaves the users collection alone, or it passed the
    quota gate, its [save] succeeded and the uploader's counter went up by
    one. *)
Lemma on_document_db from file io w :
  db_users (exec (on_document from file io) w) = db_users w ∨
  ∃ d, db_users w !! pretty from = Some d ∧
       reaches_save w from file io ∧
       saveOk io = true ∧
       db_users (exec (on_document from file io) w) =
         <[pretty from := bumped true d (statsOf w (pretty from))]> (db_users w).
Proof.
  unfold on_document. mrun.
  destruct (bool_decide _) eqn:Hb; mrun; [left; reflexivity|].
  destruct (Z.ltb_spec (fileCount (statsOf w (pretty from)))
     (baseLimit (statsOf w (pretty from))
      + Z.of_nat (length (referrals (statsOf w (pretty from)))))) as [Hlt|Hge];
    mrun; [|left; reflexivity].
  destruct (negb _ && negb _) eqn:Hext; mrun; [left; reflexivity|].
  destruct (download io) as [bytes|] eqn:Hdl; mrun; [|left; reflexivity].
  destruct (saveOk io) eqn:Hs; mrun; [|left; reflexivity].
  destruct (db_users w !! pretty from) as [d|] eqn:Hd; mrun; [|left; reflexivity].
  right. exists d. split; [reflexivity|]. split.
  - repeat split.
    + apply bool_decide_eq_false in Hb. exact Hb.
    + exact Hlt.
    + apply andb_false_iff in Hext. destruct Hext as [H|H];
        apply negb_false_iff in H; auto.
    + eauto.
  - split; [reflexivity|].
    destruct (_ || _); mrun; reflexivity.
Qed.

(** The bucket after an upload: untouched, or the file was saved. *)
Lemma on_document_bucket from file io w :
  storageBucket (exec (on_document from file io) w) = storageBucket w ∨
  saveOk io = true ∧ reaches_save w from file io ∧
  ∃ f, storageBucket (exec (on_document from file io) w)
       = <[uploadPath from (file_name file) := f]> (storageBucket w).
Proof.
  unfold on_document. mrun.
  destruct (bool_decide _) eqn:Hb; mrun; [left; reflexivity|].
  destruct (Z.ltb_spec (fileCount (statsOf w (pretty from)))
     (baseLimit (statsOf w (pretty from))
      + Z.of_nat (length (referrals (statsOf w (pretty from)))))) as [Hlt|Hge];
    mrun; [|left; reflexivity].
  destruct (negb _ && negb _) eqn:Hext; mrun; [left; reflexivity|].
  destruct (download io) as [bytes|] eqn:Hdl; mrun; [|left; reflexivity].
  destruct (saveOk io) eqn:Hs; mrun; [|left; reflexivity].
  right. split; [reflexivity|]. split.
  - repeat split.
    + apply bool_decide_eq_false in Hb. exact Hb.
    + exact Hlt.
    + apply andb_false_iff in Hext. destruct Hext as [H|H];
        apply negb_false_iff in H; auto.
    + eauto.
  - eexists.
    destruct (db_users w !! pretty from) as [d|] eqn:Hd; mrun; [|reflexivity].
    destruct (_ || _); mrun; reflexivity.
Qed.

(** Every deletion either leaves the users collection alone, or the file was
    there, its [delete] succeeded and the counter went down by one. *)
Lemma on_del_db from fileName deleteOk w :
  db_users (exec (on_del from fileName deleteOk) w) = db_users w ∨
  ∃ d, db_users w !! pretty from = Some d ∧
       reaches_delete w from fileName ∧
       deleteOk = true ∧
       db_users (exec (on_del from fileName deleteOk) w) =
         <[pretty from := bumped false d (statsOf w (pretty from))]> (db_users w).
Proof.
  unfold on_del, reaches_delete. mrun.
  destruct (bool_decide _) eqn:Hex; mrun; [|left; reflexivity].
  destruct deleteOk; mrun; [|left; reflexivity].
  destruct (db_users w !! pretty from) as [d|] eqn:Hd; mrun; [|left; reflexivity].
  right. exists d. apply bool_decide_eq_true in Hex. auto.
Qed.

Lemma on_del_bucket from fileName deleteOk w :
  storageBucket (exec (on_del from fileName deleteOk) w) =
  if deleteOk then delete (uploadPath from fileName) (storageBucket w) else storageBucket w.
Proof.
  unfold on_del. mrun.
  destruct (bool_decide _) eqn:Hex; mrun.
  - destruct deleteOk; mrun; [|reflexivity].
    destruct (db_users w !! pretty from) as [d|] eqn:Hd; mrun; reflexivity.
  - apply bool_decide_eq_false in Hex.
    destruct deleteOk; [|reflexivity].
    symmetry. apply delete_id. apply eq_None_not_Some. exact Hex.
Qed.

Lemma statsOf_ext w w' key :
  db_users w' = db_users w → statsOf w' key = statsOf w key.
Proof. unfold statsOf. intros ->. reflexivity. Qed.

Lemma statsOf_db_insert w w' key d k :
  db_users w' = <[key := d]> (db_users w) →
  statsOf w' k = if decide (key = k) then default defaultStats (stats d) else statsOf w k.
Proof.
  intros H. rewrite <- statsOf_insert. apply statsOf_ext. rewrite H. reflexivity.
Qed.

(** C10: a user with no document sends an otherwise valid file (not banned,
    accepted extension, download and [save] succeed).  The file is stored,
    the counter update throws because there is no document to update, the
    user is told that the upload failed, and the users collection is left
    as it was: no document and no counter are created. *)
Theorem upload_by_unregistered_user (from : Z) (file : Document) (io : UploadIO)
    (bytes : string) (w : World) :
  db_users w !! pretty from = None →
  JNum from ∉ bannedUsers w →
  JS.endsWith (file_name file) ".html" = true ∨ JS.endsWith (file_name file) ".zip" = true →
  download io = Some bytes →
  saveOk io = true →
  let w' := exec (on_document from file io) w in
  (content <$> storageBucket w' !! uploadPath from (file_name file)) = Some bytes ∧
  (∀ w0, db_users w0 = db_users w →
         updateFileCount (JNum from) true w0 = (Thrown ErrNotFound, w0)) ∧
  outbox w' = (outbox w ++ [Reply from MsgProcessing; Reply from MsgUploadError; ConsoleError])%list ∧
  db_users w' = db_users w ∧
  db_users w' !! pretty from = None.
Proof.
  intros Hnone Hnb Hext Hdl Hsave w'.
  assert (Hw' : w' = push_effect ConsoleError (push_effect (Reply from MsgUploadError)
            (set_storageBucket <[uploadPath from (file_name file) :=
               mkStoredFile bytes (if JS.endsWith (file_name file) ".html"
                                   then "text/html; charset=utf-8" else mime_type file)]>
               (push_effect (Reply from MsgProcessing) w)))).
  { assert (Hreach : reaches_save w from file io).
    { repeat split; [exact Hnb | | exact Hext | eauto].
      unfold statsOf. rewrite Hnone. cbn. lia. }
    destruct (reaches_save_tests _ _ _ _ Hreach) as (Hb & Hq & Hext' & _).
    subst w'. unfold on_document. mrun. rewrite Hb. mrun. rewrite Hq. mrun.
    rewrite Hext'. mrun. rewrite Hdl, Hsave. mrun. rewrite Hnone. reflexivity. }
  rewrite Hw'. wred. repeat split.
  - rewrite lookup_insert_eq. reflexivity.
  - intros w0 Hw0. rewrite updateFileCount_run. wred. rewrite Hw0, Hnone. reflexivity.
  - rewrite <- !app_assoc. reflexivity.
  - exact Hnone.
Qed.

(** With a document to update, a successful [save] is followed by the
    increment and a successful [delete] by the decrement. *)
Lemma on_document_saved from file io d w :
  reaches_save w from file io →
  saveOk io = true →
  db_users w !! pretty from = Some d →
  db_users (exec (on_document from file io) w) =
    <[pretty from := bumped true d (statsOf w (pretty from))]> (db_users w).
Proof.
  intros Hreach Hs Hd.
  destruct (reaches_save_tests _ _ _ _ Hreach) as (Hb & Hq & Hext & bytes & Hdl).
  unfold on_document. mrun. rewrite Hb. mrun. rewrite Hq. mrun. rewrite Hext. mrun.
  rewrite Hdl. mrun. rewrite Hs. mrun. rewrite Hd. mrun.
  destruct (_ || _); mrun; reflexivity.
Qed.

Lemma on_del_deleted from fileName d w :
  reaches_delete w from fileName →
  db_users w !! pretty from = Some d →
  db_users (exec (on_del from fileName true) w) =
    <[pretty from := bumped false d (statsOf w (pretty from))]> (db_users w).
Proof.
  intros Hreach Hd. unfold on_del. mrun.
  rewrite bool_decide_eq_true_2 by exact Hreach. mrun. rewrite Hd. reflexivity.
Qed.

(** The ordering of the two flows, for a user whose document exists: when
    the storage call throws, the users collection (and with it every
    [fileCount]) is left unchanged; an upload that reaches [save] increments
    [fileCount] exactly when [save] succeeds and a deletion that reaches
    [delete] decrements it exactly when [delete] succeeds. *)
Theorem ledger_update_follows_storage (from : Z) (w : World)
    (file : Document) (io : UploadIO) (fileName : string) (deleteOk : bool) :
  (saveOk io = false → db_users (exec (on_document from file io) w) = db_users w) ∧
  (deleteOk = false → db_users (exec (on_del from fileName deleteOk) w) = db_users w) ∧
  (is_Some (db_users w !! pretty from) →
   increment_iff_saved w from file io ∧ decrement_iff_deleted w from fileName deleteOk).
Proof.
  assert (Hup : saveOk io = false → db_users (exec (on_document from file io) w) = db_users w).
  { intros Hs. destruct (on_document_db from file io w) as [Heq | (_ & _ & _ & Hs' & _)];
      [exact Heq | congruence]. }
  assert (Hdn : deleteOk = false →
                db_users (exec (on_del from fileName deleteOk) w) = db_users w).
  { intros Hs. destruct (on_del_db from fileName deleteOk w) as [Heq | (_ & _ & _ & Hs' & _)];
      [exact Heq | congruence]. }
  split; [exact Hup|]. split; [exact Hdn|].
  intros [d Hd]. split.
  - intros Hreach w'. subst w'. destruct (saveOk io) eqn:Hs.
    + rewrite (statsOf_db_insert _ _ _ _ _ (on_document_saved _ _ _ _ _ Hreach Hs Hd)).
      rewrite decide_True by reflexivity. cbn. split; reflexivity.
    + rewrite (statsOf_ext _ _ _ (Hup eq_refl)). split; [lia | discriminate].
  - intros Hreach w'. subst w'. destruct deleteOk.
    + rewrite (statsOf_db_insert _ _ _ _ _ (on_del_deleted _ _ _ _ Hreach Hd)).
      rewrite decide_True by reflexivity. cbn. split; reflexivity.
    + rewrite (statsOf_ext _ _ _ (Hdn eq_refl)). split; [lia | discriminate].
Qed.

(** ** The quota invariant along upload/delete sequences *)

Lemma quota_step adminNumber (w : World) (ev : Event) (key : string) :
  is_quota_op ev →
  baseLimit (statsOf (step adminNumber w ev) key) = baseLimit (statsOf w key) ∧
  referrals (statsOf (step adminNumber w ev) key) = referrals (statsOf w key) ∧
  (quota_ok (statsOf w key) → quota_ok (statsOf (step adminNumber w ev) key)).
Proof.
  destruct ev; cbn [is_quota_op step]; try contradiction; intros _.
  - destruct (on_document_db from file io w) as [Heq | (d & Hd & Hreach & _ & Heq)].
    + rewrite (statsOf_ext _ _ _ Heq). auto.
    + rewrite (statsOf_db_insert _ _ _ _ _ Heq).
      destruct (decide (pretty from = key)) as [<-|Hne]; [|auto].
      destruct Hreach as (_ & Hlt & _).
      unfold quota_ok. cbn. repeat split; lia.
  - destruct (on_del_db from fileName deleteOk w) as [Heq | (d & Hd & _ & _ & Heq)].
    + rewrite (statsOf_ext _ _ _ Heq). auto.
    + rewrite (statsOf_db_insert _ _ _ _ _ Heq).
      destruct (decide (pretty from = key)) as [<-|Hne]; [|auto].
      unfold quota_ok. cbn. repeat split; lia.
Qed.

Lemma quota_run adminNumber (evs : list Event) (w : World) (key : string) :
  Forall is_quota_op evs →
  baseLimit (statsOf (run adminNumber w evs) key) = baseLimit (statsOf w key) ∧
  referrals (statsOf (run adminNumber w evs) key) = referrals (statsOf w key) ∧
  (quota_ok (statsOf w key) → quota_ok (statsOf (run adminNumber w evs) key)).
Proof.
  intros Hops. revert w. induction Hops as [|ev evs Hev _ IH]; intros w.
  - cbn. auto.
  - unfold run. cbn [fold_left]. fold (run adminNumber (step adminNumber w ev) evs).
    destruct (IH (step adminNumber w ev)) as (Hb & Hr & Hq).
    destruct (quota_step adminNumber w ev key Hev) as (Hb' & Hr' & Hq').
    rewrite Hb, Hr. auto.
Qed.

(** C6: for every user and every sequence of uploads and deletions handled
    one after the other (by any users, with any I/O outcomes), if
    [fileCount <= baseLimit + referrals.length] held for the user before the
    sequence it holds after it; such a sequence changes neither [baseLimit]
    nor [referrals]. *)
Theorem quota_invariant_preserved (adminNumber : option Z) (userId : Z)
    (w : World) (evs : list Event) :
  Forall is_quota_op evs →
  quota_ok (statsOf w (pretty userId)) →
  quota_ok (statsOf (run adminNumber w evs) (pretty userId)) ∧
  baseLimit (statsOf (run adminNumber w evs) (pretty userId)) = baseLimit (statsOf w (pretty userId)) ∧
  referrals (statsOf (run adminNumber w evs) (pretty userId)) = referrals (statsOf w (pretty userId)).
Proof.
  intros Hops Hq.
  destruct (quota_run adminNumber evs w (pretty userId) Hops) as (Hb & Hr & Hpres).
  auto.
Qed.

(** C9, the failing run: user 7 uploads before ever sending /start (the file
    is stored, the counter is not), then sends /start, then deletes the
    file.  The counter ends at -1. *)
Theorem delete_after_uncounted_upload_goes_negative :
  let w := run None world0
             [EvDocument 7 html_file io_ok;
              EvStart 7 "Ann" "" "2024-01-01" "2024-01-01T00:00:00Z";
              EvDel 7 "a.html" true] in
  fileCount (statsOf w (pretty 7)) = -1 ∧
  storageBucket w !! uploadPath 7 "a.html" = None.
Proof. vm_compute. split; reflexivity. Qed.

(** C2, the failing run: user 7 has no user document (no /start yet),
    uploads a.html and then deletes it, every storage call succeeding.  The
    upload reaches [save] and the object is stored; [updateFileCount] is
    called next, its [update] is rejected for want of a document, no counter
    is incremented and the user is told the upload failed.  The deletion
    removes the object and again changes no counter.  So neither does the
    increment happen exactly when [save] succeeds, nor the decrement exactly
    when [delete] succeeds. *)
Theorem save_succeeds_without_increment :
  let w1 := exec (on_document 7 html_file io_ok) world0 in
  let w2 := exec (on_del 7 "a.html" true) w1 in
  (reaches_save world0 7 html_file io_ok ∧ saveOk io_ok = true) ∧
  is_Some (storageBucket w1 !! uploadPath 7 "a.html") ∧
  fst (updateFileCount (JNum 7) true w1) = Thrown ErrNotFound ∧
  db_users w1 = db_users world0 ∧
  outbox w1 = [Reply 7 MsgProcessing; Reply 7 MsgUploadError; ConsoleError] ∧
  ¬ increment_iff_saved world0 7 html_file io_ok ∧
  reaches_delete w1 7 "a.html" ∧
  storageBucket w2 !! uploadPath 7 "a.html" = None ∧
  db_users w2 = db_users w1 ∧
  ¬ decrement_iff_deleted w1 7 "a.html" true.
Proof.
  intros w1 w2.
  assert (Hreach : reaches_save world0 7 html_file io_ok).
  { split; [|split; [|split]].
    - apply not_elem_of_empty.
    - vm_compute. reflexivity.
    - left. vm_compute. reflexivity.
    - eexists. reflexivity. }
  assert (Hdel : reaches_delete w1 7 "a.html") by (vm_compute; eexists; reflexivity).
  split; [split; [exact Hreach | reflexivity]|].
  split; [vm_compute; eexists; reflexivity|].
  split; [vm_compute; reflexivity|].
  split; [vm_compute; reflexivity|].
  split; [vm_compute; reflexivity|].
  split.
  { intros H. destruct (H Hreach) as [_ Hinc].
    specialize (Hinc eq_refl). vm_compute in Hinc. discriminate Hinc. }
  split; [exact Hdel|].
  split; [vm_compute; reflexivity|].
  split; [vm_compute; reflexivity|].
  intros H. destruct (H Hdel) as [_ Hdec].
  specialize (Hdec eq_refl). vm_compute in Hdec. discriminate Hdec.
Qed.

(** The ordering on user 7, who has a document: a successful upload counts,
    a failed [save] writes nothing, a successful deletion uncounts. *)
Lemma ledger_update_follows_storage_witness :
  reaches_save world_registered 7 html_file io_ok ∧
  fileCount (statsOf (exec (on_document 7 html_file io_ok) world_registered) (pretty 7)) = 1 ∧
  db_users (exec (on_document 7 html_file io_save_fails) world_registered)
    = db_users world_registered ∧
  reaches_delete world_one_file 7 "a.html" ∧
  fileCount (statsOf (exec (on_del 7 "a.html" true) world_one_file) (pretty 7)) = 0.
Proof.
  assert (Hdoc : is_Some (db_users world_registered !! pretty 7))
    by (vm_compute; eexists; reflexivity).
  assert (Hdoc1 : is_Some (db_users world_one_file !! pretty 7))
    by (vm_compute; eexists; reflexivity).
  assert (Hreach : reaches_save world_registered 7 html_file io_ok).
  { split; [|split; [|split]].
    - apply not_elem_of_empty.
    - vm_compute. reflexivity.
    - left. vm_compute. reflexivity.
    - eexists. reflexivity. }
  assert (Hdel : reaches_delete world_one_file 7 "a.html")
    by (vm_compute; eexists; reflexivity).
  split; [exact Hreach|]. split.
  - destruct (ledger_update_follows_storage 7 world_registered html_file io_ok "a.html" true)
      as (_ & _ & Hboth).
    destruct (Hboth Hdoc) as [Hup _].
    rewrite (proj2 (Hup Hreach) eq_refl). vm_compute. reflexivity.
  - split.
    + destruct (ledger_update_follows_storage 7 world_registered html_file io_save_fails
                  "a.html" true) as (Hsame & _ & _).
      apply Hsame. reflexivity.
    + split; [exact Hdel|].
      destruct (ledger_update_follows_storage 7 world_one_file html_file io_ok "a.html" true)
        as (_ & _ & Hboth).
      destruct (Hboth Hdoc1) as [_ Hdn].
      rewrite (proj2 (Hdn Hdel) eq_refl). vm_compute. reflexivity.
Defined.

(** C10 on the empty system: user 7 uploads without a document. *)
Lemma upload_by_unregistered_user_witness :
  (content <$> storageBucket (exec (on_document 7 html_file io_ok) world0) !! uploadPath 7 "a.html")
    = Some "<html></html>" ∧
  outbox (exec (on_document 7 html_file io_ok) world0)
    = [Reply 7 MsgProcessing; Reply 7 MsgUploadError; ConsoleError] ∧
  db_users (exec (on_document 7 html_file io_ok) world0) !! pretty 7 = None.
Proof.
  destruct (upload_by_unregistered_user 7 html_file io_ok "<html></html>" world0)
    as (Hblob & _ & Hout & _ & Hnone).
  - reflexivity.
  - apply not_elem_of_empty.
  - left. vm_compute. reflexivity.
  - reflexivity.
  - reflexivity.
  - split; [exact Hblob|]. split; [exact Hout | exact Hnone].
Defined.

(** C6 on user 7: two uploads fill the quota, the third is refused, a
    deletion frees a slot, and another user's upload changes nothing. *)
Lemma quota_invariant_preserved_witness :
  let evs := [EvDocument 7 html_file io_ok;
              EvDocument 7 (mkDocument "b.zip" "file-3" "application/zip") io_ok;
              EvDocument 7 (mkDocument "c.html" "file-4" "text/html") io_ok;
              EvDel 7 "a.html" true;
              EvDocument 8 html_file io_ok] in
  quota_ok (statsOf (run None world_registered evs) (pretty 7)) ∧
  fileCount (statsOf (run None world_registered evs) (pretty 7)) = 1.
Proof.
  intros evs. split; [|vm_compute; reflexivity].
  apply (quota_invariant_preserved None 7 world_registered evs).
  - subst evs. repeat constructor.
  - vm_compute. discriminate.
Defined.

(** ** Frame lemmas: what a computation leaves alone *)

Section Frame.

Context {B : Type} (proj : World → B).
Hypothesis proj_db : ∀ f w, proj (set_db_users f w) = proj w.
Hypothesis proj_bucket : ∀ f w, proj (set_storageBucket f w) = proj w.
Hypothesis proj_out : ∀ e w, proj (push_effect e w) = proj w.

Lemma keeps_ret {A} (a : A) : keeps proj (mret a).
Proof. intros w. reflexivity. Qed.

Lemma keeps_throw {A} (e : JsError) : keeps proj (@throw A e).
Proof. intros w. reflexivity. Qed.

Lemma keeps_bind {A C} (m : M A) (k : A → M C) :
  keeps proj m → (∀ a, keeps proj (k a)) → keeps proj (m ≫= k).
Proof.
  intros Hm Hk w. unfold mbind, M_bind. specialize (Hm w).
  destruct (m w) as [[a|e] w1]; cbn [snd] in *; [|exact Hm].
  rewrite Hk. exact Hm.
Qed.

Lemma keeps_try_catch {A} (body : M A) (handler : JsError → M A) :
  keeps proj body → (∀ e, keeps proj (handler e)) → keeps proj (try_catch body handler).
Proof.
  intros Hm Hk w. unfold try_catch. specialize (Hm w).
  destruct (body w) as [[a|e] w1]; cbn [snd] in *; [exact Hm|].
  rewrite Hk. exact Hm.
Qed.

Lemma keeps_modify (f : World → World) :
  (∀ w, proj (f w) = proj w) → keeps proj (modify f).
Proof. intros Hf w. apply Hf. Qed.

Lemma keeps_get_world : keeps proj get_world.
Proof. intros w. reflexivity. Qed.

Lemma keeps_emit e : keeps proj (emit e).
Proof. intros w. apply proj_out. Qed.

Lemma keeps_reply to m : keeps proj (reply to m).
Proof. apply keeps_emit. Qed.

Lemma keeps_db_get key : keeps proj (db_get key).
Proof. intros w. reflexivity. Qed.

Lemma keeps_db_scan : keeps proj db_scan.
Proof. intros w. reflexivity. Qed.

Lemma keeps_db_set key d : keeps proj (db_set key d).
Proof. intros w. apply proj_db. Qed.

Lemma keeps_db_update_stats key st : keeps proj (db_update_stats key st).
Proof.
  intros w. unfold db_update_stats.
  destruct (db_users w !! key); cbn [snd]; [apply proj_db | reflexivity].
Qed.

Lemma keeps_bucket_save path f ok : keeps proj (bucket_save path f ok).
Proof. intros w. unfold bucket_save. destruct ok; cbn [snd]; [apply proj_bucket | reflexivity]. Qed.

Lemma keeps_bucket_delete path ok : keeps proj (bucket_delete path ok).
Proof. intros w. unfold bucket_delete. destruct ok; cbn [snd]; [apply proj_bucket | reflexivity]. Qed.

Lemma keeps_bucket_exists path : keeps proj (bucket_exists path).
Proof. intros w. reflexivity. Qed.

Lemma keeps_bucket_getFiles prefix ok : keeps proj (bucket_getFiles prefix ok).
Proof. intros w. unfold bucket_getFiles. destruct ok; reflexivity. Qed.

Lemma keeps_isBanned userId : keeps proj (isBanned userId).
Proof. intros w. reflexivity. Qed.

Lemma keeps_getUserStats userId : keeps proj (getUserStats userId).
Proof. intros w. rewrite getUserStats_run. reflexivity. Qed.

Lemma keeps_canUploadFile userId : keeps proj (canUploadFile userId).
Proof. intros w. rewrite canUploadFile_run. reflexivity. Qed.

Lemma keeps_updateFileCount userId inc : keeps proj (updateFileCount userId inc).
Proof.
  intros w. rewrite updateFileCount_run.
  destruct (db_users w !! JString userId); cbn [snd]; [apply proj_db | reflexivity].
Qed.

Lemma keeps_telegram_send deliver i chat m : keeps proj (telegram_send deliver i chat m).
Proof.
  intros w. unfold telegram_send. destruct (deliver i chat); cbn [snd];
    [apply proj_out | reflexivity].
Qed.

Lemma keeps_forM {A} (xs : list A) (body : A → M unit) :
  (∀ x, keeps proj (body x)) → keeps proj (forM_ xs body).
Proof.
  intros Hbody. induction xs as [|x xs IH]; cbn [forM_].
  - apply keeps_ret.
  - apply keeps_bind; [apply Hbody | intros _; exact IH].
Qed.

Lemma keeps_if {A} (c : bool) (m1 m2 : M A) :
  keeps proj m1 → keeps proj m2 → keeps proj (if c then m1 else m2).
Proof. destruct c; auto. Qed.

End Frame.

Create HintDb frame.
#[export] Hint Resolve keeps_ret keeps_throw keeps_get_world keeps_emit keeps_reply keeps_db_get
  keeps_db_scan keeps_db_set keeps_db_update_stats keeps_bucket_save keeps_bucket_delete
  keeps_bucket_exists keeps_bucket_getFiles keeps_isBanned keeps_getUserStats
  keeps_canUploadFile keeps_updateFileCount keeps_telegram_send : frame.

(** Solves [keeps proj m] for a computation built from the primitives above,
    given that [proj] ignores Firestore, the bucket and the outbox. *)
Ltac frame :=
  repeat first
    [ match goal with |- ∀ _, _ => intro end
    | apply keeps_bind
    | apply keeps_try_catch
    | apply keeps_forM
    | apply keeps_if
    | solve [eauto with frame]
    | solve [apply keeps_modify; intros; reflexivity]
    | match goal with
      | |- keeps _ (match ?x with _ => _ end) => destruct x
      end ].

(** ** The admin conversation engine *)

Lemma text_add_slots_control userId txt w :
  control (exec (text_add_slots userId txt) w) =
  (delete userId (adminStates w),
   (banUserMode w, unbanUserMode w, defaultSlotsMode w, referralRewardMode w)).
Proof.
  unfold text_add_slots, exec. unfold mbind at 1, M_bind at 1, modify at 1.
  match goal with |- control (snd (?m ?w0)) = _ =>
    assert (Hk : keeps control m) by frame; rewrite (Hk w0) end.
  reflexivity.
Qed.

Lemma text_default_slots_control userId txt w :
  control (exec (text_default_slots userId txt) w) =
  (adminStates w, (banUserMode w, unbanUserMode w, false, referralRewardMode w)).
Proof.
  unfold text_default_slots, exec. unfold mbind at 1, M_bind at 1, modify at 1.
  match goal with |- control (snd (?m ?w0)) = _ =>
    assert (Hk : keeps control m) by frame; rewrite (Hk w0) end.
  reflexivity.
Qed.

Lemma text_referral_reward_control userId txt w :
  control (exec (text_referral_reward userId txt) w) =
  (adminStates w, (banUserMode w, unbanUserMode w, defaultSlotsMode w, false)).
Proof.
  unfold text_referral_reward, exec. unfold mbind at 1, M_bind at 1, modify at 1.
  match goal with |- control (snd (?m ?w0)) = _ =>
    assert (Hk : keeps control m) by frame; rewrite (Hk w0) end.
  reflexivity.
Qed.

Lemma on_text_control adminNumber admin txt w :
  isAdmin adminNumber admin = true →
  control (exec (on_text adminNumber admin txt) w) =
  match conversationState w admin with
  | AwaitingAddSlotsArgs =>
      (delete admin (adminStates w),
       (banUserMode w, unbanUserMode w, defaultSlotsMode w, referralRewardMode w))
  | AwaitingBanTarget =>
      (adminStates w, (false, unbanUserMode w, defaultSlotsMode w, referralRewardMode w))
  | AwaitingUnbanTarget =>
      (adminStates w, (banUserMode w, false, defaultSlotsMode w, referralRewardMode w))
  | AwaitingDefaultSlotsValue =>
      (adminStates w, (banUserMode w, unbanUserMode w, false, referralRewardMode w))
  | AwaitingReferralRewardValue =>
      (adminStates w, (banUserMode w, unbanUserMode w, defaultSlotsMode w, false))
  | CSNone => control w
  end.
Proof.
  intros Hadmin. unfold on_text, conversationState. rewrite Hadmin. cbn [negb].
  unfold exec, mbind at 1, M_bind at 1, get_world at 1.
  destruct (bool_decide (adminStates w !! admin = Some "add_slots")).
  { apply text_add_slots_control. }
  destruct (banUserMode w) eqn:Hban; [reflexivity|].
  destruct (unbanUserMode w) eqn:Hunban.
  { mrun. unfold control. wred. rewrite Hban. reflexivity. }
  destruct (defaultSlotsMode w) eqn:Hdflt.
  { etransitivity; [apply (text_default_slots_control admin (JS.trim txt) w)|].
    rewrite Hban, Hunban. reflexivity. }
  destruct (referralRewardMode w) eqn:Hreward.
  { etransitivity; [apply (text_referral_reward_control admin (JS.trim txt) w)|].
    rewrite Hban, Hunban, Hdflt. reflexivity. }
  unfold control. cbn. rewrite Hban, Hunban, Hdflt, Hreward. reflexivity.
Qed.

(** A free text from anyone but the admin does not reach the engine. *)
Lemma on_text_not_admin adminNumber from txt w :
  isAdmin adminNumber from = false → exec (on_text adminNumber from txt) w = w.
Proof. intros H. unfold on_text. rewrite H. reflexivity. Qed.

(** The menu actions arm their state; the four flag-driven ones reset the
    other flags, add-slots leaves the flags as they are. *)
Lemma action_arms_state adminNumber admin s act w :
  isAdmin adminNumber admin = true →
  menuAction s = Some act →
  let w1 := exec (on_action adminNumber admin act) w in
  (s = AwaitingAddSlotsArgs ∨ ∀ s', s' ≠ s → modeFlag s' w1 = false) ∧
  (s = AwaitingAddSlotsArgs ∨ conversationState w admin = CSNone →
   conversationState w1 admin = s).
Proof.
  intros Hadmin Hact.
  destruct s; cbn in Hact; try discriminate; injection Hact as <-;
    cbn [on_action]; unfold on_add_slots, on_ban_user, on_unban_user, on_edit_default_slots,
      on_edit_referral_reward; rewrite Hadmin; cbn [negb]; mrun.
  - split; [left; reflexivity|]. intros _. unfold conversationState. wred.
    rewrite lookup_insert_eq. reflexivity.
  - split; [right; intros [] Hne; try reflexivity; contradiction|].
    intros [Hs | _]; [discriminate|]. unfold conversationState. wred.
    rewrite lookup_insert_eq. reflexivity.
  - split; [right; intros [] Hne; try reflexivity; contradiction|].
    intros [Hs | _]; [discriminate|]. unfold conversationState. wred.
    rewrite lookup_insert_eq. reflexivity.
  - split; [right; intros [] Hne; try reflexivity; contradiction|].
    intros [Hs | _]; [discriminate|]. unfold conversationState. wred.
    rewrite lookup_insert_eq. reflexivity.
  - split; [right; intros [] Hne; try reflexivity; contradiction|].
    intros [Hs | _]; [discriminate|]. unfold conversationState. wred.
    rewrite lookup_insert_eq. reflexivity.
Qed.

(** What a free text of the admin does consume: for each of the five states
    and every text, valid or not, handling the text clears the selector the
    handler dispatched on (the [adminStates] entry for add-slots, the mode
    flag for the other four), so the admin is no longer in that state; and
    when no other mode flag was pending the admin's state is None
    afterwards. *)
Theorem text_consumes_state (adminNumber : option Z) (admin : Z)
    (s : ConversationState) (txt : string) (w : World) :
  isAdmin adminNumber admin = true →
  s ≠ CSNone →
  conversationState w admin = s →
  let w' := exec (on_text adminNumber admin txt) w in
  (s = AwaitingAddSlotsArgs → adminStates w' !! admin = None) ∧
  (s ≠ AwaitingAddSlotsArgs → modeFlag s w' = false) ∧
  conversationState w' admin ≠ s ∧
  ((∀ s', s' ≠ s → modeFlag s' w = false) → conversationState w' admin = CSNone).
Proof.
  intros Hadmin Hne Hs w'.
  pose proof (on_text_control adminNumber admin txt w Hadmin) as Hc.
  fold w' in Hc. rewrite Hs in Hc. unfold control in Hc.
  revert Hs. unfold conversationState.
  destruct (bool_decide (adminStates w !! admin = Some "add_slots")) eqn:Hmap.
  - (* add-slots *)
    intros <-. injection Hc as Hm Hb Hu Hd Hr.
    rewrite Hm, Hb, Hu, Hd, Hr, lookup_delete_eq. cbn [bool_decide decide_rel].
    rewrite bool_decide_eq_false_2 by discriminate.
    split; [reflexivity|]. split; [congruence|]. split.
    + destruct (banUserMode w), (unbanUserMode w), (defaultSlotsMode w), (referralRewardMode w);
        discriminate.
    + intros Hother.
      pose proof (Hother AwaitingBanTarget) as H0.
      pose proof (Hother AwaitingUnbanTarget) as H1.
      pose proof (Hother AwaitingDefaultSlotsValue) as H2.
      pose proof (Hother AwaitingReferralRewardValue) as H3.
      cbn [modeFlag] in *. rewrite H0, H1, H2, H3 by discriminate. reflexivity.
  - destruct (banUserMode w) eqn:Hban; [|destruct (unbanUserMode w) eqn:Hunban;
      [|destruct (defaultSlotsMode w) eqn:Hdflt; [|destruct (referralRewardMode w) eqn:Hrew]]];
      intros <-; try contradiction;
      injection Hc as Hm Hb Hu Hd Hr; cbn [modeFlag]; rewrite Hm, Hb, Hu, Hd, Hr, Hmap;
      (split; [discriminate|]); (split; [reflexivity|]); split.
    + destruct (unbanUserMode w), (defaultSlotsMode w), (referralRewardMode w); discriminate.
    + intros Hother.
      pose proof (Hother AwaitingUnbanTarget) as H1.
      pose proof (Hother AwaitingDefaultSlotsValue) as H2.
      pose proof (Hother AwaitingReferralRewardValue) as H3.
      cbn [modeFlag] in *. rewrite H1, H2, H3 by discriminate. reflexivity.
    + destruct (defaultSlotsMode w), (referralRewardMode w); discriminate.
    + intros Hother.
      pose proof (Hother AwaitingDefaultSlotsValue) as H2.
      pose proof (Hother AwaitingReferralRewardValue) as H3.
      cbn [modeFlag] in *. rewrite H2, H3 by discriminate. reflexivity.
    + destruct (referralRewardMode w); discriminate.
    + intros Hother.
      pose proof (Hother AwaitingReferralRewardValue) as H3.
      cbn [modeFlag] in *. rewrite H3 by discriminate. reflexivity.
    + discriminate.
    + intros _. reflexivity.
Qed.

(** After the admin arms a ban and answers, the mode flag is off but the
    admin's [adminStates] entry still reads "ban_user". *)
Lemma ban_reply_keeps_state_entry :
  let w := exec (on_ban_user (Some 1) 1) world0 in
  conversationState w 1 = AwaitingBanTarget ∧
  adminStates (exec (on_text (Some 1) 1 "42") w) !! 1 = Some "ban_user" ∧
  ¬ cleared_as_claimed AwaitingBanTarget 1 (exec (on_text (Some 1) 1 "42") w).
Proof.
  split; [vm_compute; reflexivity|].
  split; [vm_compute; reflexivity|].
  intros [Hmap _]. vm_compute in Hmap. discriminate Hmap.
Qed.

(** An invalid payload: the default-slots state is consumed by a text that
    is not a number. *)
Lemma text_consumes_state_witness :
  let w := exec (on_edit_default_slots (Some 1) 1) world0 in
  conversationState w 1 = AwaitingDefaultSlotsValue ∧
  JS.parseInt "not a number" = None ∧
  conversationState (exec (on_text (Some 1) 1 "not a number") w) 1 = CSNone.
Proof.
  intros w. split; [vm_compute; reflexivity|]. split; [vm_compute; reflexivity|].
  destruct (text_consumes_state (Some 1) 1 AwaitingDefaultSlotsValue "not a number" w)
    as (_ & _ & _ & Hnone).
  - vm_compute. reflexivity.
  - discriminate.
  - vm_compute. reflexivity.
  - apply Hnone. intros [] Hne; try reflexivity. contradiction.
Defined.

(** C4, the failing run: users 7 and 8 are registered; the admin presses
    "edit default slots", then "add slots", and answers "7 1".  The
    add-slots action, unlike its four siblings, does not reset the mode
    flags, and the add-slots branch of the text handler clears only the
    [adminStates] entry: after the answer the admin is not in state None
    but still in the default-slots state, and the next free text,
    "100 thanks", is read as a default limit and rewrites every user's
    [baseLimit].  The flag-driven branches in turn clear their flag and
    leave the [adminStates] entry: after "ban user" and an answer the entry
    still reads "ban_user". *)
Theorem add_slots_text_leaves_state_pending :
  let w0 := run (Some 1) world0
              [EvStart 7 "Ann" "" "2024-01-01" "2024-01-01T00:00:00Z";
               EvStart 8 "Bob" "" "2024-01-01" "2024-01-01T00:00:01Z"] in
  let w1 := run (Some 1) w0 [EvAction 1 ActEditDefaultSlots; EvAction 1 ActAddSlots] in
  let w2 := step (Some 1) w1 (EvText 1 "7 1") in
  let w3 := step (Some 1) w2 (EvText 1 "100 thanks") in
  let v := run (Some 1) w0 [EvAction 1 ActBanUser; EvText 1 "42"] in
  conversationState w1 1 = AwaitingAddSlotsArgs ∧
  (baseLimit (statsOf w2 "7") = 3 ∧ baseLimit (statsOf w2 "8") = 2) ∧
  (adminStates w2 !! 1 = None ∧ defaultSlotsMode w2 = true) ∧
  conversationState w2 1 = AwaitingDefaultSlotsValue ∧
  (baseLimit (statsOf w3 "7") = 100 ∧ baseLimit (statsOf w3 "8") = 100) ∧
  conversationState w3 1 = CSNone ∧
  (banUserMode v = false ∧ adminStates v !! 1 = Some "ban_user").
Proof. vm_compute. repeat split; reflexivity. Qed.

(** A flag left pending by an earlier action survives an add-slots round:
    the next free text is then taken as a ban target. *)
Example stale_flag_after_add_slots :
  let w := run (Some 1) world0
             [EvAction 1 ActBanUser; EvAction 1 ActAddSlots; EvText 1 "9 1"] in
  conversationState w 1 = AwaitingBanTarget ∧
  JStr "hello" ∈ bannedUsers (run (Some 1) w [EvText 1 "hello"]).
Proof.
  split; [vm_compute; reflexivity|].
  apply (bool_decide_unpack (JStr "hello" ∈ _)). vm_compute. exact I.
Qed.

(** ** Broadcast *)

Lemma tally_cons o x os :
  tally o (x :: os) = (if bool_decide (x = o) then 1 else 0) + tally o os.
Proof.
  unfold tally. cbn [List.filter].
  destruct (bool_decide (x = o)); [|reflexivity].
  cbn [length]. rewrite Nat2Z.inj_succ. symmetry. apply Z.add_1_l.
Qed.

Lemma tally_total os :
  tally Delivered os + tally Failed os + tally Skipped os = Z.of_nat (length os).
Proof.
  induction os as [|x os IH]; [reflexivity|].
  rewrite !tally_cons. cbn [length]. rewrite Nat2Z.inj_succ.
  destruct x;
    repeat (first [rewrite bool_decide_eq_true_2 by reflexivity
                  | rewrite bool_decide_eq_false_2 by discriminate]);
    lia.
Qed.

Lemma outcomes_length message deliver docs i :
  length (outcomes message deliver docs i) = length docs.
Proof.
  revert i. induction docs as [|doc docs IH]; intros i; cbn; [reflexivity|].
  rewrite IH. reflexivity.
Qed.

(** One pass through the loop body, try and catch included. *)
Lemma broadcast_attempt message deliver i chat sentCount failedCount w :
  ∃ w',
    try_catch
      (sent' ← broadcast_send message deliver i chat sentCount;
       mret (sent', failedCount))
      (λ _, emit ConsoleError;; mret (sentCount, failedCount + 1)) w
    = (Ok (match recipient_outcome message deliver i chat with
           | Delivered => (sentCount + 1, failedCount)
           | Failed => (sentCount, failedCount + 1)
           | Skipped => (sentCount, failedCount)
           end), w').
Proof.
  unfold broadcast_send, recipient_outcome, modality, telegram_send.
  destruct (JS.truthy (default "" (text message))).
  { mrun. destruct (deliver i chat); mrun; eauto. }
  destruct (photo message) as [sizes|].
  { destruct sizes as [|p ps] using rev_ind.
    - rewrite bool_decide_eq_true_2 by reflexivity. mrun. eauto.
    - rewrite bool_decide_eq_false_2 by (intros H; injection H as H; destruct ps; discriminate).
      rewrite map_app. cbn [map]. rewrite last_last. mrun. destruct (deliver i chat); mrun; eauto. }
  destruct (video message) as [videoId|].
  { mrun. destruct (deliver i chat); mrun; eauto. }
  mrun. eauto.
Qed.

Lemma broadcast_loop_run message deliver docs :
  ∀ i sentCount failedCount w,
    fst (broadcast_loop message deliver docs i sentCount failedCount w)
    = Ok (sentCount + tally Delivered (outcomes message deliver docs i),
          failedCount + tally Failed (outcomes message deliver docs i)).
Proof.
  induction docs as [|doc docs IH]; intros i sentCount failedCount w.
  - cbn. unfold tally. cbn. rewrite !Z.add_0_r. reflexivity.
  - cbn [broadcast_loop outcomes].
    destruct (broadcast_attempt message deliver i (chatId doc.2) sentCount failedCount w)
      as [w1 Hstep].
    unfold mbind at 1, M_bind at 1. rewrite Hstep, IH, !tally_cons.
    destruct (recipient_outcome message deliver i (chatId doc.2)); cbn [fst snd];
      repeat (first [rewrite bool_decide_eq_true_2 by reflexivity
                    | rewrite bool_decide_eq_false_2 by discriminate]);
      rewrite ?Z.add_0_l, ?Z.add_assoc; reflexivity.
Qed.

(** C5: whatever the recipients, the message and the delivery outcomes, the
    loop runs to its end and returns the two counters: [sent] counts the
    recipients whose delivery succeeded, [failed] those whose delivery
    threw, and together with the recipients skipped for an unsupported
    modality they add up to the number of recipients. *)
Theorem broadcast_counts_partition (message : Message) (deliver : nat → Z → bool)
    (docs : list (string * UserDoc)) (w : World) :
  let os := outcomes message deliver docs 0 in
  ∃ sent failed w',
    broadcast_loop message deliver docs 0 0 0 w = (Ok (sent, failed), w') ∧
    sent = tally Delivered os ∧
    failed = tally Failed os ∧
    sent + failed + tally Skipped os = Z.of_nat (length docs).
Proof.
  intros os.
  pose proof (broadcast_loop_run message deliver docs 0%nat 0 0 w) as Hrun.
  destruct (broadcast_loop message deliver docs 0 0 0 w) as [r w'].
  cbn [fst] in Hrun. subst r. rewrite !Z.add_0_l.
  exists (tally Delivered os), (tally Failed os), w'.
  split; [reflexivity|]. split; [reflexivity|]. split; [reflexivity|].
  rewrite tally_total. subst os. rewrite outcomes_length. reflexivity.
Qed.

Example broadcast_text_one_failure :
  let docs := map_to_list (db_users (run None world0
                [EvStart 7 "Ann" "" "d" "t"; EvStart 8 "Bob" "" "d" "t"; EvStart 9 "Cy" "" "d" "t"])) in
  let message := mkMessage (Some "hello") None None None in
  let deliver := λ (_ : nat) (chat : Z), negb (chat =? 8) in
  fst (broadcast_loop message deliver docs 0 0 0 world0) = Ok (2, 1) ∧
  fst (broadcast_loop (mkMessage None None None None) deliver docs 0 0 0 world0) = Ok (0, 0) ∧
  fst (broadcast_loop (mkMessage None (Some []) None None) deliver docs 0 0 0 world0) = Ok (0, 3).
Proof. vm_compute. repeat split; reflexivity. Qed.

(** ** Referral attribution at /start *)

(** The users collection after a /start. *)
Lemma on_start_db adminNumber from first_name startPayload today now w :
  db_users (exec (on_start adminNumber from first_name startPayload today now) w) =
  if bool_decide (JNum from ∈ bannedUsers w) then db_users w else
  match db_users w !! pretty from with
  | Some _ => db_users w
  | None =>
      <[pretty from :=
          mkUserDoc from (if JS.truthy first_name then first_name else "Unknown") now
                    (Some (mkStats 0 [] 2 None))]>
        (if JS.truthy startPayload && negb (String.eqb startPayload (pretty from)) then
           match db_users w !! startPayload with
           | None => db_users w
           | Some d =>
               let s := statsOf w startPayload in
               if bool_decide (pretty from ∈ referrals s) then db_users w
               else <[startPayload :=
                        mkUserDoc (chatId d) (name d) (joinedAt d)
                          (Some (mkStats (fileCount s) (referrals s ++ [pretty from])
                                         (baseLimit s) (referralReward s)))]> (db_users w)
           end
         else db_users w)
  end.
Proof.
  unfold on_start, trackDailyUsage. mrun.
  destruct (bool_decide (JNum from ∈ bannedUsers w)); mrun; [reflexivity|].
  destruct (db_users w !! pretty from) as [d0|] eqn:Hself; mrun.
  { destruct (isAdmin adminNumber from); reflexivity. }
  destruct (JS.truthy startPayload && negb (String.eqb startPayload (pretty from))); mrun.
  2:{ destruct (isAdmin adminNumber from); reflexivity. }
  destruct (db_users w !! startPayload) as [d|] eqn:Href; mrun.
  2:{ destruct (isAdmin adminNumber from); reflexivity. }
  change (statsOf (set_users _ (set_db_dailyStats _ w)) startPayload)
    with (statsOf w startPayload).
  destruct (bool_decide (pretty from ∈ referrals (statsOf w startPayload))); mrun.
  { destruct (isAdmin adminNumber from); reflexivity. }
  rewrite Href. mrun.
  destruct (isAdmin adminNumber from); reflexivity.
Qed.

Lemma on_start_keeps_banned adminNumber from first_name startPayload today now :
  keeps bannedUsers (on_start adminNumber from first_name startPayload today now).
Proof. unfold on_start, trackDailyUsage. cbv zeta. frame. Qed.

(** C8: a /start whose payload is the sender's own id attributes nothing:
    every referrals sequence, the sender's own included, is what it was. *)
Theorem self_referral_never_attributed (adminNumber : option Z) (from : Z)
    (first_name today now : string) (w : World) (key : string) :
  referrals (statsOf (exec (on_start adminNumber from first_name (pretty from) today now) w) key)
  = referrals (statsOf w key).
Proof.
  unfold statsOf at 1. rewrite on_start_db.
  destruct (bool_decide (JNum from ∈ bannedUsers w)); [reflexivity|].
  destruct (db_users w !! pretty from) as [d0|] eqn:Hself; [reflexivity|].
  rewrite String.eqb_refl, andb_false_r.
  rewrite lookup_insert. destruct (decide (pretty from = key)) as [<-|Hne]; [|reflexivity].
  unfold statsOf. rewrite Hself. reflexivity.
Qed.

(** C7: handling the same referee's /start with the same referrer payload a
    second time changes no user document; in particular the referrer's
    referrals sequence keeps its length. *)
Theorem referral_attribution_idempotent (adminNumber : option Z) (referee : Z)
    (referrer : string) (first_name1 today1 now1 first_name2 today2 now2 : string)
    (w : World) :
  let w1 := exec (on_start adminNumber referee first_name1 referrer today1 now1) w in
  let w2 := exec (on_start adminNumber referee first_name2 referrer today2 now2) w1 in
  db_users w2 = db_users w1 ∧
  length (referrals (statsOf w2 referrer)) = length (referrals (statsOf w1 referrer)).
Proof.
  intros w1 w2.
  assert (Hdb : db_users w2 = db_users w1).
  { subst w2. rewrite on_start_db.
    assert (Hban : bannedUsers w1 = bannedUsers w) by apply on_start_keeps_banned.
    rewrite Hban.
    destruct (bool_decide (JNum referee ∈ bannedUsers w)) eqn:Hb; [reflexivity|].
    assert (Hdoc : is_Some (db_users w1 !! pretty referee)).
    { subst w1. rewrite on_start_db, Hb.
      destruct (db_users w !! pretty referee) as [d0|] eqn:Hself.
      - rewrite Hself. eauto.
      - rewrite lookup_insert_eq. eauto. }
    destruct Hdoc as [d1 ->]. reflexivity. }
  split; [exact Hdb|]. rewrite (statsOf_ext _ _ _ Hdb). reflexivity.
Qed.

(** The membership test alone already stops a second attribution: when the
    referee is in the referrer's sequence, a /start leaves the sequence as
    it is, whether or not the referee has a document. *)
Lemma repeated_referee_not_appended adminNumber referee referrer first_name today now w :
  pretty referee ∈ referrals (statsOf w referrer) →
  referrals (statsOf (exec (on_start adminNumber referee first_name referrer today now) w) referrer)
  = referrals (statsOf w referrer).
Proof.
  intros Hin. unfold statsOf at 1. rewrite on_start_db.
  destruct (bool_decide (JNum referee ∈ bannedUsers w)); [reflexivity|].
  destruct (db_users w !! pretty referee) as [d0|] eqn:Hself; [reflexivity|].
  rewrite lookup_insert. destruct (decide (pretty referee = referrer)) as [<-|Hne].
  - exfalso. unfold statsOf in Hin. rewrite Hself in Hin. cbn in Hin.
    apply elem_of_nil in Hin. exact Hin.
  - destruct (JS.truthy referrer && negb (String.eqb referrer (pretty referee)));
      [|reflexivity].
    destruct (db_users w !! referrer) as [d|] eqn:Href; [|unfold statsOf; rewrite Href; reflexivity].
    cbv zeta. rewrite bool_decide_eq_true_2 by exact Hin.
    fold (statsOf w referrer). unfold statsOf. rewrite Href. reflexivity.
Qed.

(** A first /start with a referral payload does attribute, once. *)
Example referral_attributed_once :
  let w1 := run None world0 [EvStart 7 "Ann" "" "d" "t"; EvStart 8 "Bob" "7" "d" "t"] in
  let w2 := run None w1 [EvStart 8 "Bob" "7" "d" "t"] in
  referrals (statsOf w1 "7") = ["8"] ∧ referrals (statsOf w2 "7") = ["8"].
Proof. vm_compute. split; reflexivity. Qed.

(** ** The banned-user gate *)

(** The text handler only ever puts strings into the banned set. *)
Lemma on_text_bans_strings adminNumber from txt w (n : Z) :
  JNum n ∈ bannedUsers (exec (on_text adminNumber from txt) w) → JNum n ∈ bannedUsers w.
Proof.
  unfold on_text. destruct (isAdmin adminNumber from); cbn [negb]; [|intros H; exact H].
  unfold exec, mbind at 1, M_bind at 1, get_world at 1.
  destruct (bool_decide (adminStates w !! from = Some "add_slots")).
  { assert (Hk : keeps bannedUsers (text_add_slots from (JS.trim txt)))
      by (unfold text_add_slots; cbv zeta; frame).
    rewrite (Hk w). intros H; exact H. }
  destruct (banUserMode w).
  { mrun. intros H. apply elem_of_union in H as [H|H]; [|exact H].
    apply elem_of_singleton in H. discriminate H. }
  destruct (unbanUserMode w).
  { mrun. intros H. apply elem_of_difference in H as [H _]. exact H. }
  destruct (defaultSlotsMode w).
  { assert (Hk : keeps bannedUsers (text_default_slots from (JS.trim txt)))
      by (unfold text_default_slots; frame).
    rewrite (Hk w). intros H; exact H. }
  destruct (referralRewardMode w).
  { assert (Hk : keeps bannedUsers (text_referral_reward from (JS.trim txt)))
      by (unfold text_referral_reward; frame).
    rewrite (Hk w). intros H; exact H. }
  intros H; exact H.
Qed.

(** C3, the failing run: the admin (id 1) bans "42" through the ban flow
    while user 42 is registered.  The string "42" is in the banned set, the
    number 42 that [ctx.from.id] carries is not, and user 42's upload is
    stored and counted, the stats and file list are served, and the delete
    menu and the deletion go through; no reply says the user is banned. *)
Theorem banned_id_is_not_gated :
  let w := run (Some 1) world0
             [EvStart 42 "Bob" "" "2024-01-01" "2024-01-01T00:00:00Z";
              EvAction 1 ActBanUser; EvText 1 "42"] in
  let w' := run (Some 1) w
              [EvDocument 42 html_file io_ok; EvMyStats 42; EvMyFiles 42 true;
               EvDelete 42 true; EvDel 42 "a.html" true] in
  bannedUsers w = {[JStr "42"]} ∧
  JString (JNum 42) = "42" ∧
  fst (isBanned (JNum 42) w) = Ok false ∧
  fileCount (statsOf w (pretty 42)) = 0 ∧
  fileCount (statsOf (run (Some 1) w [EvDocument 42 html_file io_ok]) (pretty 42)) = 1 ∧
  outbox w' = (outbox w ++
    [Reply 42 MsgProcessing; Reply 42 (MsgUploadSuccess "uploads/42/a.html" 1 2);
     ReplyAnimation 42;
     Reply 42 (MsgStats 1 2 0);
     Reply 42 (MsgFileList ["uploads/42/a.html"]);
     Reply 42 (MsgSelectFile ["a.html"]);
     Reply 42 (MsgDeleted "a.html")])%list.
Proof.
  vm_compute. repeat split; reflexivity.
Qed.

Lemma keeps_broadcast_loop {B : Type} (proj : World → B) message deliver docs :
  (∀ e w, proj (push_effect e w) = proj w) →
  ∀ i sentCount failedCount,
    keeps proj (broadcast_loop message deliver docs i sentCount failedCount).
Proof.
  intros Hout.
  induction docs as [|doc docs IH]; intros i sentCount failedCount; cbn [broadcast_loop].
  - frame.
  - cbv zeta. apply keeps_bind; [|intros counts; apply IH].
    unfold broadcast_send. cbv zeta. frame.
Qed.

(** Apart from the text handler no handler writes to the banned set. *)
Lemma step_bans_strings adminNumber w ev (n : Z) :
  JNum n ∈ bannedUsers (step adminNumber w ev) → JNum n ∈ bannedUsers w.
Proof.
  destruct ev; cbn [step]; try apply on_text_bans_strings.
  all: match goal with
       | |- _ ∈ bannedUsers (exec ?m ?w0) → _ =>
           let Hk := fresh "Hk" in
           assert (Hk : keeps bannedUsers m);
           [| unfold exec; rewrite (Hk w0); intros H; exact H]
       end.
  - apply on_start_keeps_banned.
  - unfold on_mystats. cbv zeta. frame.
  - unfold on_document. cbv zeta. frame.
  - unfold on_myfiles. frame.
  - unfold on_delete. cbv zeta. frame.
  - unfold on_del. cbv zeta. frame.
  - destruct a; cbn [on_action]; unfold on_add_slots, on_ban_user, on_unban_user,
      on_edit_default_slots, on_edit_referral_reward, on_broadcast; frame.
  - unfold on_broadcast_message. apply keeps_bind; [frame|]. intros w1.
    apply keeps_if; [frame|]. apply keeps_try_catch; [|frame].
    apply keeps_bind; [frame|]. intros _. apply keeps_bind; [frame|]. intros snapshot.
    apply keeps_if; [frame|]. apply keeps_bind; [|frame].
    apply keeps_broadcast_loop. reflexivity.
Qed.

(** However the bot is driven from a fresh start, no numeric id is ever in
    the banned set, so [isBanned(ctx.from.id)] answers false every time. *)
Lemma numeric_id_never_banned adminNumber (evs : list Event) (n : Z) :
  fst (isBanned (JNum n) (run adminNumber world0 evs)) = Ok false.
Proof.
  unfold isBanned. cbn [fst]. f_equal. apply bool_decide_eq_false.
  assert (Hgen : ∀ w, JNum n ∉ bannedUsers w → JNum n ∉ bannedUsers (run adminNumber w evs)).
  { induction evs as [|ev evs IH]; intros w Hw; [exact Hw|].
    unfold run. cbn [fold_left]. apply IH. intros Hin. apply Hw.
    exact (step_bans_strings adminNumber w ev n Hin). }
  apply Hgen. apply not_elem_of_empty.
Qed.

(** The stats action and the deletion itself never consult the banned set:
    even in a world where the number 42 is in it, both go through, while
    the upload, the file list and the delete menu are refused. *)
Example mystats_and_del_have_no_gate :
  let w := set_bannedUsers (λ _, {[JNum 42]})
             (run None world0
                [EvStart 42 "Bob" "" "2024-01-01" "2024-01-01T00:00:00Z";
                 EvDocument 42 html_file io_ok]) in
  outbox (exec (on_mystats 42) w) = (outbox w ++ [Reply 42 (MsgStats 1 2 0)])%list ∧
  fileCount (statsOf (exec (on_del 42 "a.html" true) w) (pretty 42)) = 0 ∧
  outbox (exec (on_document 42 html_file io_ok) w) = (outbox w ++ [Reply 42 MsgBanned])%list ∧
  outbox (exec (on_myfiles 42 true) w) = (outbox w ++ [Reply 42 MsgBanned])%list ∧
  outbox (exec (on_delete 42 true) w) = (outbox w ++ [Reply 42 MsgBanned])%list.
Proof. vm_compute. repeat split; reflexivity. Qed.

(** ** The broadcast summary *)

(** X24: the next photo, video or other message without text of an armed
    admin (a message that gets to the listener) is fanned out to every user
    document; the listener disarms itself, and the last thing it sends is
    the summary to the admin, whose two numbers are the deliveries that
    succeeded and the deliveries that threw. *)
Lemma on_broadcast_message_reports adminNumber from message deliver w :
  isAdmin adminNumber from = true →
  broadcastStates w !! from = Some true →
  reaches_listener message →
  db_users w ≠ ∅ →
  let w' := exec (on_broadcast_message adminNumber from message deliver) w in
  let os := outcomes message deliver (map_to_list (db_users w)) 0 in
  broadcastStates w' !! from = None ∧
  List.last (outbox w') ConsoleError
    = Reply from (MsgBroadcastResult (tally Delivered os) (tally Failed os)).
Proof.
  intros Hadmin Harmed _ Hne w' os. subst w'.
  unfold on_broadcast_message, db_scan. mrun. rewrite Hadmin, Harmed.
  change (default false (Some true)) with true. mrun. cbv beta.
  rewrite bool_decide_eq_false_2
    by (intros Hnil; apply Hne; apply map_to_list_empty_iff; exact Hnil).
  pose proof (broadcast_loop_run message deliver (map_to_list (db_users w)) 0%nat 0 0
                (set_broadcastStates (delete from) w)) as Hret.
  pose proof (keeps_broadcast_loop broadcastStates message deliver (map_to_list (db_users w))
                (λ _ _, eq_refl) 0%nat 0 0 (set_broadcastStates (delete from) w)) as Hkeep.
  destruct (broadcast_loop message deliver (map_to_list (db_users w)) 0 0 0
              (set_broadcastStates (delete from) w)) as [r w2].
  cbn [fst snd] in Hret, Hkeep. subst r. mrun. rewrite Hkeep. wred.
  split; [apply lookup_delete_eq|].
  rewrite last_last, !Z.add_0_l. reflexivity.
Qed.

(** ** Two rejections that touch neither store *)

Example upload_rejects_pdf :
  let w := exec (on_document 7 pdf_file io_ok) world_registered in
  storageBucket w = storageBucket world_registered ∧
  db_users w = db_users world_registered ∧
  outbox w = (outbox world_registered ++ [Reply 7 MsgBadExtension])%list.
Proof. vm_compute. repeat split; reflexivity. Qed.

Example delete_of_missing_file :
  let w := exec (on_del 7 "other.html" true) world_one_file in
  db_users w = db_users world_one_file ∧
  outbox w = (outbox world_one_file ++ [Reply 7 (MsgFileNotFound "other.html")])%list.
Proof. vm_compute. repeat split; reflexivity. Qed.

(** ** White space *)

(** [trim] and [parseInt] on white space beyond ASCII: a no-break space
    (U+00A0), an em space (U+2003) and a byte order mark (U+FEFF) are
    removed at both ends, white space inside and other characters of more
    than one byte (here U+00E9) are kept. *)
Example trim_strips_unicode_white_space :
  let nbsp s := String "194" (String "160" s) in
  let emsp s := String "226" (String "128" (String "131" s)) in
  let bom s := String "239" (String "187" (String "191" s)) in
  let eacute s := String "195" (String "169" s) in
  JS.trim (nbsp (emsp (String "009" (String "4" (nbsp (String "2" (bom (String "010" (nbsp "")))))))))
    = String "4" (nbsp "2") ∧
  JS.trim (String " " (eacute (String " " (eacute (emsp ""))))) = eacute (String " " (eacute "")) ∧
  JS.parseInt (bom (nbsp "-12 apples")) = Some (-12) ∧
  JS.trim (nbsp (bom "")) = "".
Proof. vm_compute. repeat split; reflexivity. Qed.

(** * Further properties of the handlers *)

(** ** Uploads and deletions, store by store *)

(** The world after an upload that reaches [save] and whose [save]
    succeeds. *)
Lemma on_document_reaching from file io bytes w :
  reaches_save w from file io →
  download io = Some bytes →
  saveOk io = true →
  let path := uploadPath from (file_name file) in
  let stored := mkStoredFile bytes (if JS.endsWith (file_name file) ".html"
                                    then "text/html; charset=utf-8" else mime_type file) in
  let w1 := set_storageBucket <[path := stored]> (push_effect (Reply from MsgProcessing) w) in
  exec (on_document from file io) w =
  match db_users w !! pretty from with
  | None => push_effect ConsoleError (push_effect (Reply from MsgUploadError) w1)
  | Some d =>
      let s := statsOf w (pretty from) in
      let total := baseLimit s + Z.of_nat (length (referrals s)) in
      let w2 := set_db_users <[pretty from := bumped true d s]> w1 in
      if JS.repeatThrows 1 (fileCount s + 1)
         || JS.repeatThrows 1 (total - (fileCount s + 1))
         || JS.concatThrows (fileCount s + 1) (total - (fileCount s + 1))
      then push_effect ConsoleError (push_effect (Reply from MsgUploadError) w2)
      else push_effect (ReplyAnimation from)
             (push_effect (Reply from (MsgUploadSuccess path (fileCount s + 1) total)) w2)
  end.
Proof.
  intros Hreach Hdl Hs path stored w1.
  destruct (reaches_save_tests _ _ _ _ Hreach) as (Hb & Hq & Hext & _).
  unfold on_document. mrun. rewrite Hb. mrun. rewrite Hq. mrun. rewrite Hext. mrun.
  rewrite Hdl. mrun. rewrite Hs. mrun.
  destruct (db_users w !! pretty from) as [d|] eqn:Hd; mrun; [|reflexivity].
  change (statsOf (set_storageBucket _ (push_effect _ w)) (pretty from))
    with (statsOf w (pretty from)).
  rewrite statsOf_insert, decide_True by reflexivity.
  cbn [bumped stats default from_option id fileCount baseLimit referrals].
  destruct (_ || _); reflexivity.
Qed.

(** X1: an upload that is refused at a gate (banned, quota reached,
    extension), whose download fails or whose [save] throws leaves the
    bucket and the users collection exactly as they were. *)
Theorem refused_upload_touches_no_store (from : Z) (file : Document) (io : UploadIO)
    (w : World) :
  ¬ (reaches_save w from file io ∧ saveOk io = true) →
  storageBucket (exec (on_document from file io) w) = storageBucket w ∧
  db_users (exec (on_document from file io) w) = db_users w.
Proof.
  intros Hnot. split.
  - destruct (on_document_bucket from file io w) as [Heq | (Hs & Hr & _)];
      [exact Heq | exfalso; auto].
  - destruct (on_document_db from file io w) as [Heq | (_ & _ & Hr & Hs & _)];
      [exact Heq | exfalso; auto].
Qed.

(** The quota is full for user 7 after two uploads: the third is refused. *)
Lemma refused_upload_touches_no_store_witness :
  let w := run None world_one_file
             [EvDocument 7 (mkDocument "b.zip" "file-3" "application/zip") io_ok] in
  fileCount (statsOf w (pretty 7)) = 2 ∧
  storageBucket (exec (on_document 7 (mkDocument "c.html" "file-4" "text/html") io_ok) w)
    = storageBucket w ∧
  db_users (exec (on_document 7 (mkDocument "c.html" "file-4" "text/html") io_ok) w)
    = db_users w.
Proof.
  intros w. split; [vm_compute; reflexivity|].
  apply refused_upload_touches_no_store.
  intros [(_ & Hq & _) _]. vm_compute in Hq. discriminate Hq.
Defined.

(** X2: an upload changes at most the uploader's own document and the one
    object [uploads/<id>/<file name>]; a deletion likewise.  Every other
    document and every other object is left as it was. *)
Theorem upload_and_delete_are_local (from : Z) (file : Document) (io : UploadIO)
    (fileName : string) (deleteOk : bool) (w : World) (key path : string) :
  (key ≠ pretty from →
   db_users (exec (on_document from file io) w) !! key = db_users w !! key ∧
   db_users (exec (on_del from fileName deleteOk) w) !! key = db_users w !! key) ∧
  (path ≠ uploadPath from (file_name file) →
   storageBucket (exec (on_document from file io) w) !! path = storageBucket w !! path) ∧
  (path ≠ uploadPath from fileName →
   storageBucket (exec (on_del from fileName deleteOk) w) !! path = storageBucket w !! path).
Proof.
  split; [|split].
  - intros Hne. split.
    + destruct (on_document_db from file io w) as [-> | (d & _ & _ & _ & ->)];
        [reflexivity | apply lookup_insert_ne; congruence].
    + destruct (on_del_db from fileName deleteOk w) as [-> | (d & _ & _ & _ & ->)];
        [reflexivity | apply lookup_insert_ne; congruence].
  - intros Hne.
    destruct (on_document_bucket from file io w) as [-> | (_ & _ & f & ->)];
      [reflexivity | apply lookup_insert_ne; congruence].
  - intros Hne. rewrite on_del_bucket.
    destruct deleteOk; [apply lookup_delete_ne; congruence | reflexivity].
Qed.

Lemma upload_and_delete_are_local_witness :
  let w := run None world_one_file
             [EvStart 8 "Bob" "" "2024-01-01" "2024-01-01T00:00:00Z"] in
  db_users (exec (on_document 8 html_file io_ok) w) !! pretty 7 = db_users w !! pretty 7 ∧
  storageBucket (exec (on_del 8 "a.html" true) w) !! uploadPath 7 "a.html"
    = storageBucket w !! uploadPath 7 "a.html".
Proof.
  intros w.
  destruct (upload_and_delete_are_local 8 html_file io_ok "a.html" true w
              (pretty 7) (uploadPath 7 "a.html")) as (Hdb & _ & Hdel).
  split.
  - apply Hdb. vm_compute. discriminate.
  - apply Hdel. vm_compute. discriminate.
Defined.

Lemma on_document_reaching_bucket from file io bytes w :
  reaches_save w from file io →
  download io = Some bytes →
  saveOk io = true →
  storageBucket (exec (on_document from file io) w) =
  <[uploadPath from (file_name file) :=
      mkStoredFile bytes (if JS.endsWith (file_name file) ".html"
                          then "text/html; charset=utf-8" else mime_type file)]>
    (storageBucket w).
Proof.
  intros Hreach Hdl Hs. rewrite (on_document_reaching _ _ _ _ _ Hreach Hdl Hs).
  destruct (db_users w !! pretty from); [|reflexivity].
  cbv zeta. destruct (_ || _); reflexivity.
Qed.

(** X3: for a registered user, a successful upload under a fresh name
    followed by the successful deletion of that file is a round trip: the
    bucket is what it was and every user's stats read as before. *)
Theorem upload_then_delete_round_trip (from : Z) (file : Document) (io : UploadIO)
    (bytes : string) (w : World) :
  is_Some (db_users w !! pretty from) →
  reaches_save w from file io →
  download io = Some bytes →
  saveOk io = true →
  storageBucket w !! uploadPath from (file_name file) = None →
  let w2 := exec (on_del from (file_name file) true) (exec (on_document from file io) w) in
  storageBucket w2 = storageBucket w ∧
  ∀ key, statsOf w2 key = statsOf w key.
Proof.
  intros [d Hd] Hreach Hdl Hs Hfresh w2. subst w2.
  set (w1 := exec (on_document from file io) w).
  assert (Hb1 : storageBucket w1 = <[uploadPath from (file_name file) :=
      mkStoredFile bytes (if JS.endsWith (file_name file) ".html"
                          then "text/html; charset=utf-8" else mime_type file)]>
    (storageBucket w)) by (apply on_document_reaching_bucket; assumption).
  assert (Hd1 : db_users w1 = <[pretty from := bumped true d (statsOf w (pretty from))]> (db_users w))
    by (apply on_document_saved; assumption).
  split.
  - rewrite on_del_bucket, Hb1. apply delete_insert_id. exact Hfresh.
  - intros key.
    assert (Hreach1 : reaches_delete w1 from (file_name file)).
    { unfold reaches_delete. rewrite Hb1, lookup_insert_eq. eauto. }
    assert (Hdoc1 : db_users w1 !! pretty from = Some (bumped true d (statsOf w (pretty from))))
      by (rewrite Hd1; apply lookup_insert_eq).
    rewrite (statsOf_db_insert _ _ _ _ _ (on_del_deleted _ _ _ _ Hreach1 Hdoc1)).
    rewrite (statsOf_db_insert _ _ _ _ key Hd1).
    destruct (decide (pretty from = key)) as [<-|Hne].
    + rewrite (statsOf_db_insert _ _ _ _ (pretty from) Hd1), decide_True by reflexivity.
      cbn. destruct (statsOf w (pretty from)) as [fc rs bl rr]. cbn. f_equal. lia.
    + reflexivity.
Qed.

Lemma upload_then_delete_round_trip_witness :
  let w2 := exec (on_del 7 "a.html" true) (exec (on_document 7 html_file io_ok) world_registered) in
  storageBucket w2 = storageBucket world_registered ∧
  statsOf w2 (pretty 7) = statsOf world_registered (pretty 7).
Proof.
  intros w2.
  destruct (upload_then_delete_round_trip 7 html_file io_ok "<html></html>" world_registered)
    as [Hb Hs].
  - vm_compute. eexists. reflexivity.
  - split; [|split; [|split]].
    + apply not_elem_of_empty.
    + vm_compute. reflexivity.
    + left. vm_compute. reflexivity.
    + eexists. reflexivity.
  - reflexivity.
  - reflexivity.
  - vm_compute. reflexivity.
  - split; [exact Hb | apply Hs].
Defined.

(** X4: the upload does not look at what is stored: sending a file under a
    name that is already in the bucket replaces the object, so the set of
    stored names does not grow, and still takes one more slot. *)
Theorem reupload_overwrites_and_counts (from : Z) (file : Document) (io : UploadIO)
    (bytes : string) (w : World) :
  is_Some (db_users w !! pretty from) →
  reaches_save w from file io →
  download io = Some bytes →
  saveOk io = true →
  is_Some (storageBucket w !! uploadPath from (file_name file)) →
  let w' := exec (on_document from file io) w in
  dom (storageBucket w') = dom (storageBucket w) ∧
  (content <$> storageBucket w' !! uploadPath from (file_name file)) = Some bytes ∧
  fileCount (statsOf w' (pretty from)) = fileCount (statsOf w (pretty from)) + 1.
Proof.
  intros [d Hd] Hreach Hdl Hs Hthere w'. subst w'.
  rewrite (on_document_reaching_bucket _ _ _ _ _ Hreach Hdl Hs).
  split; [|split].
  - apply dom_insert_lookup_L. exact Hthere.
  - rewrite lookup_insert_eq. reflexivity.
  - rewrite (statsOf_db_insert _ _ _ _ _ (on_document_saved _ _ _ _ _ Hreach Hs Hd)).
    rewrite decide_True by reflexivity. reflexivity.
Qed.

Lemma reupload_overwrites_and_counts_witness :
  let w' := exec (on_document 7 html_file (mkUploadIO (Some "v2") true)) world_one_file in
  dom (storageBucket w') = dom (storageBucket world_one_file) ∧
  (content <$> storageBucket w' !! uploadPath 7 "a.html") = Some "v2" ∧
  fileCount (statsOf w' (pretty 7)) = 2.
Proof.
  intros w'.
  destruct (reupload_overwrites_and_counts 7 html_file (mkUploadIO (Some "v2") true) "v2"
              world_one_file) as (Hdom & Hc & Hn).
  - vm_compute. eexists. reflexivity.
  - split; [|split; [|split]].
    + apply not_elem_of_empty.
    + vm_compute. reflexivity.
    + left. vm_compute. reflexivity.
    + eexists. reflexivity.
  - reflexivity.
  - reflexivity.
  - vm_compute. eexists. reflexivity.
  - subst w'. split; [exact Hdom|]. split; [exact Hc|]. rewrite Hn. vm_compute. reflexivity.
Defined.

(** When the usage bar of [used] filled and [total - used] empty slots
    cannot be built. *)
Lemma usage_bar_throws (used total : Z) :
  JS.repeatThrows 1 used || JS.repeatThrows 1 (total - used)
    || JS.concatThrows used (total - used) = true
  ↔ used < 0 ∨ total < used ∨ JS.maxStringLength < total.
Proof.
  unfold JS.repeatThrows, JS.concatThrows.
  rewrite !orb_true_iff, !Z.ltb_lt. lia.
Qed.

(** X5: what a registered user is told after an upload that was stored and
    counted depends on the counters.  If the new [fileCount] is not negative
    and the allowance is at most 4096 (the usage bar is as long as the
    allowance, and 4096 characters is all a Telegram message takes), the
    bot answers with the success message with the link and the usage.  If the new [fileCount] is still negative, or
    the allowance is above the longest string of the engine, building the
    usage bar throws and the user is told the upload failed, although the
    file is stored and the slot is taken. *)
Theorem upload_reply_depends_on_counter (from : Z) (file : Document) (io : UploadIO)
    (bytes : string) (w : World) :
  is_Some (db_users w !! pretty from) →
  reaches_save w from file io →
  download io = Some bytes →
  saveOk io = true →
  let s := statsOf w (pretty from) in
  let path := uploadPath from (file_name file) in
  let w' := exec (on_document from file io) w in
  (0 <= fileCount s + 1 → allowance s <= 4096 →
   outbox w' = (outbox w ++
     [Reply from MsgProcessing;
      Reply from (MsgUploadSuccess path (fileCount s + 1) (allowance s));
      ReplyAnimation from])%list) ∧
  (fileCount s + 1 < 0 ∨ JS.maxStringLength < allowance s →
   outbox w' = (outbox w ++
     [Reply from MsgProcessing; Reply from MsgUploadError; ConsoleError])%list ∧
   is_Some (storageBucket w' !! path) ∧
   fileCount (statsOf w' (pretty from)) = fileCount s + 1).
Proof.
  intros [d Hd] Hreach Hdl Hs s path w'. subst w'.
  rewrite (on_document_reaching _ _ _ _ _ Hreach Hdl Hs), Hd. cbv zeta. fold s.
  destruct Hreach as (_ & Hq & _). fold s in Hq.
  change (baseLimit s + Z.of_nat (length (referrals s))) with (allowance s) in *.
  pose proof (usage_bar_throws (fileCount s + 1) (allowance s)) as Hbar.
  split.
  - intros Hpos Hsmall.
    destruct (_ || _).
    + exfalso. unfold JS.maxStringLength in Hbar.
      destruct (proj1 Hbar eq_refl) as [H | [H | H]]; lia.
    + wred. rewrite <- !app_assoc. reflexivity.
  - intros Hbad.
    rewrite (proj2 Hbar) by (destruct Hbad; [left | right; right]; assumption).
    wred. split; [rewrite <- !app_assoc; reflexivity|]. split.
    + rewrite lookup_insert_eq. eauto.
    + unfold statsOf. wred. rewrite lookup_insert_eq. reflexivity.
Qed.

Lemma upload_reply_depends_on_counter_witness :
  let c := mkDocument "c.html" "file-4" "text/html" in
  let w_big := run (Some 1) world_registered
                 [EvAction 1 ActAddSlots; EvText 1 "7 2147483648"] in
  fileCount (statsOf world_in_debt (pretty 7)) = -2 ∧
  outbox (exec (on_document 7 c io_ok) world_in_debt)
    = (outbox world_in_debt ++
        [Reply 7 MsgProcessing; Reply 7 MsgUploadError; ConsoleError])%list ∧
  fileCount (statsOf (exec (on_document 7 c io_ok) world_in_debt) (pretty 7)) = -1 ∧
  outbox (exec (on_document 7 html_file io_ok) world_registered)
    = (outbox world_registered ++
        [Reply 7 MsgProcessing; Reply 7 (MsgUploadSuccess "uploads/7/a.html" 1 2);
         ReplyAnimation 7])%list ∧
  allowance (statsOf w_big (pretty 7)) = 2147483650 ∧
  outbox (exec (on_document 7 html_file io_ok) w_big)
    = (outbox w_big ++
        [Reply 7 MsgProcessing; Reply 7 MsgUploadError; ConsoleError])%list.
Proof.
  intros c w_big. split; [vm_compute; reflexivity|].
  assert (Hreach : ∀ w f, bannedUsers w = ∅ →
            fileCount (statsOf w (pretty 7))
              < baseLimit (statsOf w (pretty 7))
                + Z.of_nat (length (referrals (statsOf w (pretty 7)))) →
            JS.endsWith (file_name f) ".html" = true →
            reaches_save w 7 f io_ok).
  { intros w f Hb Hq Hext. split; [|split; [|split]].
    - rewrite Hb. apply not_elem_of_empty.
    - exact Hq.
    - left. exact Hext.
    - eexists. reflexivity. }
  destruct (upload_reply_depends_on_counter 7 c io_ok "<html></html>" world_in_debt)
    as [_ Hneg].
  { vm_compute. eexists. reflexivity. }
  { apply Hreach; vm_compute; reflexivity. }
  { reflexivity. }
  { reflexivity. }
  destruct (upload_reply_depends_on_counter 7 html_file io_ok "<html></html>" world_registered)
    as [Hpos _].
  { vm_compute. eexists. reflexivity. }
  { apply Hreach; vm_compute; reflexivity. }
  { reflexivity. }
  { reflexivity. }
  destruct (upload_reply_depends_on_counter 7 html_file io_ok "<html></html>" w_big)
    as [_ Hbig].
  { vm_compute. eexists. reflexivity. }
  { apply Hreach; vm_compute; reflexivity. }
  { reflexivity. }
  { reflexivity. }
  destruct Hneg as (Hout & _ & Hcount); [left; vm_compute; reflexivity|].
  destruct Hbig as (HERR & _ & _); [right; vm_compute; reflexivity|].
  split; [exact Hout|]. split; [rewrite Hcount; vm_compute; reflexivity|].
  split; [rewrite Hpos by (vm_compute; discriminate); vm_compute; reflexivity|].
  split; [vm_compute; reflexivity | exact HERR].
Defined.

(** An upload never removes an object from the bucket. *)
Lemma on_document_keeps_objects from file io w path :
  is_Some (storageBucket w !! path) →
  is_Some (storageBucket (exec (on_document from file io) w) !! path).
Proof.
  intros Hin.
  destruct (on_document_bucket from file io w) as [-> | (_ & _ & f & ->)]; [exact Hin|].
  rewrite lookup_insert. destruct (decide (uploadPath from (file_name file) = path)); eauto.
Qed.

Lemma uploads_keep_objects adminNumber from ups path :
  ∀ w, is_Some (storageBucket w !! path) →
       is_Some (storageBucket (run adminNumber w (uploads_by from ups)) !! path).
Proof.
  induction ups as [|u us IH]; intros w Hin; [exact Hin|].
  unfold run, uploads_by. cbn [map fold_left step]. apply IH.
  apply on_document_keeps_objects. exact Hin.
Qed.

(** The world after an upload by a user without a document: the object is
    added, three messages are sent, nothing else moves. *)
Lemma on_document_unregistered from file bytes w :
  db_users w !! pretty from = None →
  JNum from ∉ bannedUsers w →
  accepted_name (file_name file) →
  exec (on_document from file (mkUploadIO (Some bytes) true)) w =
  push_effect ConsoleError (push_effect (Reply from MsgUploadError)
    (set_storageBucket
       <[uploadPath from (file_name file) :=
           mkStoredFile bytes (if JS.endsWith (file_name file) ".html"
                               then "text/html; charset=utf-8" else mime_type file)]>
       (push_effect (Reply from MsgProcessing) w))).
Proof.
  intros Hnone Hnb Hext.
  assert (Hreach : reaches_save w from file (mkUploadIO (Some bytes) true)).
  { split; [exact Hnb|]. split; [|split; [exact Hext | eexists; reflexivity]].
    unfold statsOf. rewrite Hnone. cbn. lia. }
  rewrite (on_document_reaching _ _ _ bytes _ Hreach eq_refl eq_refl), Hnone. reflexivity.
Qed.

(** X6: the quota gate never stops a user who has no document.  However
    many accepted files such a user sends, every one of them is stored, and
    no document or counter appears for the user. *)
Theorem unregistered_user_is_never_stopped (adminNumber : option Z) (from : Z)
    (ups : list (Document * string)) (w : World) :
  db_users w !! pretty from = None →
  JNum from ∉ bannedUsers w →
  Forall (λ up, accepted_name (file_name up.1)) ups →
  let w' := run adminNumber w (uploads_by from ups) in
  db_users w' = db_users w ∧
  ∀ up, up ∈ ups → is_Some (storageBucket w' !! uploadPath from (file_name up.1)).
Proof.
  intros Hnone Hnb Hall. revert w Hnone Hnb.
  induction Hall as [|up ups Hup _ IH]; intros w Hnone Hnb w'; subst w'.
  - split; [reflexivity|]. intros up Hin. apply elem_of_nil in Hin. contradiction.
  - unfold run, uploads_by. cbn [map fold_left step].
    fold (uploads_by from ups).
    set (w1 := exec (on_document from up.1 (mkUploadIO (Some up.2) true)) w).
    fold (run adminNumber w1 (uploads_by from ups)).
    assert (Hw1 := on_document_unregistered from up.1 up.2 w Hnone Hnb Hup). fold w1 in Hw1.
    assert (Hdb1 : db_users w1 = db_users w) by (rewrite Hw1; reflexivity).
    assert (Hban1 : bannedUsers w1 = bannedUsers w) by (rewrite Hw1; reflexivity).
    destruct (IH w1) as [Hdb Hst]; [rewrite Hdb1; exact Hnone | rewrite Hban1; exact Hnb |].
    split; [rewrite Hdb; exact Hdb1|].
    intros up' Hin. apply elem_of_cons in Hin as [-> | Hin]; [|apply Hst; exact Hin].
    assert (Hin1 : is_Some (storageBucket w1 !! uploadPath from (file_name up.1)))
      by (rewrite Hw1; wred; rewrite lookup_insert_eq; eauto).
    apply uploads_keep_objects. exact Hin1.
Qed.

Lemma unregistered_user_is_never_stopped_witness :
  let ups := [(html_file, "1"); (mkDocument "b.zip" "f" "application/zip", "2");
              (mkDocument "c.html" "g" "text/html", "3");
              (mkDocument "d.html" "h" "text/html", "4")] in
  let w' := run None world0 (uploads_by 7 ups) in
  db_users w' = db_users world0 ∧
  is_Some (storageBucket w' !! uploadPath 7 "d.html").
Proof.
  intros ups w'.
  destruct (unregistered_user_is_never_stopped None 7 ups world0) as [Hdb Hst].
  - reflexivity.
  - apply not_elem_of_empty.
  - subst ups. repeat constructor; (left; vm_compute; reflexivity) || (right; vm_compute; reflexivity).
  - split; [exact Hdb|].
    apply (Hst (mkDocument "d.html" "h" "text/html", "4")).
    subst ups. apply list_elem_of_In. cbn [In]. right; right; right; left. reflexivity.
Defined.

(** ** The admin's text replies, branch by branch *)

(** Which branch a free text of the admin runs. *)
Lemma on_text_dispatch adminNumber admin txt w :
  isAdmin adminNumber admin = true →
  exec (on_text adminNumber admin txt) w =
  let t := JS.trim txt in
  match conversationState w admin with
  | AwaitingAddSlotsArgs => exec (text_add_slots admin t) w
  | AwaitingBanTarget =>
      push_effect (Reply admin (MsgUserBanned t))
        (set_bannedUsers (λ s, {[JStr t]} ∪ s)
           (set_modes false (unbanUserMode w) (defaultSlotsMode w) (referralRewardMode w) w))
  | AwaitingUnbanTarget =>
      push_effect (Reply admin (MsgUserUnbanned t))
        (set_bannedUsers (λ s, s ∖ {[JStr t]})
           (set_modes (banUserMode w) false (defaultSlotsMode w) (referralRewardMode w) w))
  | AwaitingDefaultSlotsValue => exec (text_default_slots admin t) w
  | AwaitingReferralRewardValue => exec (text_referral_reward admin t) w
  | CSNone => w
  end.
Proof.
  intros Hadmin. unfold on_text, conversationState. rewrite Hadmin. cbn [negb]. cbv zeta.
  unfold exec, mbind at 1, M_bind at 1, get_world at 1.
  destruct (bool_decide (adminStates w !! admin = Some "add_slots")); [reflexivity|].
  destruct (banUserMode w) eqn:Hban; [reflexivity|].
  destruct (unbanUserMode w) eqn:Hunban.
  { mrun. rewrite Hban. reflexivity. }
  destruct (defaultSlotsMode w); [reflexivity|].
  destruct (referralRewardMode w); reflexivity.
Qed.

(** The loop [for (const doc of usersSnapshot.docs) { ...; await
    doc.ref.update({ stats }) }] over documents that are all still there
    rewrites each of them and never throws. *)
Lemma forM_rewrite_run (g : Stats → Stats) (l : list (string * UserDoc)) :
  ∀ w, NoDup l.*1 →
       (∀ k d, (k, d) ∈ l → db_users w !! k = Some d) →
  ∃ m', forM_ l (λ doc, db_update_stats doc.1 (g (default defaultStats (stats doc.2)))) w
        = (Ok tt, set_db_users (λ _, m') w) ∧
        ∀ k, m' !! k = match (list_to_map l : gmap string UserDoc) !! k with
                       | Some d => Some (rewrite_stats g d)
                       | None => db_users w !! k
                       end.
Proof.
  induction l as [|[k0 d0] l IH]; intros w Hnd Hall.
  - exists (db_users w). split; [destruct w; reflexivity|]. intros k. reflexivity.
  - apply NoDup_cons in Hnd as [Hk0 Hnd]. cbn [forM_ fst snd].
    unfold mbind at 1, M_bind at 1, db_update_stats at 1.
    rewrite (Hall k0 d0) by (apply elem_of_cons; left; reflexivity).
    change (mkUserDoc (chatId d0) (name d0) (joinedAt d0)
              (Some (g (default defaultStats (stats d0))))) with (rewrite_stats g d0).
    destruct (IH (set_db_users <[k0 := rewrite_stats g d0]> w) Hnd) as (m' & Hrun & Hm').
    { intros k d Hin. wred. rewrite lookup_insert_ne.
      - apply Hall. apply elem_of_cons. right. exact Hin.
      - intros <-. apply Hk0. apply list_elem_of_fmap. exists (k0, d). split; [reflexivity|exact Hin]. }
    exists m'. split; [rewrite Hrun; reflexivity|].
    intros k. rewrite Hm'. cbn [list_to_map foldr fst snd]. wred.
    destruct (decide (k0 = k)) as [<-|Hne].
    + rewrite (not_elem_of_list_to_map_1 _ _ Hk0), !lookup_insert_eq. reflexivity.
    + rewrite !lookup_insert_ne by exact Hne. reflexivity.
Qed.

(** Run over the snapshot just taken, the loop rewrites every document. *)
Lemma forM_rewrite_all (g : Stats → Stats) (w : World) :
  forM_ (map_to_list (db_users w))
        (λ doc, db_update_stats doc.1 (g (default defaultStats (stats doc.2)))) w
  = (Ok tt, set_db_users (fmap (rewrite_stats g)) w).
Proof.
  destruct (forM_rewrite_run g (map_to_list (db_users w)) w) as (m' & Hrun & Hm').
  - apply NoDup_fst_map_to_list.
  - intros k d Hin. apply elem_of_map_to_list. exact Hin.
  - rewrite Hrun. f_equal.
    assert (Heq : m' = rewrite_stats g <$> db_users w).
    { apply map_eq. intros k. rewrite Hm', list_to_map_to_list, lookup_fmap.
      destruct (db_users w !! k); reflexivity. }
    rewrite Heq. reflexivity.
Qed.

Lemma text_default_slots_run userId txt w :
  exec (text_default_slots userId txt) w =
  let w0 := set_modes (banUserMode w) (unbanUserMode w) false (referralRewardMode w) w in
  match JS.parseInt txt with
  | None => push_effect (Reply userId MsgInvalidNumber) w0
  | Some newLimit =>
      if newLimit <? 1 then push_effect (Reply userId MsgInvalidNumber) w0
      else push_effect (Reply userId (MsgDefaultUpdated newLimit))
             (set_db_users (fmap (rewrite_stats (with_baseLimit newLimit))) w0)
  end.
Proof.
  unfold text_default_slots. mrun. destruct (JS.parseInt txt) as [n|]; [|reflexivity].
  destruct (n <? 1); [reflexivity|]. unfold db_scan. cbv zeta.
  match goal with |- context [forM_ ?l ?b ?w0] =>
    change (forM_ l b w0)
      with (forM_ (map_to_list (db_users w0))
              (λ doc, db_update_stats doc.1 (with_baseLimit n (default defaultStats (stats doc.2)))) w0)
  end.
  rewrite forM_rewrite_all. reflexivity.
Qed.

Lemma text_referral_reward_run userId txt w :
  exec (text_referral_reward userId txt) w =
  let w0 := set_modes (banUserMode w) (unbanUserMode w) (defaultSlotsMode w) false w in
  match JS.parseInt txt with
  | None => push_effect (Reply userId MsgInvalidNumber) w0
  | Some rewardSlots =>
      if rewardSlots <? 1 then push_effect (Reply userId MsgInvalidNumber) w0
      else push_effect (Reply userId (MsgRewardUpdated rewardSlots))
             (set_db_users (fmap (rewrite_stats (with_referralReward rewardSlots))) w0)
  end.
Proof.
  unfold text_referral_reward. mrun. destruct (JS.parseInt txt) as [n|]; [|reflexivity].
  destruct (n <? 1); [reflexivity|]. unfold db_scan. cbv zeta.
  match goal with |- context [forM_ ?l ?b ?w0] =>
    change (forM_ l b w0)
      with (forM_ (map_to_list (db_users w0))
              (λ doc, db_update_stats doc.1
                        (with_referralReward n (default defaultStats (stats doc.2)))) w0)
  end.
  rewrite forM_rewrite_all. reflexivity.
Qed.

Lemma text_add_slots_run userId txt w :
  exec (text_add_slots userId txt) w =
  let w0 := set_adminStates (delete userId) w in
  match parse_add_slots txt with
  | None => push_effect (Reply userId MsgInvalidFormat) w0
  | Some (target, slots) =>
      match db_users w !! target with
      | None => push_effect (Reply userId MsgUserNotFound) w0
      | Some d =>
          let s := default defaultStats (stats d) in
          push_effect (Reply userId (MsgSlotsAdded target slots
                                       (baseLimit s + slots + Z.of_nat (length (referrals s)))))
            (set_db_users <[target := rewrite_stats (with_baseLimit (baseLimit s + slots)) d]> w0)
      end
  end.
Proof.
  unfold text_add_slots, parse_add_slots. mrun. cbv zeta.
  destruct (JS.split " " (JS.trim txt) !! 0%nat) as [target|]; [|reflexivity].
  destruct (option_bind _ _ _ _) as [slots|]; [|reflexivity].
  destruct (JS.truthy target); cbn [negb]; [|reflexivity].
  mrun. destruct (db_users w !! target) as [d|] eqn:Hd; mrun; [|reflexivity].
  rewrite Hd. reflexivity.
Qed.

Lemma statsOf_fmap_rewrite g w0 key :
  statsOf (set_db_users (fmap (rewrite_stats g)) w0) key =
  match db_users w0 !! key with
  | Some _ => g (statsOf w0 key)
  | None => defaultStats
  end.
Proof.
  unfold statsOf. wred. rewrite lookup_fmap.
  destruct (db_users w0 !! key); reflexivity.
Qed.

(** The document a first contact creates. *)
Lemma on_start_registers adminNumber from first_name startPayload today now w :
  JNum from ∉ bannedUsers w →
  db_users w !! pretty from = None →
  db_users (exec (on_start adminNumber from first_name startPayload today now) w) !! pretty from
  = Some (mkUserDoc from (if JS.truthy first_name then first_name else "Unknown") now
                    (Some (mkStats 0 [] 2 None))).
Proof.
  intros Hnb Hnone. rewrite on_start_db, (bool_decide_eq_false_2 _ Hnb), Hnone.
  apply lookup_insert_eq.
Qed.



(** X8: in the default-slots state a text that reads as an integer of at
    least 1 (in the range a JavaScript number holds exactly) sets
    [baseLimit] to it in every existing document, leaving every other field
    as it was read, and creates no document; any other text changes no
    document.  The value is not kept anywhere: a user who makes first
    contact afterwards still starts with [baseLimit] 2. *)
Theorem default_slots_rewrites_existing_users (adminNumber : option Z) (admin : Z)
    (txt : string) (w : World) :
  isAdmin adminNumber admin = true →
  conversationState w admin = AwaitingDefaultSlotsValue →
  let w' := exec (on_text adminNumber admin txt) w in
  match JS.parseInt (JS.trim txt) with
  | Some n =>
      if n <? 1 then db_users w' = db_users w
      else JS.safeInteger n →
           db_users w' = rewrite_stats (with_baseLimit n) <$> db_users w
  | None => db_users w' = db_users w
  end ∧
  ∀ from first_name startPayload today now,
    JNum from ∉ bannedUsers w →
    db_users w !! pretty from = None →
    baseLimit (statsOf (exec (on_start adminNumber from first_name startPayload today now) w')
                 (pretty from)) = 2.
Proof.
  intros Hadmin Hstate w'. subst w'.
  rewrite (on_text_dispatch _ _ _ _ Hadmin), Hstate. cbv zeta.
  rewrite text_default_slots_run. cbv zeta. split.
  - destruct (JS.parseInt (JS.trim txt)) as [n|]; [|reflexivity].
    destruct (n <? 1); [reflexivity|]. intros _. reflexivity.
  - intros from first_name startPayload today now Hnb Hnone.
    unfold statsOf. rewrite on_start_registers; [reflexivity| |].
    + destruct (JS.parseInt (JS.trim txt)) as [n|]; [destruct (n <? 1)|]; exact Hnb.
    + destruct (JS.parseInt (JS.trim txt)) as [n|]; [destruct (n <? 1)|]; wred;
        rewrite ?lookup_fmap, Hnone; reflexivity.
Qed.

(** The admin answers with a no-break space (U+00A0) before the digit. *)
Lemma default_slots_rewrites_existing_users_witness :
  let txt := String "194" (String "160" "5") in
  let w := world_admin_armed ActEditDefaultSlots in
  let w' := exec (on_text (Some 1) 1 txt) w in
  JS.parseInt (JS.trim txt) = Some 5 ∧
  db_users w' = rewrite_stats (with_baseLimit 5) <$> db_users w ∧
  statsOf w' (pretty 7) = mkStats 1 [] 5 None ∧
  baseLimit (statsOf (exec (on_start (Some 1) 8 "Bob" "" "d" "t") w') (pretty 8)) = 2.
Proof.
  intros txt w w'. split; [vm_compute; reflexivity|].
  destruct (default_slots_rewrites_existing_users (Some 1) 1 txt w) as [Hall Hnew].
  - vm_compute. reflexivity.
  - vm_compute. reflexivity.
  - replace (JS.parseInt (JS.trim txt)) with (Some 5) in Hall by (vm_compute; reflexivity).
    cbn [Z.ltb Z.compare] in Hall.
    assert (Hdb : db_users w' = rewrite_stats (with_baseLimit 5) <$> db_users w).
    { apply Hall. vm_compute. split; discriminate. }
    split; [exact Hdb|]. split.
    + unfold statsOf. rewrite Hdb. vm_compute. reflexivity.
    + apply Hnew; [apply not_elem_of_empty | vm_compute; reflexivity].
Defined.

(** X9: in the referral-reward state a text that reads as an integer of at
    least 1 (in the range a JavaScript number holds exactly) stores it as
    [referralReward] in every existing document and leaves every other
    field as it was read; the answer of [canUploadFile] does not change for
    anyone, because [fileCount], [baseLimit] and the referrals are as they
    were. *)
Theorem referral_reward_changes_no_allowance (adminNumber : option Z) (admin : Z)
    (txt : string) (n : Z) (w : World) :
  isAdmin adminNumber admin = true →
  conversationState w admin = AwaitingReferralRewardValue →
  JS.parseInt (JS.trim txt) = Some n →
  1 <= n →
  JS.safeInteger n →
  let w' := exec (on_text adminNumber admin txt) w in
  db_users w' = rewrite_stats (with_referralReward n) <$> db_users w ∧
  (∀ userId, fst (canUploadFile userId w') = fst (canUploadFile userId w)).
Proof.
  intros Hadmin Hstate Hparse Hn _ w'. subst w'.
  rewrite (on_text_dispatch _ _ _ _ Hadmin), Hstate. cbv zeta.
  rewrite text_referral_reward_run, Hparse. cbv zeta.
  replace (n <? 1) with false by (symmetry; apply Z.ltb_ge; exact Hn).
  split; [reflexivity|].
  intros userId. rewrite !canUploadFile_run. cbn [fst].
  change (statsOf (push_effect ?e ?w0) (JString userId)) with (statsOf w0 (JString userId)).
  rewrite statsOf_fmap_rewrite. unfold statsOf. wred.
  destruct (db_users w !! JString userId); reflexivity.
Qed.

(** The admin answers "3", wrapped in a line separator (U+2028) and a
    space. *)
Lemma referral_reward_changes_no_allowance_witness :
  let txt := String "226" (String "128" (String "168" "3 ")) in
  let w := world_admin_armed ActEditReferralReward in
  let w' := exec (on_text (Some 1) 1 txt) w in
  referralReward (statsOf w' (pretty 7)) = Some 3 ∧
  fst (canUploadFile (JNum 7) w') = fst (canUploadFile (JNum 7) w).
Proof.
  intros txt w w'.
  destruct (referral_reward_changes_no_allowance (Some 1) 1 txt 3 w) as [Hall Hcan].
  - vm_compute. reflexivity.
  - vm_compute. reflexivity.
  - vm_compute. reflexivity.
  - lia.
  - vm_compute. split; discriminate.
  - subst w'. split; [|apply Hcan].
    unfold statsOf. rewrite Hall. vm_compute. reflexivity.
Defined.

(** ** Arming, banning and who may do it *)

(** The world after a menu action of the admin. *)
Lemma on_action_admin adminNumber admin act w :
  isAdmin adminNumber admin = true →
  exec (on_action adminNumber admin act) w =
  match act with
  | ActAddSlots =>
      push_effect (Reply admin MsgAskAddSlots) (set_adminStates <[admin := "add_slots"]> w)
  | ActBanUser =>
      push_effect (Reply admin MsgAskBanTarget)
        (set_modes true false false false (set_adminStates <[admin := "ban_user"]> w))
  | ActUnbanUser =>
      push_effect (Reply admin MsgAskUnbanTarget)
        (set_modes false true false false (set_adminStates <[admin := "unban_user"]> w))
  | ActEditDefaultSlots =>
      push_effect (Reply admin MsgAskDefaultSlots)
        (set_modes false false true false (set_adminStates <[admin := "edit_default_slots"]> w))
  | ActEditReferralReward =>
      push_effect (Reply admin MsgAskReferralReward)
        (set_modes false false false true
           (set_adminStates <[admin := "edit_referral_reward"]> w))
  | ActBroadcast =>
      push_effect (Reply admin MsgAskBroadcast) (set_broadcastStates <[admin := true]> w)
  end.
Proof.
  intros Hadmin.
  destruct act; cbn [on_action]; unfold on_add_slots, on_ban_user, on_unban_user,
    on_edit_default_slots, on_edit_referral_reward, on_broadcast; rewrite Hadmin; reflexivity.
Qed.

(** After a menu action of the admin the next free text goes to that
    action's branch. *)
Lemma action_sets_state adminNumber admin s act w :
  isAdmin adminNumber admin = true →
  menuAction s = Some act →
  conversationState (exec (on_action adminNumber admin act) w) admin = s.
Proof.
  intros Hadmin Hact. rewrite (on_action_admin _ _ _ _ Hadmin).
  destruct s; cbn in Hact; try discriminate; injection Hact as <-;
    unfold conversationState; wred; rewrite lookup_insert_eq; reflexivity.
Qed.

(** X10: the last menu action wins.  Whatever was pending, after the admin
    presses one of the five state-arming buttons the next free text is
    taken by that button's branch; the four flag-driven buttons leave
    exactly their own flag set. *)
Theorem menu_action_supersedes (adminNumber : option Z) (admin : Z)
    (s : ConversationState) (act : AdminAction) (w : World) :
  isAdmin adminNumber admin = true →
  menuAction s = Some act →
  let w1 := exec (on_action adminNumber admin act) w in
  conversationState w1 admin = s ∧
  (s ≠ AwaitingAddSlotsArgs →
   modeFlag s w1 = true ∧ ∀ s', s' ≠ s → modeFlag s' w1 = false).
Proof.
  intros Hadmin Hact w1. subst w1.
  split; [apply action_sets_state; assumption|].
  rewrite (on_action_admin _ _ _ _ Hadmin).
  destruct s; cbn in Hact; try discriminate; injection Hact as <-;
    intros Hne; try contradiction;
    (split; [reflexivity|]); intros s' Hne'; destruct s'; try reflexivity; contradiction.
Qed.

Lemma menu_action_supersedes_witness :
  let w := run (Some 1) world0 [EvAction 1 ActAddSlots; EvAction 1 ActEditReferralReward] in
  conversationState w 1 = AwaitingReferralRewardValue ∧
  conversationState (exec (on_action (Some 1) 1 ActUnbanUser) w) 1 = AwaitingUnbanTarget.
Proof.
  intros w. split; [vm_compute; reflexivity|].
  apply (menu_action_supersedes (Some 1) 1 AwaitingUnbanTarget ActUnbanUser w);
    reflexivity.
Defined.

(** X11: banning is by the trimmed text, verbatim and unchecked, and
    unbanning the same text undoes it: after "ban, text, unban, same text"
    the banned set is what it was without that text, whatever the admin
    had pending before. *)
Theorem ban_then_unban_round_trip (adminNumber : option Z) (admin : Z)
    (txt : string) (w : World) :
  isAdmin adminNumber admin = true →
  let w1 := run adminNumber w [EvAction admin ActBanUser; EvText admin txt] in
  let w2 := run adminNumber w1 [EvAction admin ActUnbanUser; EvText admin txt] in
  bannedUsers w1 = {[JStr (JS.trim txt)]} ∪ bannedUsers w ∧
  bannedUsers w2 = bannedUsers w ∖ {[JStr (JS.trim txt)]} ∧
  (JStr (JS.trim txt) ∉ bannedUsers w → bannedUsers w2 = bannedUsers w).
Proof.
  intros Hadmin w1 w2.
  assert (Hfirst : bannedUsers w1 = {[JStr (JS.trim txt)]} ∪ bannedUsers w).
  { subst w1. unfold run. cbn [fold_left step].
    rewrite (on_text_dispatch _ _ _ _ Hadmin).
    rewrite (action_sets_state adminNumber admin AwaitingBanTarget ActBanUser w Hadmin eq_refl).
    cbv zeta. wred. rewrite (on_action_admin _ _ _ _ Hadmin). reflexivity. }
  assert (Hsecond : bannedUsers w2 = bannedUsers w1 ∖ {[JStr (JS.trim txt)]}).
  { subst w2. unfold run at 1. cbn [fold_left step].
    rewrite (on_text_dispatch _ _ _ _ Hadmin).
    rewrite (action_sets_state adminNumber admin AwaitingUnbanTarget ActUnbanUser w1 Hadmin
               eq_refl).
    cbv zeta. wred. rewrite (on_action_admin _ _ _ _ Hadmin). reflexivity. }
  split; [exact Hfirst|]. rewrite Hsecond, Hfirst. clear. split.
  - apply set_eq. intros y. rewrite !elem_of_difference, elem_of_union. tauto.
  - intros Hnot. apply set_eq. intros y.
    rewrite !elem_of_difference, elem_of_union, elem_of_singleton. split; [tauto|].
    intros Hy. split; [tauto|]. intros ->. contradiction.
Qed.

(** With "42" banned, the admin bans and unbans "42" followed by a no-break
    space (U+00A0): the text is stored trimmed, so the round ends with "42"
    unbanned. *)
Lemma ban_then_unban_round_trip_witness :
  let txt := String "4" (String "2" (String "194" (String "160" ""))) in
  let w := run (Some 1) world_one_file [EvAction 1 ActBanUser; EvText 1 "42"] in
  let w1 := run (Some 1) w [EvAction 1 ActBanUser; EvText 1 txt] in
  let w2 := run (Some 1) w1 [EvAction 1 ActUnbanUser; EvText 1 txt] in
  JS.trim txt = "42" ∧
  bannedUsers w = {[JStr "42"]} ∧
  bannedUsers w1 = {[JStr "42"]} ∪ bannedUsers w ∧
  bannedUsers w2 = bannedUsers w ∖ {[JStr "42"]}.
Proof.
  intros txt w w1 w2.
  destruct (ban_then_unban_round_trip (Some 1) 1 txt w) as (Hb1 & Hb2 & _); [reflexivity|].
  assert (Ht : JS.trim txt = "42") by (vm_compute; reflexivity).
  rewrite Ht in Hb1, Hb2.
  split; [exact Ht|]. split; [vm_compute; reflexivity|].
  split; [exact Hb1 | exact Hb2].
Defined.

(** X12: nobody but the admin gets past the console.  For a sender who is
    not the admin, every menu action only answers "not authorized", a free
    text and a message to the broadcast listener change nothing at all, and
    the four read-only console actions answer "not authorized". *)
Theorem non_admin_is_refused (adminNumber : option Z) (from : Z) (w : World) :
  isAdmin adminNumber from = false →
  (∀ act, exec (on_action adminNumber from act) w
          = push_effect (Reply from MsgNotAuthorized) w) ∧
  (∀ txt, exec (on_text adminNumber from txt) w = w) ∧
  (∀ message deliver, exec (on_broadcast_message adminNumber from message deliver) w = w) ∧
  on_referral_stats adminNumber from w = (Ok CrNotAuthorized, w) ∧
  (∀ today, on_daily_stats adminNumber from today w = (Ok CrNotAuthorized, w)) ∧
  (∀ listOk, on_view_files adminNumber from listOk w = (Ok CrNotAuthorized, w)) ∧
  on_total_users adminNumber from w = (Ok CrNotAuthorized, w).
Proof.
  intros Hna. repeat split.
  - intros act. destruct act; cbn [on_action];
      unfold on_add_slots, on_ban_user, on_unban_user, on_edit_default_slots,
        on_edit_referral_reward, on_broadcast; rewrite Hna; reflexivity.
  - intros txt. apply on_text_not_admin. exact Hna.
  - intros message deliver. unfold on_broadcast_message. mrun. rewrite Hna. reflexivity.
  - unfold on_referral_stats. rewrite Hna. reflexivity.
  - intros today. unfold on_daily_stats. rewrite Hna. reflexivity.
  - intros listOk. unfold on_view_files. rewrite Hna. reflexivity.
  - unfold on_total_users. rewrite Hna. reflexivity.
Qed.

Lemma non_admin_is_refused_witness :
  let w := world_admin_armed ActBanUser in
  exec (on_text (Some 1) 7 "8") w = w ∧
  exec (on_action (Some 1) 7 ActEditDefaultSlots) w
    = push_effect (Reply 7 MsgNotAuthorized) w.
Proof.
  intros w.
  destruct (non_admin_is_refused (Some 1) 7 w) as (Hact & Htxt & _); [reflexivity|].
  split; [apply Htxt | apply Hact].
Defined.

(** ** The referral graph *)

(** X13: the first /start of a new user with the id of an existing other
    user as payload appends the new user to that user's referrals, once,
    and so raises the referrer's allowance by exactly one slot, whatever
    [referralReward] says; the new user starts with the default stats. *)
Theorem referral_credits_one_slot (adminNumber : option Z) (referee : Z)
    (referrer first_name today now : string) (w : World) :
  JNum referee ∉ bannedUsers w →
  db_users w !! pretty referee = None →
  JS.truthy referrer = true →
  referrer ≠ pretty referee →
  is_Some (db_users w !! referrer) →
  pretty referee ∉ referrals (statsOf w referrer) →
  let w' := exec (on_start adminNumber referee first_name referrer today now) w in
  let s := statsOf w referrer in
  statsOf w' referrer
    = mkStats (fileCount s) (referrals s ++ [pretty referee]) (baseLimit s) (referralReward s) ∧
  allowance (statsOf w' referrer) = allowance s + 1 ∧
  statsOf w' (pretty referee) = mkStats 0 [] 2 None.
Proof.
  intros Hnb Hnone Htruthy Hne [d Hd] Hnotin w' s.
  assert (Hdb : db_users w' =
    <[pretty referee := mkUserDoc referee (if JS.truthy first_name then first_name else "Unknown")
                          now (Some (mkStats 0 [] 2 None))]>
      (<[referrer := mkUserDoc (chatId d) (name d) (joinedAt d)
            (Some (mkStats (fileCount s) (referrals s ++ [pretty referee])
                           (baseLimit s) (referralReward s)))]> (db_users w))).
  { subst w'. rewrite on_start_db, (bool_decide_eq_false_2 _ Hnb), Hnone, Htruthy.
    replace (String.eqb referrer (pretty referee)) with false
      by (symmetry; apply String.eqb_neq; exact Hne).
    cbn [negb andb]. rewrite Hd. cbv zeta.
    rewrite (bool_decide_eq_false_2 _ Hnotin). reflexivity. }
  assert (Hs' : statsOf w' referrer
    = mkStats (fileCount s) (referrals s ++ [pretty referee]) (baseLimit s) (referralReward s)).
  { unfold statsOf at 1. rewrite Hdb, lookup_insert_ne by congruence.
    rewrite lookup_insert_eq. reflexivity. }
  split; [exact Hs'|]. split.
  - rewrite Hs'. unfold allowance. cbn [baseLimit referrals].
    rewrite length_app. cbn [length]. lia.
  - unfold statsOf. rewrite Hdb, lookup_insert_eq. reflexivity.
Qed.

Lemma referral_credits_one_slot_witness :
  let w := exec (on_text (Some 1) 1 "3") (world_admin_armed ActEditReferralReward) in
  let w' := exec (on_start (Some 1) 8 "Bob" "7" "d" "t") w in
  referralReward (statsOf w "7") = Some 3 ∧
  allowance (statsOf w "7") = 2 ∧
  referrals (statsOf w' "7") = ["8"] ∧
  allowance (statsOf w' "7") = 3.
Proof.
  intros w w'. split; [vm_compute; reflexivity|]. split; [vm_compute; reflexivity|].
  destruct (referral_credits_one_slot (Some 1) 8 "7" "Bob" "d" "t" w) as (Hs & Ha & _).
  - apply not_elem_of_empty.
  - vm_compute. reflexivity.
  - reflexivity.
  - vm_compute. discriminate.
  - vm_compute. eexists. reflexivity.
  - vm_compute. apply not_elem_of_nil.
  - subst w'. split; [rewrite Hs | rewrite Ha]; vm_compute; reflexivity.
Defined.

Lemma same_referrals_db_eq w w' :
  db_users w' = db_users w → same_referrals w w'.
Proof.
  intros Heq. split; intros k.
  - rewrite (statsOf_ext _ _ k Heq). reflexivity.
  - rewrite Heq. auto.
Qed.

Lemma graph_ok_same w w' :
  same_referrals w w' → referral_graph_ok w → referral_graph_ok w'.
Proof.
  intros [Hrefs Hdocs] (Huniq & Hreg & Hself). split; [|split].
  - intros k1 k2 i1 i2 r. rewrite !Hrefs. apply Huniq.
  - intros k r. rewrite Hrefs. intros Hin. apply Hdocs. exact (Hreg k r Hin).
  - intros k. rewrite Hrefs. apply Hself.
Qed.

(** Handlers that do not write to the users collection. *)
Lemma step_keeps_db adminNumber w ev :
  match ev with
  | EvMyStats _ | EvMyFiles _ _ | EvDelete _ _ | EvAction _ _ | EvBroadcastMessage _ _ _ => True
  | _ => False
  end →
  db_users (step adminNumber w ev) = db_users w.
Proof.
  destruct ev; cbn [step]; try contradiction; intros _.
  all: match goal with
       | |- db_users (exec ?m ?w0) = _ =>
           let Hk := fresh "Hk" in
           assert (Hk : keeps db_users m); [| exact (Hk w0)]
       end.
  - unfold on_mystats. cbv zeta. frame.
  - unfold on_myfiles. frame.
  - unfold on_delete. cbv zeta. frame.
  - destruct a; cbn [on_action]; unfold on_add_slots, on_ban_user, on_unban_user,
      on_edit_default_slots, on_edit_referral_reward, on_broadcast; frame.
  - unfold on_broadcast_message. apply keeps_bind; [frame|]. intros w1.
    apply keeps_if; [frame|]. apply keeps_try_catch; [|frame].
    apply keeps_bind; [frame|]. intros _. apply keeps_bind; [frame|]. intros snapshot.
    apply keeps_if; [frame|]. apply keeps_bind; [|frame].
    apply keeps_broadcast_loop. reflexivity.
Qed.

(** A free text never changes a referrals sequence and never removes a
    document. *)
Lemma on_text_same_referrals adminNumber from txt w :
  same_referrals w (exec (on_text adminNumber from txt) w).
Proof.
  destruct (isAdmin adminNumber from) eqn:Hadmin.
  2:{ rewrite on_text_not_admin by exact Hadmin. apply same_referrals_db_eq. reflexivity. }
  rewrite (on_text_dispatch _ _ _ _ Hadmin). cbv zeta.
  destruct (conversationState w from); try (apply same_referrals_db_eq; reflexivity).
  - rewrite text_add_slots_run. cbv zeta.
    destruct (parse_add_slots (JS.trim txt)) as [[target slots]|];
      [|apply same_referrals_db_eq; reflexivity].
    destruct (db_users w !! target) as [d|] eqn:Hd; [|apply same_referrals_db_eq; reflexivity].
    split; intros k.
    + unfold statsOf. wred. rewrite lookup_insert.
      destruct (decide (target = k)) as [<-|Hne]; [rewrite Hd|]; reflexivity.
    + wred. rewrite lookup_insert. destruct (decide (target = k)); eauto.
  - rewrite text_default_slots_run. cbv zeta.
    destruct (JS.parseInt (JS.trim txt)) as [n|]; [|apply same_referrals_db_eq; reflexivity].
    destruct (n <? 1); [apply same_referrals_db_eq; reflexivity|].
    split; intros k.
    + change (statsOf (push_effect ?e ?w0) k) with (statsOf w0 k).
      rewrite statsOf_fmap_rewrite. unfold statsOf. wred.
      destruct (db_users w !! k); reflexivity.
    + wred. rewrite lookup_fmap. intros [d ->]. cbn. eauto.
  - rewrite text_referral_reward_run. cbv zeta.
    destruct (JS.parseInt (JS.trim txt)) as [n|]; [|apply same_referrals_db_eq; reflexivity].
    destruct (n <? 1); [apply same_referrals_db_eq; reflexivity|].
    split; intros k.
    + change (statsOf (push_effect ?e ?w0) k) with (statsOf w0 k).
      rewrite statsOf_fmap_rewrite. unfold statsOf. wred.
      destruct (db_users w !! k); reflexivity.
    + wred. rewrite lookup_fmap. intros [d ->]. cbn. eauto.
Qed.

Lemma quota_op_same_referrals adminNumber w ev :
  is_quota_op ev → same_referrals w (step adminNumber w ev).
Proof.
  intros Hop. split; intros k.
  - apply (quota_step adminNumber w ev k Hop).
  - destruct ev; cbn [is_quota_op step] in *; try contradiction.
    + destruct (on_document_db from file io w) as [-> | (d & _ & _ & _ & ->)]; [auto|].
      rewrite lookup_insert. destruct (decide (pretty from = k)); eauto.
    + destruct (on_del_db from fileName deleteOk w) as [-> | (d & _ & _ & _ & ->)]; [auto|].
      rewrite lookup_insert. destruct (decide (pretty from = k)); eauto.
Qed.

(** A /start keeps the referral graph well formed. *)
Lemma on_start_graph_ok adminNumber from first_name startPayload today now w :
  referral_graph_ok w →
  referral_graph_ok (exec (on_start adminNumber from first_name startPayload today now) w).
Proof.
  intros Hok.
  set (w' := exec (on_start adminNumber from first_name startPayload today now) w).
  pose proof (on_start_db adminNumber from first_name startPayload today now w) as Hdb.
  fold w' in Hdb.
  destruct (bool_decide (JNum from ∈ bannedUsers w));
    [exact (graph_ok_same _ _ (same_referrals_db_eq _ _ Hdb) Hok)|].
  destruct (db_users w !! pretty from) as [d0|] eqn:Hself;
    [exact (graph_ok_same _ _ (same_referrals_db_eq _ _ Hdb) Hok)|].
  set (init := mkUserDoc from (if JS.truthy first_name then first_name else "Unknown") now
                 (Some (mkStats 0 [] 2 None))) in Hdb.
  (* registration without attribution *)
  assert (Hplain : db_users w' = <[pretty from := init]> (db_users w) → referral_graph_ok w').
  { intros Heq. apply (graph_ok_same w w'); [|exact Hok]. split; intros k.
    - rewrite (statsOf_db_insert _ _ _ _ k Heq).
      destruct (decide (pretty from = k)) as [<-|Hne]; [|reflexivity].
      unfold statsOf. rewrite Hself. reflexivity.
    - rewrite Heq, lookup_insert. destruct (decide (pretty from = k)); eauto. }
  destruct (JS.truthy startPayload && negb (String.eqb startPayload (pretty from))) eqn:Hcond;
    [|exact (Hplain Hdb)].
  destruct (db_users w !! startPayload) as [d|] eqn:Href; [|exact (Hplain Hdb)].
  cbv zeta in Hdb.
  destruct (bool_decide (pretty from ∈ referrals (statsOf w startPayload))) eqn:Hin;
    [exact (Hplain Hdb)|].
  (* attribution *)
  apply andb_true_iff in Hcond as [_ Hne]. apply negb_true_iff, String.eqb_neq in Hne.
  apply bool_decide_eq_false in Hin.
  destruct Hok as (Huniq & Hreg & Hnoself).
  assert (Hfresh : ∀ k, pretty from ∉ referrals (statsOf w k)).
  { intros k Hk. destruct (Hreg k _ Hk) as [d1 Hd1]. congruence. }
  assert (Hst : ∀ k, referrals (statsOf w' k) =
            if decide (k = startPayload)
            then (referrals (statsOf w startPayload) ++ [pretty from])%list
            else referrals (statsOf w k)).
  { intros k. unfold statsOf at 1. rewrite Hdb, lookup_insert.
    destruct (decide (pretty from = k)) as [<-|Hk1].
    - rewrite decide_False by congruence. unfold statsOf. rewrite Hself. reflexivity.
    - rewrite lookup_insert. destruct (decide (startPayload = k)) as [<-|Hk2].
      + rewrite decide_True by reflexivity. reflexivity.
      + rewrite decide_False by congruence. reflexivity. }
  assert (Hold : ∀ k (i : nat) r, referrals (statsOf w' k) !! i = Some r → r ≠ pretty from →
                  referrals (statsOf w k) !! i = Some r).
  { intros k i r. rewrite Hst. destruct (decide (k = startPayload)) as [->|_]; [|auto].
    intros Hl Hr. apply lookup_app_Some in Hl as [Hl | [_ Hl]]; [exact Hl|].
    apply list_lookup_singleton_Some in Hl as [_ <-]. contradiction. }
  assert (Hnew : ∀ k (i : nat), referrals (statsOf w' k) !! i = Some (pretty from) →
                  k = startPayload ∧ i = length (referrals (statsOf w startPayload))).
  { intros k i. rewrite Hst. destruct (decide (k = startPayload)) as [->|_].
    - intros Hl. apply lookup_app_Some in Hl as [Hl | [Hge Hl]].
      + exfalso. apply (Hfresh startPayload). apply list_elem_of_lookup. eauto.
      + apply list_lookup_singleton_Some in Hl as [Hi _]. split; [reflexivity|lia].
    - intros Hl. exfalso. apply (Hfresh k). apply list_elem_of_lookup. eauto. }
  split; [|split].
  - intros k1 k2 i1 i2 r H1 H2.
    destruct (decide (r = pretty from)) as [->|Hr].
    + destruct (Hnew _ _ H1) as [-> ->]. destruct (Hnew _ _ H2) as [-> ->]. auto.
    + apply (Huniq k1 k2 i1 i2 r); apply Hold; assumption.
  - intros k r Hr. apply list_elem_of_lookup in Hr as [i Hi].
    rewrite Hdb, lookup_insert.
    destruct (decide (pretty from = r)) as [|Hne']; [eauto|].
    rewrite lookup_insert. destruct (decide (startPayload = r)); [eauto|].
    apply (Hreg k). apply list_elem_of_lookup. exists i. apply Hold; [exact Hi | congruence].
  - intros k Hk. apply list_elem_of_lookup in Hk as [i Hi].
    destruct (decide (k = pretty from)) as [->|Hkne].
    + destruct (Hnew _ _ Hi) as [Heq _]. congruence.
    + apply (Hnoself k). apply list_elem_of_lookup. exists i. apply Hold; assumption.
Qed.

Lemma step_graph_ok adminNumber w ev :
  referral_graph_ok w → referral_graph_ok (step adminNumber w ev).
Proof.
  intros Hok. destruct ev.
  - apply on_start_graph_ok. exact Hok.
  - apply (graph_ok_same w); [|exact Hok]. apply same_referrals_db_eq.
    apply (step_keeps_db adminNumber w (EvMyStats from)). exact I.
  - apply (graph_ok_same w); [|exact Hok].
    apply (quota_op_same_referrals adminNumber w (EvDocument from file io)). exact I.
  - apply (graph_ok_same w); [|exact Hok]. apply same_referrals_db_eq.
    apply (step_keeps_db adminNumber w (EvMyFiles from listOk)). exact I.
  - apply (graph_ok_same w); [|exact Hok]. apply same_referrals_db_eq.
    apply (step_keeps_db adminNumber w (EvDelete from listOk)). exact I.
  - apply (graph_ok_same w); [|exact Hok].
    apply (quota_op_same_referrals adminNumber w (EvDel from fileName deleteOk)). exact I.
  - apply (graph_ok_same w); [|exact Hok]. apply same_referrals_db_eq.
    apply (step_keeps_db adminNumber w (EvAction from a)). exact I.
  - apply (graph_ok_same w); [|exact Hok]. apply on_text_same_referrals.
  - apply (graph_ok_same w); [|exact Hok]. apply same_referrals_db_eq.
    apply (step_keeps_db adminNumber w (EvBroadcastMessage from message deliver)). exact I.
Qed.

(** X14: the handlers keep the referral graph well formed as long as each
    runs to its end before the next starts and Firestore rejects no write
    other than an [update] of a missing document.  From a fresh start and
    along any such sequence of events (any users, texts, files and storage
    outcomes), no referee id occurs twice, in one referrals sequence or in
    two; every referee has a document; and nobody is in their own
    sequence. *)
Theorem referral_graph_stays_well_formed (adminNumber : option Z) (evs : list Event) :
  referral_graph_ok (run adminNumber world0 evs).
Proof.
  assert (Hgen : ∀ w, referral_graph_ok w → referral_graph_ok (run adminNumber w evs)).
  { induction evs as [|ev evs IH]; intros w Hok; [exact Hok|].
    unfold run. cbn [fold_left]. apply IH. apply step_graph_ok. exact Hok. }
  apply Hgen. split; [|split].
  - intros k1 k2 i1 i2 r H1. cbn in H1. discriminate H1.
  - intros k r Hr. cbn in Hr. apply elem_of_nil in Hr. contradiction.
  - intros k Hk. cbn in Hk. apply elem_of_nil in Hk. contradiction.
Qed.

(** ** Daily usage *)

Lemma trackDailyUsage_run today userId w :
  trackDailyUsage today userId w = (Ok tt, set_db_dailyStats (track today userId) w).
Proof. reflexivity. Qed.

Lemma track_lookup today userId m day :
  track today userId m !! day =
  if decide (today = day)
  then match m !! today with
       | None => Some (mkDailyDoc [userId] 1)
       | Some data =>
           if bool_decide (userId ∈ daily_users data) then Some data
           else Some (mkDailyDoc (daily_users data ++ [userId]) (daily_count data + 1))
       end
  else m !! day.
Proof.
  unfold track. destruct (m !! today) as [data|] eqn:Hm.
  - destruct (bool_decide (userId ∈ daily_users data)).
    + destruct (decide (today = day)) as [<-|]; [exact Hm | reflexivity].
    + rewrite lookup_insert. destruct (decide (today = day)); reflexivity.
  - rewrite lookup_insert. destruct (decide (today = day)); reflexivity.
Qed.



(** Only /start writes to the [dailyStats] collection. *)
Lemma step_daily adminNumber w ev :
  db_dailyStats (step adminNumber w ev) =
  match ev with
  | EvStart from _ _ today _ => track today from (db_dailyStats w)
  | _ => db_dailyStats w
  end.
Proof.
  destruct ev; cbn [step].
  1:{ unfold on_start, exec. unfold mbind at 1, M_bind at 1. rewrite trackDailyUsage_run.
      match goal with |- db_dailyStats (snd (?m ?w0)) = _ =>
        assert (Hk : keeps db_dailyStats m) by (cbv zeta; frame); rewrite (Hk w0) end.
      reflexivity. }
  all: match goal with
       | |- db_dailyStats (exec ?m ?w0) = _ =>
           let Hk := fresh "Hk" in
           assert (Hk : keeps db_dailyStats m); [| exact (Hk w0)]
       end.
  - unfold on_mystats. cbv zeta. frame.
  - unfold on_document. cbv zeta. frame.
  - unfold on_myfiles. frame.
  - unfold on_delete. cbv zeta. frame.
  - unfold on_del. cbv zeta. frame.
  - destruct a; cbn [on_action]; unfold on_add_slots, on_ban_user, on_unban_user,
      on_edit_default_slots, on_edit_referral_reward, on_broadcast; frame.
  - unfold on_text, text_add_slots, text_default_slots, text_referral_reward. cbv zeta. frame.
  - unfold on_broadcast_message. apply keeps_bind; [frame|]. intros w1.
    apply keeps_if; [frame|]. apply keeps_try_catch; [|frame].
    apply keeps_bind; [frame|]. intros _. apply keeps_bind; [frame|]. intros snapshot.
    apply keeps_if; [frame|]. apply keeps_bind; [|frame].
    apply keeps_broadcast_loop. reflexivity.
Qed.

(** The record of a day after a run, in terms of who sent /start. *)
Lemma run_daily adminNumber day evs :
  ∀ w (S0 : list Z),
    match db_dailyStats w !! day with
    | None => S0 = []
    | Some d => daily_ok d ∧ daily_users d ≠ [] ∧ ∀ u, u ∈ daily_users d ↔ u ∈ S0
    end →
    match db_dailyStats (run adminNumber w evs) !! day with
    | None => (S0 ++ starters day evs)%list = []
    | Some d => daily_ok d ∧ daily_users d ≠ [] ∧
                ∀ u, u ∈ daily_users d ↔ u ∈ (S0 ++ starters day evs)%list
    end.
Proof.
  induction evs as [|ev evs IH]; intros w S0 Hinv.
  - cbn [starters run fold_left]. rewrite app_nil_r. exact Hinv.
  - unfold run. cbn [fold_left]. fold (run adminNumber (step adminNumber w ev) evs).
    assert (Hother : db_dailyStats (step adminNumber w ev) !! day = db_dailyStats w !! day →
                     starters day (ev :: evs) = starters day evs →
                     match db_dailyStats (run adminNumber (step adminNumber w ev) evs) !! day with
                     | None => (S0 ++ starters day (ev :: evs))%list = []
                     | Some d => daily_ok d ∧ daily_users d ≠ [] ∧
                                 ∀ u, u ∈ daily_users d ↔ u ∈ (S0 ++ starters day (ev :: evs))%list
                     end).
    { intros Hsame ->. apply IH. rewrite Hsame. exact Hinv. }
    pose proof (step_daily adminNumber w ev) as Hstep.
    destruct ev; try (apply Hother; [rewrite Hstep; reflexivity | reflexivity]).
    destruct (String.eqb_spec today day) as [Heq|Hne].
    2:{ apply Hother; [|cbn [starters]; destruct (String.eqb_spec today day); congruence].
        rewrite Hstep, track_lookup, decide_False by exact Hne. reflexivity. }
    clear Hother. subst today. cbn [starters]. rewrite String.eqb_refl.
    replace (S0 ++ from :: starters day evs)%list with ((S0 ++ [from]) ++ starters day evs)%list
      by (rewrite <- app_assoc; reflexivity).
    apply IH. rewrite Hstep, track_lookup, decide_True by reflexivity.
    destruct (db_dailyStats w !! day) as [data|].
    + destruct Hinv as ([Hnd Hcount] & Hne & Hmem).
      destruct (bool_decide (from ∈ daily_users data)) eqn:Hin.
      * apply bool_decide_eq_true in Hin. split; [split; assumption|]. split; [exact Hne|].
        intros u. rewrite elem_of_app, list_elem_of_singleton, <- Hmem.
        split; [auto | intros [Hu | ->]; assumption].
      * apply bool_decide_eq_false in Hin. split; [split|split].
        -- cbn. apply NoDup_app. split; [exact Hnd|]. split; [|apply NoDup_singleton].
           intros x Hx Hx'. apply list_elem_of_singleton in Hx'. subst x. contradiction.
        -- cbn. rewrite length_app, Hcount. cbn [length]. lia.
        -- cbn. destruct (daily_users data); discriminate.
        -- intros u. cbn [daily_users]. rewrite !elem_of_app, Hmem. reflexivity.
    + subst S0. split; [split; [apply NoDup_singleton | reflexivity]|].
      split; [discriminate|]. intros u. reflexivity.
Qed.

(** X16: what the admin reads in the daily statistics after the bot has
    been driven from a fresh start by any events: "no users today" when
    nobody sent /start that day, otherwise the number of distinct users who
    did, whether or not they were let in. *)
Theorem daily_stats_counts_distinct_starters (adminNumber : option Z) (admin : Z)
    (day : string) (evs : list Event) :
  isAdmin adminNumber admin = true →
  let w := run adminNumber world0 evs in
  on_daily_stats adminNumber admin day w =
  (Ok (if bool_decide (starters day evs = []) then CrNoUsersToday
       else CrDailyStats day (Z.of_nat (size (list_to_set (starters day evs) : gset Z)))), w).
Proof.
  intros Hadmin w. unfold on_daily_stats. rewrite Hadmin. cbn [negb]. mrun.
  pose proof (run_daily adminNumber day evs world0 [] eq_refl) as Hinv.
  fold w in Hinv. cbn [app] in Hinv.
  destruct (db_dailyStats w !! day) as [d|].
  - destruct Hinv as ([Hnd Hcount] & Hne & Hmem).
    rewrite bool_decide_eq_false_2.
    + do 3 f_equal. rewrite Hcount. f_equal.
      rewrite <- (size_list_to_set (C := gset Z) (daily_users d)) by exact Hnd.
      f_equal. apply set_eq. intros u. rewrite !elem_of_list_to_set. apply Hmem.
    + intros Hnil. rewrite Hnil in Hmem.
      destruct (daily_users d) as [|u us]; [contradiction|].
      specialize (Hmem u). rewrite elem_of_cons in Hmem.
      destruct Hmem as [Hmem _]. specialize (Hmem (or_introl eq_refl)).
      apply elem_of_nil in Hmem. exact Hmem.
  - rewrite Hinv. rewrite bool_decide_eq_true_2 by reflexivity. reflexivity.
Qed.

Lemma daily_stats_counts_distinct_starters_witness :
  let evs := [EvStart 7 "Ann" "" "mon" "t"; EvStart 8 "Bob" "7" "mon" "t";
              EvStart 7 "Ann" "" "mon" "t"; EvDocument 7 html_file io_ok;
              EvStart 9 "Cy" "" "tue" "t"] in
  fst (on_daily_stats (Some 1) 1 "mon" (run (Some 1) world0 evs)) = Ok (CrDailyStats "mon" 2) ∧
  fst (on_daily_stats (Some 1) 1 "wed" (run (Some 1) world0 evs)) = Ok CrNoUsersToday.
Proof.
  intros evs. split.
  - rewrite (daily_stats_counts_distinct_starters (Some 1) 1 "mon" evs eq_refl).
    vm_compute. reflexivity.
  - rewrite (daily_stats_counts_distinct_starters (Some 1) 1 "wed" evs eq_refl).
    vm_compute. reflexivity.
Defined.

(** ** The referral leaderboard *)

Lemma referral_scan_spec docs :
  ∀ total acc,
    fold_left referral_scan_step docs (total, acc)
    = (total + total_referrals docs, (acc ++ referrers_of docs)%list).
Proof.
  induction docs as [|doc docs IH]; intros total acc.
  - cbn. rewrite Z.add_0_r, app_nil_r. reflexivity.
  - cbn [fold_left total_referrals foldr referrers_of omap list_omap].
    unfold referral_scan_step at 2. cbv zeta. cbn [fst snd].
    fold (referral_count doc.2). fold (referrers_of docs). fold (total_referrals docs).
    destruct (0 <? referral_count doc.2); rewrite IH.
    + rewrite <- app_assoc, Z.add_assoc. reflexivity.
    + rewrite Z.add_assoc. reflexivity.
Qed.

Lemma insert_referrer_perm x l : insert_referrer x l ≡ₚ x :: l.
Proof.
  induction l as [|y l IH]; cbn [insert_referrer]; [reflexivity|].
  destruct (ref_referrals x <? ref_referrals y); [|reflexivity].
  rewrite IH. apply Permutation_swap.
Qed.

Lemma sort_referrers_perm l : sort_referrers l ≡ₚ l.
Proof.
  induction l as [|x l IH]; [reflexivity|].
  unfold sort_referrers. cbn [foldr]. fold (sort_referrers l).
  rewrite insert_referrer_perm. rewrite IH. reflexivity.
Qed.

Lemma insert_referrer_sorted x l :
  StronglySorted at_least_as_many l → StronglySorted at_least_as_many (insert_referrer x l).
Proof.
  induction 1 as [|y l Hl IH Hy]; cbn [insert_referrer].
  - constructor; [constructor | constructor].
  - destruct (Z.ltb_spec (ref_referrals x) (ref_referrals y)) as [Hlt|Hge].
    + constructor; [exact IH|].
      rewrite insert_referrer_perm. constructor; [unfold at_least_as_many; lia | exact Hy].
    + constructor; [constructor; assumption|].
      constructor; [exact Hge|].
      eapply Forall_impl; [exact Hy|]. unfold at_least_as_many. intros z Hz. cbn in *. lia.
Qed.

Lemma sort_referrers_sorted l : StronglySorted at_least_as_many (sort_referrers l).
Proof.
  induction l as [|x l IH]; [constructor|].
  unfold sort_referrers. cbn [foldr]. apply insert_referrer_sorted. exact IH.
Qed.

(** X17: the referral statistics.  For the admin and a non-empty users
    collection the reply carries the sum of all users' referral counts and
    the leaderboard: the users with at least one referral, ordered by
    falling count and cut after ten; whoever is cut off has no more
    referrals than anyone listed. *)
Theorem referral_stats_lists_top_referrers (adminNumber : option Z) (admin : Z) (w : World) :
  isAdmin adminNumber admin = true →
  db_users w ≠ ∅ →
  let docs := map_to_list (db_users w) in
  ∃ top rest,
    on_referral_stats adminNumber admin w
      = (Ok (CrReferralStats (total_referrals docs) top), w) ∧
    (top ++ rest)%list ≡ₚ referrers_of docs ∧
    StronglySorted at_least_as_many (top ++ rest)%list ∧
    length top = (10 `min` length (referrers_of docs))%nat ∧
    Forall (λ r, 0 < ref_referrals r) top.
Proof.
  intros Hadmin Hne docs.
  exists (take 10 (sort_referrers (referrers_of docs))),
         (drop 10 (sort_referrers (referrers_of docs))).
  assert (Hperm := sort_referrers_perm (referrers_of docs)).
  split; [|split; [|split; [|split]]].
  - unfold on_referral_stats, db_scan. rewrite Hadmin. cbn [negb]. mrun.
    fold docs. rewrite bool_decide_eq_false_2
      by (intros Hnil; apply Hne; apply map_to_list_empty_iff; exact Hnil).
    unfold referral_scan. rewrite referral_scan_spec. cbn [fst snd app].
    rewrite Z.add_0_l. reflexivity.
  - rewrite take_drop. exact Hperm.
  - rewrite take_drop. apply sort_referrers_sorted.
  - rewrite length_take. f_equal. apply Permutation_length. exact Hperm.
  - apply Forall_take. rewrite Hperm. unfold referrers_of.
    apply Forall_forall. intros r Hr.
    apply list_elem_of_omap in Hr as (doc & _ & Hdoc).
    destruct (Z.ltb_spec 0 (referral_count doc.2)); [|discriminate].
    injection Hdoc as <-. assumption.
Qed.

Lemma referral_stats_lists_top_referrers_witness :
  let w := run (Some 1) world0
             [EvStart 7 "Ann" "" "d" "t"; EvStart 8 "" "7" "d" "t"; EvStart 9 "Cy" "8" "d" "t";
              EvStart 10 "Di" "8" "d" "t"] in
  ∃ top, fst (on_referral_stats (Some 1) 1 w) = Ok (CrReferralStats 3 top) ∧
         length top = 2%nat ∧
         fst (on_referral_stats (Some 1) 1 w)
         = Ok (CrReferralStats 3 [mkReferrer "Unknown" 8 2; mkReferrer "Ann" 7 1]).
Proof.
  intros w.
  destruct (referral_stats_lists_top_referrers (Some 1) 1 w)
    as (top & rest & Hrun & _ & _ & Hlen & _).
  - reflexivity.
  - intros Hempty. apply (f_equal (λ m, m !! "7")) in Hempty. vm_compute in Hempty.
    discriminate Hempty.
  - exists top. split; [|split].
    + rewrite Hrun. reflexivity.
    + rewrite Hlen. vm_compute. reflexivity.
    + vm_compute. reflexivity.
Defined.

(** ** The user list in chunks *)

Lemma users_named_app a b : users_named (a ++ b) = users_named a + users_named b.
Proof. unfold users_named. rewrite List.filter_app, length_app. lia. Qed.

Lemma total_users_loop_spec docs :
  ∀ count userList,
    0 <= count →
    users_named userList = count mod 50 →
    let chunks := total_users_loop docs count userList in
    concat chunks = (userList ++ user_lines docs count)%list ∧
    Forall (λ chunk, chunk ≠ [] ∧ users_named chunk <= 50) chunks.
Proof.
  induction docs as [|doc docs IH]; intros count userList Hcount Hnamed chunks; subst chunks.
  - cbn [total_users_loop user_lines]. rewrite app_nil_r.
    destruct (bool_decide (userList = [])) eqn:Hnil.
    + apply bool_decide_eq_true in Hnil. subst. split; [reflexivity | constructor].
    + apply bool_decide_eq_false in Hnil. split; [cbn; apply app_nil_r|].
      constructor; [|constructor]. split; [exact Hnil|].
      rewrite Hnamed. pose proof (Z.mod_pos_bound count 50). lia.
  - cbn [total_users_loop user_lines]. cbv zeta.
    set (line := LineUser (count + 1) (if JS.truthy (name doc.2) then name doc.2 else "Unknown")
                          (chatId doc.2)).
    assert (Hline : users_named (userList ++ [line]) = count mod 50 + 1).
    { rewrite users_named_app, Hnamed. reflexivity. }
    pose proof (Z.mod_pos_bound count 50 ltac:(lia)) as Hbound.
    destruct (Z.eqb_spec ((count + 1) mod 50) 0) as [Hzero|Hnz].
    + destruct (IH (count + 1) [] ltac:(lia)) as [Hcat Hall].
      { rewrite Hzero. reflexivity. }
      split.
      * cbn [concat]. rewrite Hcat. cbn [app]. rewrite <- app_assoc. reflexivity.
      * constructor; [|exact Hall]. split; [destruct userList; discriminate|].
        rewrite Hline. lia.
    + destruct (IH (count + 1) (userList ++ [line])%list ltac:(lia)) as [Hcat Hall].
      { rewrite Hline. revert Hnz Hbound. clear.
        intros Hnz Hbound. Z.to_euclidean_division_equations. lia. }
      split; [|exact Hall].
      rewrite Hcat, <- app_assoc. reflexivity.
Qed.

(** X18: the user list.  For the admin and a non-empty users collection
    the messages sent, put end to end, are the header with the number of
    users followed by every user once, in snapshot order, numbered from 1;
    no message is empty and none names more than 50 users. *)
Theorem total_users_lists_every_user_once (adminNumber : option Z) (admin : Z) (w : World) :
  isAdmin adminNumber admin = true →
  db_users w ≠ ∅ →
  let docs := map_to_list (db_users w) in
  ∃ chunks,
    on_total_users adminNumber admin w = (Ok (CrUserChunks chunks), w) ∧
    concat chunks = LineHeader (Z.of_nat (length docs)) :: user_lines docs 0 ∧
    Forall (λ chunk, chunk ≠ [] ∧ users_named chunk <= 50) chunks.
Proof.
  intros Hadmin Hne docs.
  destruct (total_users_loop_spec docs 0 [LineHeader (Z.of_nat (length docs))])
    as [Hcat Hall]; [lia | reflexivity |].
  eexists. split; [|split; [exact Hcat | exact Hall]].
  unfold on_total_users, db_scan. rewrite Hadmin. cbn [negb]. mrun. fold docs.
  rewrite bool_decide_eq_false_2
    by (intros Hnil; apply Hne; apply map_to_list_empty_iff; exact Hnil).
  reflexivity.
Qed.

Lemma total_users_lists_every_user_once_witness :
  let w := run (Some 1) world0 [EvStart 7 "Ann" "" "d" "t"; EvStart 8 "" "7" "d" "t"] in
  ∃ chunks,
    fst (on_total_users (Some 1) 1 w) = Ok (CrUserChunks chunks) ∧
    concat chunks = [LineHeader 2; LineUser 1 "Ann" 7; LineUser 2 "Unknown" 8].
Proof.
  intros w.
  destruct (total_users_lists_every_user_once (Some 1) 1 w) as (chunks & Hrun & Hcat & _).
  - reflexivity.
  - intros Hempty. apply (f_equal (λ m, m !! "7")) in Hempty. vm_compute in Hempty.
    discriminate Hempty.
  - exists chunks. split; [rewrite Hrun; reflexivity|].
    rewrite Hcat. vm_compute. reflexivity.
Defined.

(** The loop at its boundary: exactly fifty users make one message and no
    empty second one; the fifty-first user starts a second message. *)
Example total_users_chunk_boundary :
  let docs n := map (λ i : nat, (pretty i, mkUserDoc (Z.of_nat i) "u" "t" None)) (seq 0 n) in
  map users_named (total_users_loop (docs 50%nat) 0 [LineHeader 50]) = [50] ∧
  map users_named (total_users_loop (docs 51%nat) 0 [LineHeader 51]) = [50; 1].
Proof. vm_compute. split; reflexivity. Qed.

(** ** The referral dashboard *)

(** X19: the referral dashboard is clamped against counters that are out
    of range.  For an allowance of at most 4096 it is built whatever
    [fileCount] holds, a negative one included: the fill of the slot bar is
    [fileCount] cut to the range from 0 to the allowance, fill and rest add
    up to the allowance (to 0 for a negative allowance), the referral dots
    are the number of referrals cut at 5 and add up to 5 with the blanks,
    and the reward shown is the number of referrals times the stored reward
    (1 if none or 0 is stored), while the allowance counts each referral
    once.  For an allowance above the longest string of the engine building
    the bar throws, and neither the dashboard nor the animation is sent. *)
Theorem refer_dashboard_is_clamped (from : Z) (w : World) :
  let s := statsOf w (pretty from) in
  let nrefs := Z.of_nat (length (referrals s)) in
  let reward := match referralReward s with
                | Some r => if r =? 0 then 1 else r
                | None => 1
                end in
  (allowance s <= 4096 →
   ∃ used remaining dots blanks,
     on_refer from w
       = (Ok (CrReferDashboard used (allowance s) remaining dots blanks reward (nrefs * reward)),
          push_effect (ReplyAnimation from) w) ∧
     (fileCount s < 0 → used = 0) ∧
     (0 <= fileCount s <= allowance s → used = fileCount s) ∧
     (allowance s < fileCount s → used = Z.max 0 (allowance s)) ∧
     0 <= remaining ∧ used + remaining = Z.max 0 (allowance s) ∧
     (nrefs <= 5 → dots = nrefs) ∧ (5 < nrefs → dots = 5) ∧
     0 <= blanks ∧ dots + blanks = 5) ∧
  (JS.maxStringLength < allowance s → on_refer from w = (Thrown ErrRange, w)).
Proof.
  intros s nrefs reward. unfold on_refer. cbv zeta. mrun. fold s. fold nrefs. fold reward.
  change (baseLimit s + nrefs) with (allowance s).
  set (total := allowance s).
  set (used := Z.max 0 (Z.min (fileCount s) total)).
  set (remaining := Z.max 0 (total - used)).
  set (dots := Z.min nrefs 5).
  set (blanks := Z.max 0 (5 - dots)).
  assert (Hn : 0 <= nrefs) by (subst nrefs; lia).
  split.
  - intros Hsmall. exists used, remaining, dots, blanks.
    replace (JS.repeatThrows 1 used || JS.repeatThrows 1 remaining
             || JS.concatThrows used remaining
             || JS.repeatThrows 2 dots || JS.repeatThrows 2 blanks) with false.
    2:{ symmetry. unfold JS.repeatThrows, JS.concatThrows, JS.maxStringLength.
        repeat (apply orb_false_iff; split); apply Z.ltb_ge;
          subst used remaining dots blanks; lia. }
    split; [reflexivity|].
    subst used remaining dots blanks. repeat split; lia.
  - intros Hbig.
    replace (JS.repeatThrows 1 used || JS.repeatThrows 1 remaining
             || JS.concatThrows used remaining) with true; [reflexivity|].
    symmetry. apply orb_true_iff. right.
    unfold JS.concatThrows. apply Z.ltb_lt.
    unfold JS.maxStringLength in *. subst used remaining. lia.
Qed.

(** The dashboard of user 7 in debt ([fileCount] -2, allowance 2), and of
    user 7 after the admin has added 2^31 slots. *)
Lemma refer_dashboard_is_clamped_witness :
  let w_big := run (Some 1) world_registered
                 [EvAction 1 ActAddSlots; EvText 1 "7 2147483648"] in
  fileCount (statsOf world_in_debt (pretty 7)) = -2 ∧
  on_refer 7 world_in_debt
    = (Ok (CrReferDashboard 0 2 2 0 5 1 0), push_effect (ReplyAnimation 7) world_in_debt) ∧
  allowance (statsOf w_big (pretty 7)) = 2147483650 ∧
  on_refer 7 w_big = (Thrown ErrRange, w_big).
Proof.
  intros w_big. split; [vm_compute; reflexivity|].
  destruct (refer_dashboard_is_clamped 7 world_in_debt) as [Hsmall _].
  destruct Hsmall as (used & remaining & dots & blanks & Hrun & Hneg & _ & _ & _ & Hsum
                      & Hdots & _ & _ & Hfive).
  { vm_compute. discriminate. }
  destruct (refer_dashboard_is_clamped 7 w_big) as [_ Hbig].
  split.
  - rewrite Hrun.
    assert (Hu : used = 0) by (apply Hneg; vm_compute; reflexivity).
    assert (Hd : dots = 0) by (rewrite Hdots; [vm_compute; reflexivity | vm_compute; discriminate]).
    assert (Hr : remaining = 2) by (rewrite Hu in Hsum; vm_compute in Hsum; lia).
    assert (Hb : blanks = 5) by lia.
    rewrite Hu, Hd, Hr, Hb. vm_compute. reflexivity.
  - split; [vm_compute; reflexivity|]. apply Hbig. vm_compute. reflexivity.
Defined.

(** ** Storage paths *)

Lemma pretty_N_go_slash_free (x : N) :
  ∀ s, slash_free s → slash_free (pretty_N_go x s).
Proof.
  induction (N.lt_wf_0 x) as [x _ IH]. intros s Hs.
  destruct (decide (x = 0)%N) as [->|Hx]; [rewrite pretty_N_go_0; exact Hs|].
  rewrite pretty_N_go_step by lia. apply IH.
  - apply N.div_lt; lia.
  - split; [|exact Hs]. unfold pretty_N_char. repeat case_match; discriminate.
Qed.

Lemma pretty_Z_slash_free (n : Z) : slash_free (pretty n).
Proof.
  assert (Hpos : ∀ p : positive, slash_free (pretty p)).
  { intros p. unfold pretty, pretty_positive, pretty, pretty_N.
    destruct (decide (N.pos p = 0)%N); [cbn; split; [discriminate | exact I]|].
    apply pretty_N_go_slash_free. exact I. }
  destruct n as [|p|p]; unfold pretty, pretty_Z.
  - cbn. split; [discriminate | exact I].
  - apply Hpos.
  - cbn. split; [discriminate | apply Hpos].
Qed.

Lemma app_slash_inj a :
  ∀ a' b b', slash_free a → slash_free a' →
             a +:+ String "/" b = a' +:+ String "/" b' → a = a' ∧ b = b'.
Proof.
  induction a as [|c a IH]; intros [|c' a'] b b' Ha Ha' Heq; cbn in *.
  - injection Heq as ->. auto.
  - injection Heq as <- _. destruct Ha' as [Hc _]. contradiction.
  - injection Heq as -> _. destruct Ha as [Hc _]. contradiction.
  - injection Heq as -> Heq. destruct Ha as [_ Ha]. destruct Ha' as [_ Ha'].
    destruct (IH a' b b' Ha Ha' Heq) as [-> ->]. auto.
Qed.

Lemma prefix_app p : ∀ s, String.prefix p s = true ↔ ∃ t, s = p +:+ t.
Proof.
  induction p as [|c p IH]; intros s.
  - split; [intros _; exists s; reflexivity | intros _; destruct s; reflexivity].
  - destruct s as [|c' s]; cbn.
    + split; [discriminate | intros [t Ht]; discriminate].
    + destruct (ascii_dec c c') as [<-|Hne].
      * rewrite IH. split; intros [t Ht]; exists t;
          [rewrite Ht; reflexivity | cbn in Ht; injection Ht as Ht; exact Ht].
      * split; [discriminate | intros [t Ht]; cbn in Ht; injection Ht as Hc _; congruence].
Qed.

Lemma string_app_assoc a b c : a +:+ (b +:+ c) = (a +:+ b) +:+ c.
Proof.
  induction a as [|x a IH]; [reflexivity|].
  change (String x (a +:+ (b +:+ c)) = String x ((a +:+ b) +:+ c)). f_equal. exact IH.
Qed.

Lemma uploadPath_prefix from fileName :
  JS.startsWith (uploadPath from fileName) (userPrefix from) = true.
Proof.
  unfold JS.startsWith, uploadPath, userPrefix. apply prefix_app. exists fileName.
  rewrite !string_app_assoc. reflexivity.
Qed.

Lemma uploadPath_unfold from fileName :
  uploadPath from fileName = "uploads/" +:+ (pretty from +:+ String "/" fileName).
Proof. reflexivity. Qed.

Lemma userPrefix_app from t :
  userPrefix from +:+ t = "uploads/" +:+ (pretty from +:+ String "/" t).
Proof. unfold userPrefix. rewrite <- !string_app_assoc. reflexivity. Qed.

(** Two paths agree, or one lies under a prefix, only for the same user. *)
Lemma uploadPath_inj x y nx ny :
  uploadPath x nx = uploadPath y ny → x = y ∧ nx = ny.
Proof.
  rewrite !uploadPath_unfold. intros Heq. apply (inj (String.app "uploads/")) in Heq.
  apply app_slash_inj in Heq as [Hp ->]; [|apply pretty_Z_slash_free..].
  split; [|reflexivity]. apply (inj pretty). exact Hp.
Qed.

Lemma uploadPath_under_prefix x y ny :
  JS.startsWith (uploadPath y ny) (userPrefix x) = true → x = y.
Proof.
  unfold JS.startsWith. rewrite prefix_app. intros [t Ht].
  rewrite uploadPath_unfold, userPrefix_app in Ht.
  apply (inj (String.app "uploads/")) in Ht.
  apply app_slash_inj in Ht as [Hp _]; [|apply pretty_Z_slash_free..].
  symmetry. apply (inj pretty). exact Hp.
Qed.

(** X20: the storage paths keep users apart.  The object name
    [uploads/<id>/<file name>] determines both the user and the file name,
    and it lies under another user's prefix [uploads/<id'>/] only if the
    two ids are equal; so an upload or a deletion by one user never changes
    an object of another user. *)
Theorem user_namespaces_are_disjoint (a b : Z) (na nb : string) :
  (uploadPath a na = uploadPath b nb → a = b ∧ na = nb) ∧
  (JS.startsWith (uploadPath b nb) (userPrefix a) = true ↔ a = b) ∧
  (a ≠ b → ∀ file io deleteOk w,
     storageBucket (exec (on_document a file io) w) !! uploadPath b nb
       = storageBucket w !! uploadPath b nb ∧
     storageBucket (exec (on_del a na deleteOk) w) !! uploadPath b nb
       = storageBucket w !! uploadPath b nb).
Proof.
  split; [apply uploadPath_inj|]. split; [split|].
  - apply uploadPath_under_prefix.
  - intros ->. apply uploadPath_prefix.
  - intros Hne file io deleteOk w. split.
    + destruct (on_document_bucket a file io w) as [-> | (_ & _ & f & ->)]; [reflexivity|].
      apply lookup_insert_ne. intros Heq. apply uploadPath_inj in Heq as [Heq _]. contradiction.
    + rewrite on_del_bucket. destruct deleteOk; [|reflexivity].
      apply lookup_delete_ne. intros Heq. apply uploadPath_inj in Heq as [Heq _].
      contradiction.
Qed.

Lemma user_namespaces_are_disjoint_witness :
  JS.startsWith (uploadPath 12 "a.html") (userPrefix 1) = false ∧
  storageBucket (exec (on_del 71 "a.html" true) world_one_file) !! uploadPath 7 "a.html"
    = storageBucket world_one_file !! uploadPath 7 "a.html".
Proof.
  split; [vm_compute; reflexivity|].
  destruct (user_namespaces_are_disjoint 71 7 "a.html" "a.html") as (_ & _ & Hkeep).
  apply (Hkeep ltac:(discriminate) html_file io_ok true world_one_file).
Defined.

(** ** The file list *)

Lemma files_of_elem from w path :
  path ∈ files_of from w ↔
  is_Some (storageBucket w !! path) ∧ JS.startsWith path (userPrefix from) = true.
Proof.
  unfold files_of. rewrite list_elem_of_In, filter_In, <- list_elem_of_In.
  rewrite list_elem_of_fmap. split.
  - intros [([k f] & -> & Hin) Hpre]. apply elem_of_map_to_list in Hin.
    split; [eauto | exact Hpre].
  - intros [[f Hf] Hpre]. split; [|exact Hpre].
    exists (path, f). split; [reflexivity|]. apply elem_of_map_to_list. exact Hf.
Qed.

(** X21: "My Files" shows a user exactly the stored objects under the
    user's own prefix, each once: every file the user has in the bucket is
    listed and no file of another user is; with nothing stored the answer is
    "no uploaded files". *)
Theorem myfiles_lists_exactly_own_files (from : Z) (w : World) :
  JNum from ∉ bannedUsers w →
  exec (on_myfiles from true) w
    = push_effect (Reply from (if bool_decide (files_of from w = [])
                               then MsgNoFiles else MsgFileList (files_of from w))) w ∧
  NoDup (files_of from w) ∧
  (∀ fileName, uploadPath from fileName ∈ files_of from w
               ↔ is_Some (storageBucket w !! uploadPath from fileName)) ∧
  (∀ other fileName, other ≠ from → uploadPath other fileName ∉ files_of from w).
Proof.
  intros Hnb. split; [|split; [|split]].
  - unfold on_myfiles, bucket_getFiles. mrun. rewrite (bool_decide_eq_false_2 _ Hnb).
    fold (files_of from w).
    destruct (files_of from w) as [|n ns]; reflexivity.
  - unfold files_of. apply NoDup_ListNoDup, List.NoDup_filter, NoDup_ListNoDup.
    apply NoDup_fst_map_to_list.
  - intros fileName. rewrite files_of_elem. split; [intros [H _]; exact H|].
    intros H. split; [exact H | apply uploadPath_prefix].
  - intros other fileName Hne Hin. apply files_of_elem in Hin as [_ Hpre].
    apply uploadPath_under_prefix in Hpre. congruence.
Qed.

Lemma myfiles_lists_exactly_own_files_witness :
  let w := run None world_one_file
             [EvStart 71 "Eve" "" "d" "t"; EvDocument 71 html_file io_ok] in
  exec (on_myfiles 7 true) w = push_effect (Reply 7 (MsgFileList ["uploads/7/a.html"])) w.
Proof.
  intros w.
  destruct (myfiles_lists_exactly_own_files 7 w) as (Hrun & _); [apply not_elem_of_empty|].
  rewrite Hrun. vm_compute. reflexivity.
Defined.

(** ** The delete menu *)

Lemma string_app_nil_r s : s +:+ "" = s.
Proof.
  induction s as [|x s IH]; [reflexivity|].
  change (String x (s +:+ "") = String x s). f_equal. exact IH.
Qed.

Lemma rev_app_app a : ∀ b, String.rev_app a b = String.rev_app a "" +:+ b.
Proof.
  induction a as [|x a IH]; intros b; [reflexivity|].
  cbn [String.rev_app]. rewrite (IH (String x b)), (IH (String x "")).
  rewrite <- string_app_assoc. reflexivity.
Qed.

Lemma split_go_slash_free n : ∀ cur,
  slash_free n → JS.split_go "/" cur n = [String.rev cur +:+ n].
Proof.
  induction n as [|c n IH]; intros cur Hn.
  - cbn [JS.split_go]. rewrite string_app_nil_r. reflexivity.
  - destruct Hn as [Hc Hn]. cbn [JS.split_go].
    destruct (Ascii.eqb_spec c "/"); [contradiction|].
    rewrite IH by exact Hn. f_equal. unfold String.rev. cbn [String.rev_app].
    rewrite (rev_app_app cur (String c "")), <- string_app_assoc. reflexivity.
Qed.

Lemma split_go_nonempty s : ∀ cur, JS.split_go "/" cur s ≠ [].
Proof.
  induction s as [|c s IH]; intros cur; cbn [JS.split_go]; [discriminate|].
  destruct (Ascii.eqb c "/"); [discriminate | apply IH].
Qed.

Lemma last_split_after_slash n s : ∀ cur,
  slash_free n → List.last (JS.split_go "/" cur (s +:+ String "/" n)) "" = n.
Proof.
  intros cur Hn. revert cur. induction s as [|c s IH]; intros cur.
  - change ("" +:+ String "/" n) with (String "/" n). cbn [JS.split_go].
    rewrite Ascii.eqb_refl, (split_go_slash_free n "" Hn). reflexivity.
  - change (String c s +:+ String "/" n) with (String c (s +:+ String "/" n)).
    cbn [JS.split_go]. destruct (Ascii.eqb c "/"); [|apply IH].
    specialize (IH ""). pose proof (split_go_nonempty (s +:+ String "/" n) "") as Hne.
    destruct (JS.split_go "/" "" (s +:+ String "/" n)); [contradiction | exact IH].
Qed.

(** X22: the delete menu round-trips for file names without a slash.  For
    a stored file of the user, the menu offers a button that carries the
    file's own name (the last segment of the object name), and pressing it
    with a successful [delete] removes exactly that object. *)
Theorem delete_menu_round_trip (from : Z) (fileName : string) (w : World) :
  JNum from ∉ bannedUsers w →
  slash_free fileName →
  is_Some (storageBucket w !! uploadPath from fileName) →
  ∃ buttons,
    exec (on_delete from true) w = push_effect (Reply from (MsgSelectFile buttons)) w ∧
    length buttons = length (files_of from w) ∧
    fileName ∈ buttons ∧
    storageBucket (exec (on_del from fileName true) w) = delete (uploadPath from fileName)
                                                           (storageBucket w).
Proof.
  intros Hnb Hfree Hstored.
  assert (Hin : uploadPath from fileName ∈ files_of from w).
  { apply files_of_elem. split; [exact Hstored | apply uploadPath_prefix]. }
  exists (map (λ n, List.last (JS.split "/" n) "") (files_of from w)).
  split; [|split; [|split]].
  - unfold on_delete, bucket_getFiles. mrun. rewrite (bool_decide_eq_false_2 _ Hnb).
    fold (files_of from w).
    destruct (files_of from w) as [|n ns]; [|reflexivity].
    apply elem_of_nil in Hin. contradiction.
  - apply length_map.
  - apply list_elem_of_fmap. exists (uploadPath from fileName). split; [|exact Hin].
    rewrite uploadPath_unfold, string_app_assoc. unfold JS.split.
    symmetry. apply last_split_after_slash. exact Hfree.
  - apply on_del_bucket.
Qed.

Lemma delete_menu_round_trip_witness :
  exec (on_delete 7 true) world_one_file
    = push_effect (Reply 7 (MsgSelectFile ["a.html"])) world_one_file ∧
  storageBucket (exec (on_del 7 "a.html" true) world_one_file) = ∅.
Proof.
  destruct (delete_menu_round_trip 7 "a.html" world_one_file) as (buttons & Hrun & _ & _ & Hdel).
  - apply not_elem_of_empty.
  - vm_compute. repeat split; discriminate.
  - vm_compute. eexists. reflexivity.
  - split; [vm_compute; reflexivity|]. rewrite Hdel. vm_compute. reflexivity.
Defined.

(** A file name with a slash does not round-trip: the button carries only
    its last segment, so pressing it asks for another object. *)
Example delete_menu_loses_directories :
  let w := run None world_registered
             [EvDocument 7 (mkDocument "site/a.html" "f" "text/html") io_ok] in
  exec (on_delete 7 true) w = push_effect (Reply 7 (MsgSelectFile ["a.html"])) w ∧
  outbox (exec (on_del 7 "a.html" true) w)
    = (outbox w ++ [Reply 7 (MsgFileNotFound "a.html")])%list.
Proof. vm_compute. split; reflexivity. Qed.

(** ** The broadcast listener is one-shot *)

(** X23: a broadcast is sent once.  When an armed admin sends a photo, a
    video or another message without text (a message that gets to the
    listener), then whatever the deliveries do, and also when there is no
    user to send to, handling it disarms the admin and writes to no user
    document; a further such message of the admin is then ignored until the
    broadcast button is pressed again. *)
Theorem broadcast_listener_is_one_shot (adminNumber : option Z) (admin : Z)
    (message : Message) (deliver : nat → Z → bool) (w : World) :
  isAdmin adminNumber admin = true →
  broadcastStates w !! admin = Some true →
  reaches_listener message →
  let w1 := exec (on_broadcast_message adminNumber admin message deliver) w in
  broadcastStates w1 !! admin = None ∧
  db_users w1 = db_users w ∧
  ∀ message' deliver',
    reaches_listener message' →
    exec (on_broadcast_message adminNumber admin message' deliver') w1 = w1.
Proof.
  intros Hadmin Harmed _ w1.
  assert (Hstate : broadcastStates w1 = delete admin (broadcastStates w) ∧
                   db_users w1 = db_users w).
  { subst w1. unfold on_broadcast_message, db_scan. mrun. rewrite Hadmin, Harmed.
    change (default false (Some true)) with true. mrun. cbv beta.
    destruct (bool_decide (map_to_list (db_users w) = [])); [split; reflexivity|].
    pose proof (keeps_broadcast_loop broadcastStates message deliver (map_to_list (db_users w))
                  (λ _ _, eq_refl) 0%nat 0 0 (set_broadcastStates (delete admin) w)) as Hk1.
    pose proof (keeps_broadcast_loop db_users message deliver (map_to_list (db_users w))
                  (λ _ _, eq_refl) 0%nat 0 0 (set_broadcastStates (delete admin) w)) as Hk2.
    destruct (broadcast_loop message deliver (map_to_list (db_users w)) 0 0 0
                (set_broadcastStates (delete admin) w)) as [[counts|e] w2];
      cbn [fst snd] in Hk1, Hk2; mrun; rewrite Hk1, Hk2; split; reflexivity. }
  destruct Hstate as [Hbs Hdb].
  assert (Hnone : broadcastStates w1 !! admin = None)
    by (rewrite Hbs; apply lookup_delete_eq).
  split; [exact Hnone|]. split; [exact Hdb|].
  intros message' deliver' _. unfold on_broadcast_message. mrun. rewrite Hadmin, Hnone.
  reflexivity.
Qed.

(** The admin broadcasts a photo with a caption to the one user; a second
    photo is ignored. *)
Lemma broadcast_listener_is_one_shot_witness :
  let w := world_admin_armed ActBroadcast in
  let message := mkMessage None (Some ["small"; "large"]) None (Some "look") in
  let w1 := exec (on_broadcast_message (Some 1) 1 message (λ _ _, true)) w in
  outbox w1 = (outbox w ++ [SendMessage (JNum 7) (MsgBroadcastPhoto "large" "look");
                            Reply 1 (MsgBroadcastResult 1 0)])%list ∧
  exec (on_broadcast_message (Some 1) 1 message (λ _ _, true)) w1 = w1.
Proof.
  intros w message w1. split; [vm_compute; reflexivity|].
  destruct (broadcast_listener_is_one_shot (Some 1) 1 message (λ _ _, true) w)
    as (_ & _ & Hagain).
  - reflexivity.
  - vm_compute. reflexivity.
  - reflexivity.
  - apply Hagain. reflexivity.
Defined.

(** The summary of a broadcast of a photo on a system with one user whose
    delivery fails. *)
Lemma on_broadcast_message_reports_witness :
  let w := world_admin_armed ActBroadcast in
  let message := mkMessage None (Some ["small"; "large"]) None (Some "look") in
  List.last (outbox (exec (on_broadcast_message (Some 1) 1 message (λ _ _, false)) w))
            ConsoleError
  = Reply 1 (MsgBroadcastResult 0 1).
Proof.
  intros w message.
  destruct (on_broadcast_message_reports (Some 1) 1 message (λ _ _, false) w) as [_ Hlast].
  - reflexivity.
  - vm_compute. reflexivity.
  - reflexivity.
  - intros Hempty. apply (f_equal (λ m, m !! "7")) in Hempty. vm_compute in Hempty.
    discriminate Hempty.
  - rewrite Hlast. vm_compute. reflexivity.
Defined.
